(** * ratio-hub/time: duration parsing, humanized formatting and instants

    A shallow embedding of [src/parse.ts], [src/format.ts], [src/duration.ts]
    and [src/time.ts], followed by the properties of the specification that
    were checked against it.

    Modelling conventions.
    - A JavaScript [number] is a value of [number]: [NaN], the two infinities,
      or a finite value carried as an exact rational.  Finite arithmetic is
      exact (no binary64 rounding, no overflow, no negative zero); the special
      values follow the IEEE 754 tables that JavaScript uses.  Finite results
      are kept in lowest terms, so that equal numbers are equal terms.
      A property that asserts an exact value is stated where the arithmetic
      of the code is exact as well: for integers of magnitude at most
      [2^53] ([exact_integer]) and for the time values of a [Date]
      ([time_value]).
    - A JavaScript [string] is a [string]; a character stands for the code
      unit of the same number (0 to 255).
    - A function that may [throw] returns a [result].
    - [Date.now()] is an explicit argument [clock]. *)

From Stdlib Require Import ZArith QArith Qround Qabs Qreduction.
From Stdlib Require Import String Ascii DecimalString List Bool Lia Lqa.
From stdpp Require Import gmap strings.
From Equations Require Import Equations.

Local Open Scope string_scope.

(** ** JavaScript numbers *)

Inductive number : Type :=
| NaN : number
| Inf (negative : bool) : number
| Fin (q : Q) : number.


(** An integer literal. *)
Definition int (z : Z) : number := Fin (inject_Z z).

Definition isNaN (x : number) : bool :=
  match x with NaN => true | _ => false end.

Definition Qsign_neg (q : Q) : bool := (Qnum q <? 0)%Z.
Definition Qis_zero (q : Q) : bool := (Qnum q =? 0)%Z.

(** Unary minus. *)
Definition num_neg (x : number) : number :=
  match x with
  | NaN => NaN
  | Inf s => Inf (negb s)
  | Fin q => Fin (Qred (- q))
  end.

(** [x + y]. *)
Definition num_add (x y : number) : number :=
  match x, y with
  | NaN, _ | _, NaN => NaN
  | Inf s, Inf t => if Bool.eqb s t then Inf s else NaN
  | Inf s, Fin _ => Inf s
  | Fin _, Inf t => Inf t
  | Fin a, Fin b => Fin (Qred (a + b))
  end.

(** [x - y]. *)
Definition num_sub (x y : number) : number := num_add x (num_neg y).

(** [x * y]. *)
Definition num_mul (x y : number) : number :=
  match x, y with
  | NaN, _ | _, NaN => NaN
  | Inf s, Inf t => Inf (xorb s t)
  | Inf s, Fin b => if Qis_zero b then NaN else Inf (xorb s (Qsign_neg b))
  | Fin a, Inf t => if Qis_zero a then NaN else Inf (xorb (Qsign_neg a) t)
  | Fin a, Fin b => Fin (Qred (a * b))
  end.

(** [x / y]; a finite zero divisor is the positive zero. *)
Definition num_div (x y : number) : number :=
  match x, y with
  | NaN, _ | _, NaN => NaN
  | Inf _, Inf _ => NaN
  | Inf s, Fin b => Inf (xorb s (Qsign_neg b))
  | Fin _, Inf _ => Fin 0
  | Fin a, Fin b =>
      if Qis_zero b then (if Qis_zero a then NaN else Inf (Qsign_neg a))
      else Fin (Qred (a / b))
  end.

(** [Math.abs]. *)
Definition Math_abs (x : number) : number :=
  match x with
  | NaN => NaN
  | Inf _ => Inf false
  | Fin q => Fin (Qred (Qabs q))
  end.

(** [Math.floor]. *)
Definition Math_floor (x : number) : number :=
  match x with
  | Fin q => int (Qfloor q)
  | _ => x
  end.

(** [Math.round]: the nearest integer, a tie going to the larger one. *)
Definition Math_round (x : number) : number :=
  match x with
  | Fin q => int (Qfloor (q + (1 # 2)))
  | _ => x
  end.

(** [x < y]; every comparison with [NaN] is false. *)
Definition num_lt (x y : number) : bool :=
  match x, y with
  | NaN, _ | _, NaN => false
  | Inf s, Inf t => s && negb t
  | Inf s, Fin _ => s
  | Fin _, Inf t => negb t
  | Fin a, Fin b => match (a ?= b)%Q with Lt => true | _ => false end
  end.

(** [x === y] on numbers. *)
Definition num_eq (x y : number) : bool :=
  match x, y with
  | NaN, _ | _, NaN => false
  | Inf s, Inf t => Bool.eqb s t
  | Fin a, Fin b => Qeq_bool a b
  | _, _ => false
  end.

(** [x <= y], [x > y], [x >= y]. *)
Definition num_le (x y : number) : bool := num_lt x y || num_eq x y.
Definition num_gt (x y : number) : bool := num_lt y x.
Definition num_ge (x y : number) : bool := num_le y x.

(** ** JavaScript strings *)

Definition code (c : ascii) : N := N_of_ascii c.

(** [\d] *)
Definition is_digit (c : ascii) : bool := (48 <=? code c)%N && (code c <=? 57)%N.

(** [[a-zA-Z]] *)
Definition is_alpha (c : ascii) : bool :=
  ((65 <=? code c)%N && (code c <=? 90)%N) || ((97 <=? code c)%N && (code c <=? 122)%N).

(** [\s], which is also what [trim] removes: TAB, LF, VT, FF, CR, space and
    the no-break space. *)
Definition is_space (c : ascii) : bool :=
  ((9 <=? code c)%N && (code c <=? 13)%N) || (code c =? 32)%N || (code c =? 160)%N.

Definition is_minus (c : ascii) : bool := (code c =? 45)%N.
Definition is_plus (c : ascii) : bool := (code c =? 43)%N.
Definition is_dot (c : ascii) : bool := (code c =? 46)%N.

(** The longest prefix whose characters satisfy [p], and the rest: what a
    greedy [p*] consumes. *)
Fixpoint span (p : ascii -> bool) (s : string) : string * string :=
  match s with
  | String c s' =>
      if p c then let (a, b) := span p s' in (String c a, b) else ("", s)
  | "" => ("", "")
  end.

Definition is_empty (s : string) : bool :=
  match s with "" => true | _ => false end.

(** [s.trimStart()], [s.trimEnd()], [s.trim()]. *)
Definition trimStart (s : string) : string := snd (span is_space s).

Fixpoint trimEnd (s : string) : string :=
  match s with
  | "" => ""
  | String c s' =>
      let r := trimEnd s' in
      if is_space c && is_empty r then "" else String c r
  end.

Definition trim (s : string) : string := trimStart (trimEnd s).

(** [s.toLowerCase()], on the ASCII letters; it is only ever applied to
    text matched by [[a-zA-Z]*]. *)
Definition lower (c : ascii) : ascii :=
  if (65 <=? code c)%N && (code c <=? 90)%N then ascii_of_N (code c + 32) else c.

Fixpoint toLowerCase (s : string) : string :=
  match s with
  | "" => ""
  | String c s' => String (lower c) (toLowerCase s')
  end.

(** [/^[\d.]+$/.test(s)] *)
Fixpoint all_chars (p : ascii -> bool) (s : string) : bool :=
  match s with
  | "" => true
  | String c s' => p c && all_chars p s'
  end.

Definition digits_and_dots (s : string) : bool :=
  negb (is_empty s) && all_chars (fun c => is_digit c || is_dot c) s.

(** The value of a run of decimal digits. *)
Definition digit_val (c : ascii) : Z := Z.of_N (code c) - 48.

Fixpoint digits_val (acc : Z) (s : string) : Z :=
  match s with
  | "" => acc
  | String c s' => digits_val (10 * acc + digit_val c) s'
  end.

(** An optional sign in front of a literal. *)
Definition strip_sign (s : string) : bool * string :=
  match s with
  | String c s' =>
      if is_minus c then (true, s') else if is_plus c then (false, s') else (false, s)
  | "" => (false, "")
  end.

(** [parseFloat(s)]: leading white space is skipped and the longest prefix
    that is a decimal literal (sign, digits, fraction, exponent, or
    [Infinity]) is converted; without such a prefix the result is [NaN]. *)
Definition parse_exponent (s : string) : Z :=
  match s with
  | String c s' =>
      if (code c =? 101)%N || (code c =? 69)%N then
        let (eneg, r) := strip_sign s' in
        let (ed, _) := span is_digit r in
        if is_empty ed then 0%Z
        else if eneg then (- digits_val 0 ed)%Z else digits_val 0 ed
      else 0%Z
  | "" => 0%Z
  end.

Definition parseFloat (s : string) : number :=
  let (neg, t) := strip_sign (trimStart s) in
  if String.prefix "Infinity" t then Inf neg
  else
    let (ip, r1) := span is_digit t in
    let '(fp, r2) :=
      match r1 with
      | String c r => if is_dot c then span is_digit r else ("", r1)
      | "" => ("", r1)
      end in
    if is_empty ip && is_empty fp then NaN
    else
      let mant := inject_Z (digits_val 0 (ip ++ fp)) in
      let e := (parse_exponent r2 - Z.of_nat (String.length fp))%Z in
      let v := (mant * Qpower 10 e)%Q in
      Fin (Qred (if neg then - v else v)).

(** [String(z)] for an integer [z] written in full. *)
Definition Z_to_string (z : Z) : string :=
  NilZero.string_of_int (Z.to_int z).

Fixpoint zeros (n : nat) : string :=
  match n with O => "" | S n' => String "0" (zeros n') end.

Fixpoint take (n : nat) (s : string) : string :=
  match n, s with
  | S n', String c s' => String c (take n' s')
  | _, _ => ""
  end.

Fixpoint drop (n : nat) (s : string) : string :=
  match n, s with
  | S n', String _ s' => drop n' s'
  | _, _ => s
  end.

(** The decimal exponent [n] of a positive [q]: [10^(n-1) <= q < 10^n]. *)
Definition decimal_exponent (q : Q) : Z :=
  let da := Z.of_nat (String.length (Z_to_string (Qnum q))) in
  let db := Z.of_nat (String.length (Z_to_string (Zpos (Qden q)))) in
  let n0 := (da - db)%Z in
  match (q ?= Qpower 10 n0)%Q with Lt => n0 | _ => (n0 + 1)%Z end.

(** The least [k] (at most [k + fuel]) such that [q = s * 10^(n-k)] for an
    integer [s], with that [s]. *)
Fixpoint exact_digits (fuel : nat) (k : Z) (n : Z) (q : Q) : option (Z * Z) :=
  let v := Qred (q * Qpower 10 (k - n)) in
  if (Zpos (Qden v) =? 1)%Z then Some (k, Qnum v)
  else match fuel with
       | O => None
       | S fuel' => exact_digits fuel' (k + 1)%Z n q
       end.

(** The digits of a positive [q]: the exact decimal expansion when it has
    at most 17 significant digits, and [q] rounded to 17 significant digits
    otherwise (a binary64 value never prints more). *)
Definition significant_digits (q : Q) : Z * Z * Z :=
  let n := decimal_exponent q in
  match exact_digits 16 1 n q with
  | Some (k, s) => (n, k, s)
  | None =>
      let s17 := Qfloor (q * Qpower 10 (17 - n) + (1 # 2)) in
      let q' := (inject_Z s17 * Qpower 10 (n - 17))%Q in
      let n' := decimal_exponent q' in
      match exact_digits 16 1 n' q' with
      | Some (k, s) => (n', k, s)
      | None => (n', 17%Z, s17)
      end
  end.

(** [Number.prototype.toString] in radix 10, as a template literal applies
    it to a number. *)
Definition positive_to_string (q : Q) : string :=
  let '(n, k, s) := significant_digits q in
  let ds := Z_to_string s in
  if ((k <=? n) && (n <=? 21))%Z then ds ++ zeros (Z.to_nat (n - k))
  else if ((0 <? n) && (n <=? 21))%Z then
    take (Z.to_nat n) ds ++ "." ++ drop (Z.to_nat n) ds
  else if ((-6 <? n) && (n <=? 0))%Z then "0." ++ zeros (Z.to_nat (- n)) ++ ds
  else
    let e := (n - 1)%Z in
    let es := (if (e <? 0)%Z then "-" else "+") ++ Z_to_string (Z.abs e) in
    if (k =? 1)%Z then ds ++ "e" ++ es
    else take 1 ds ++ "." ++ drop 1 ds ++ "e" ++ es.

Definition Number_toString (x : number) : string :=
  match x with
  | NaN => "NaN"
  | Inf s => if s then "-Infinity" else "Infinity"
  | Fin q =>
      if Qis_zero q then "0"
      else if Qsign_neg q then "-" ++ positive_to_string (- q)
      else positive_to_string q
  end.

(** ** Thrown errors *)

Inductive error : Type :=
| EmptyInput
| UnexpectedCharacters (chars input : string)
| InvalidNumber (numStr input : string)
| UnknownUnit (unitStr input : string)
| CouldNotParse (input : string)
| DivideByZero
| InvalidISO (s : string).

(** The message of the [Error] that is thrown. *)
Definition error_message (e : error) : string :=
  match e with
  | EmptyInput => "Invalid duration: empty string"
  | UnexpectedCharacters g i =>
      "Invalid duration: unexpected characters '" ++ g ++ "' in '" ++ i ++ "'"
  | InvalidNumber n i =>
      "Invalid duration: invalid number '" ++ n ++ "' in '" ++ i ++ "'"
  | UnknownUnit u i =>
      "Invalid duration: unknown unit '" ++ u ++ "' in '" ++ i ++ "'"
  | CouldNotParse i => "Invalid duration: could not parse '" ++ i ++ "'"
  | DivideByZero => "Cannot divide duration by zero"
  | InvalidISO s => "Invalid ISO date string: '" ++ s ++ "'"
  end.

Inductive result (A : Type) : Type :=
| Ok (a : A)
| Throw (e : error).
Arguments Ok {A} a.
Arguments Throw {A} e.

Definition bind {A B : Type} (r : result A) (k : A -> result B) : result B :=
  match r with
  | Ok a => k a
  | Throw e => Throw e
  end.

(** ** parse.ts *)

Definition MS_PER_SECOND : number := int 1000.
Definition MS_PER_MINUTE : number := num_mul MS_PER_SECOND (int 60).
Definition MS_PER_HOUR : number := num_mul MS_PER_MINUTE (int 60).
Definition MS_PER_DAY : number := num_mul MS_PER_HOUR (int 24).
Definition MS_PER_WEEK : number := num_mul MS_PER_DAY (int 7).
Definition MS_PER_YEAR : number := num_mul MS_PER_DAY (Fin 365.25).
Definition MS_PER_MONTH : number := num_div MS_PER_YEAR (int 12).

Definition UNIT_MAP : gmap string number :=
  list_to_map
    [ ("milliseconds", int 1); ("millisecond", int 1); ("msecs", int 1);
      ("msec", int 1); ("ms", int 1);
      ("seconds", MS_PER_SECOND); ("second", MS_PER_SECOND);
      ("secs", MS_PER_SECOND); ("sec", MS_PER_SECOND); ("s", MS_PER_SECOND);
      ("minutes", MS_PER_MINUTE); ("minute", MS_PER_MINUTE);
      ("mins", MS_PER_MINUTE); ("min", MS_PER_MINUTE); ("m", MS_PER_MINUTE);
      ("hours", MS_PER_HOUR); ("hour", MS_PER_HOUR); ("hrs", MS_PER_HOUR);
      ("hr", MS_PER_HOUR); ("h", MS_PER_HOUR);
      ("days", MS_PER_DAY); ("day", MS_PER_DAY); ("d", MS_PER_DAY);
      ("weeks", MS_PER_WEEK); ("week", MS_PER_WEEK); ("w", MS_PER_WEEK);
      ("months", MS_PER_MONTH); ("month", MS_PER_MONTH); ("mo", MS_PER_MONTH);
      ("years", MS_PER_YEAR); ("year", MS_PER_YEAR); ("yrs", MS_PER_YEAR);
      ("yr", MS_PER_YEAR); ("y", MS_PER_YEAR) ].

(** [UNIT_MAP[unit]], with [None] for [undefined].  [UNIT_MAP] is an object
    literal, so a key it does not own is looked up in [Object.prototype];
    of the names found there only [constructor] consists of lower-case
    letters.  Its value is a function, which [num * multiplier] turns into
    [NaN]: as a multiplier it is [NaN]. *)
Definition unit_multiplier (unit : string) : option number :=
  match UNIT_MAP !! unit with
  | Some m => Some m
  | None => if String.eqb unit "constructor" then Some NaN else None
  end.

(** A match of [COMPONENT_REGEX]: group 1 is [-?\d+\.?\d*], then comes
    [\s*], and group 2 is [[a-zA-Z]*]; the flag is [g]. *)
Record regex_match : Type := {
  skipped : string;  (* the text between [lastIndex] and [match.index] *)
  numStr : string;   (* group 1 *)
  unitStr : string;  (* group 2 *)
  rest : string      (* the text after the match, from the new [lastIndex] *)
}.

(** What a greedy [x?] consumes, for a character class [p]. *)
Definition optional (p : ascii -> bool) (s : string) : string * string :=
  match s with
  | String c s' => if p c then (String c "", s') else ("", s)
  | "" => ("", "")
  end.

(** The pattern anchored at the start of [s].  Every quantifier is greedy,
    and once [\d+] has a digit nothing after it can fail, so the first
    greedy attempt is the match; with no digit after the optional [-] there
    is none (without the [-] the pattern would have to start at the [-]). *)
Definition match_component (s : string) : option (string * string * string) :=
  let (sign, s1) := optional is_minus s in
  let (d1, s2) := span is_digit s1 in
  if is_empty d1 then None
  else
    let (dot, s3) := optional is_dot s2 in
    let (d2, s4) := span is_digit s3 in
    let (ws, s5) := span is_space s4 in
    let (u, s6) := span is_alpha s5 in
    Some (sign ++ d1 ++ dot ++ d2, u, s6).

(** [COMPONENT_REGEX.exec(parseStr)], where [s] is [parseStr] from
    [COMPONENT_REGEX.lastIndex] on: the leftmost position with a match. *)
Fixpoint exec (s : string) : option regex_match :=
  match match_component s with
  | Some (n, u, r) =>
      Some {| skipped := ""; numStr := n; unitStr := u; rest := r |}
  | None =>
      match s with
      | "" => None
      | String c s' =>
          match exec s' with
          | Some m =>
              Some {| skipped := String c (skipped m); numStr := numStr m;
                      unitStr := unitStr m; rest := rest m |}
          | None => None
          end
      end
  end.

(** The body of the [while] loop for one match [m]: the gap check, then the
    component's contribution.  The result is the new [totalMs] and
    [matched]; [continue] leaves them as they were. *)
Definition loop_body (input : string) (totalMs : number) (matched : bool)
    (m : regex_match) : result (number * bool) :=
  let gap := trim (skipped m) in
  if negb (is_empty gap) then Throw (UnexpectedCharacters gap input)
  else if is_empty (numStr m) then Ok (totalMs, matched)
  else
    let num := parseFloat (numStr m) in
    if isNaN num then Throw (InvalidNumber (numStr m) input)
    else
      let unit :=
        let l := toLowerCase (unitStr m) in if is_empty l then "ms" else l in
      match unit_multiplier unit with
      | None => Throw (UnknownUnit (unitStr m) input)
      | Some multiplier => Ok (num_add totalMs (num_mul num multiplier), true)
      end.

(** What follows the loop: [s] is [parseStr.slice(lastIndex)]. *)
Definition after_loop (input : string) (totalMs : number) (matched : bool)
    (s : string) : result number :=
  let trailing := trim s in
  if negb (is_empty trailing) then Throw (UnexpectedCharacters trailing input)
  else if negb matched then Throw (CouldNotParse input)
  else Ok totalMs.

(** The [while ((match = COMPONENT_REGEX.exec(parseStr)) !== null)] loop and
    the checks after it, from the state [totalMs], [matched] and
    [lastIndex], the latter given by the unread text [s]. *)
Equations? scan (input : string) (totalMs : number) (matched : bool)
    (s : string) : result number by wf (String.length s) lt :=
  scan input totalMs matched s with Logic.inspect (exec s) := {
    | exist _ None _ => after_loop input totalMs matched s
    | exist _ (Some m) Hm with loop_body input totalMs matched m => {
      | Throw e => Throw e
      | Ok (totalMs', matched') => scan input totalMs' matched' (rest m) } }.
Proof.
  clear - Hm.
  assert (Hspan : forall p t a b,
             span p t = (a, b) -> String.length b <= String.length t).
  { intros p t. induction t as [|c t IH]; simpl; intros a b H.
    - injection H as <- <-. simpl. lia.
    - destruct (p c).
      + destruct (span p t) as [a' b'] eqn:E. injection H as <- <-.
        specialize (IH _ _ eq_refl). lia.
      + injection H as <- <-. simpl. lia. }
  assert (Hopt : forall p t a b,
             optional p t = (a, b) -> String.length b <= String.length t).
  { intros p [|c t] a b; simpl; intros H.
    - injection H as <- <-. simpl. lia.
    - destruct (p c); injection H as <- <-; simpl; lia. }
  assert (Hmc : forall t n u r,
             match_component t = Some (n, u, r) ->
             String.length r < String.length t).
  { intros t n u r. unfold match_component.
    destruct (optional is_minus t) as [sign s1] eqn:E0. apply Hopt in E0.
    destruct (span is_digit s1) as [d1 s2] eqn:E1.
    destruct d1 as [|c1 d1]; simpl; [discriminate|].
    assert (H2 : S (String.length s2) <= String.length s1).
    { destruct s1 as [|c s1]; simpl in E1; [discriminate|].
      destruct (is_digit c); [|discriminate].
      destruct (span is_digit s1) as [a' b'] eqn:E. injection E1 as _ _ <-.
      apply Hspan in E. simpl. lia. }
    destruct (optional is_dot s2) as [dot s3] eqn:E2. apply Hopt in E2.
    destruct (span is_digit s3) as [d2 s4] eqn:E3. apply Hspan in E3.
    destruct (span is_space s4) as [ws s5] eqn:E4. apply Hspan in E4.
    destruct (span is_alpha s5) as [un s6] eqn:E5. apply Hspan in E5.
    intros H. injection H as _ _ <-. lia. }
  revert m Hm. induction s as [|c s IH]; intros m Hm.
  - simpl in Hm. discriminate.
  - simpl in Hm. cbn zeta in Hm.
    destruct (match_component (String c s)) as [[[n u] r]|] eqn:E.
    + injection Hm as <-. simpl. apply Hmc in E. exact E.
    + destruct (exec s) as [m'|] eqn:E'; [|discriminate].
      injection Hm as <-. simpl. specialize (IH _ eq_refl). lia.
Qed.

(** The leading sign: [isNegative] and [parseStr], from
    [str.startsWith('-')], [str.startsWith('+')] and [str.slice(1).trim()]. *)
Definition leading_sign (str : string) : bool * string :=
  match str with
  | String c tl =>
      if is_minus c then (true, trim tl)
      else if is_plus c then (false, trim tl)
      else (false, str)
  | "" => (false, str)
  end.

(** [parseDuration(input)]; the [typeof input !== 'string'] guard is
    discharged by the type of [input]. *)
Definition parseDuration (input : string) : result number :=
  let str := trim input in
  if is_empty str then Throw EmptyInput
  else
    let '(isNegative, parseStr) := leading_sign str in
    let bareNumber := parseFloat parseStr in
    if negb (isNaN bareNumber) && digits_and_dots parseStr then
      Ok (if isNegative then num_neg bareNumber else bareNumber)
    else
      bind (scan input (int 0) false parseStr) (fun totalMs =>
      Ok (if isNegative then num_neg totalMs else totalMs)).

(** ** duration.ts *)

Module Duration.

Record t : Type := new { ms : number }.

Definition milliseconds (n : number) : t := new n.
Definition seconds (n : number) : t := new (num_mul n MS_PER_SECOND).
Definition minutes (n : number) : t := new (num_mul n MS_PER_MINUTE).
Definition hours (n : number) : t := new (num_mul n MS_PER_HOUR).
Definition days (n : number) : t := new (num_mul n MS_PER_DAY).
Definition weeks (n : number) : t := new (num_mul n MS_PER_WEEK).
Definition months (n : number) : t := new (num_mul n MS_PER_MONTH).
Definition years (n : number) : t := new (num_mul n MS_PER_YEAR).
Definition zero : t := new (int 0).

Definition toMillis (d : t) : number := ms d.
Definition abs (d : t) : t := new (Math_abs (ms d)).
Definition negate (d : t) : t := new (num_neg (ms d)).

End Duration.

(** [DurationInput = StringValue | DurationLike]. *)
Inductive DurationInput : Type :=
| StringValue (s : string)
| DurationLike (d : Duration.t).

(** [normalizeToMillis(input)]; the final [throw] is unreachable for an
    input of this type. *)
Definition normalizeToMillis (input : DurationInput) : result number :=
  match input with
  | StringValue s => parseDuration s
  | DurationLike d => Ok (Duration.toMillis d)
  end.

(** [dur(input)]. *)
Definition dur (input : string) : result Duration.t :=
  bind (normalizeToMillis (StringValue input)) (fun ms =>
  Ok (Duration.milliseconds ms)).

(** ** format.ts *)

Record unit_descriptor : Type := {
  ms : number;
  short : string;
  long : string;
  longPlural : string
}.

Definition UNITS : list unit_descriptor :=
  [ {| ms := MS_PER_YEAR; short := "y"; long := "year"; longPlural := "years" |};
    {| ms := MS_PER_MONTH; short := "mo"; long := "month"; longPlural := "months" |};
    {| ms := MS_PER_WEEK; short := "w"; long := "week"; longPlural := "weeks" |};
    {| ms := MS_PER_DAY; short := "d"; long := "day"; longPlural := "days" |};
    {| ms := MS_PER_HOUR; short := "h"; long := "hour"; longPlural := "hours" |};
    {| ms := MS_PER_MINUTE; short := "m"; long := "minute"; longPlural := "minutes" |};
    {| ms := MS_PER_SECOND; short := "s"; long := "second"; longPlural := "seconds" |};
    {| ms := int 1; short := "ms"; long := "millisecond"; longPlural := "milliseconds" |} ].

(** [HumanizeOptions] and [FormatRelativeOptions]: [{ long?: boolean }]. *)
Record Options : Type := { opt_long : option bool }.

(** [options?.long ?? false] *)
Definition long_of (options : option Options) : bool :=
  match options with
  | Some {| opt_long := Some b |} => b
  | _ => false
  end.

(** What [humanize] returns once it has chosen [unit]. *)
Definition render (sign : string) (absMs : number) (isLong : bool)
    (unit : unit_descriptor) : string :=
  let value := Math_round (num_div absMs (ms unit)) in
  if isLong then
    let unitName := if num_eq value (int 1) then long unit else longPlural unit in
    sign ++ Number_toString value ++ " " ++ unitName
  else sign ++ Number_toString value ++ short unit.

(** The [for (const unit of UNITS)] loop of [humanize] with the fallback
    that follows it. *)
Fixpoint humanize_from (units : list unit_descriptor) (sign : string)
    (absMs : number) (isLong : bool) : string :=
  match units with
  | unit :: units' =>
      if num_ge absMs (ms unit) then render sign absMs isLong unit
      else humanize_from units' sign absMs isLong
  | [] =>
      if isLong then sign ++ Number_toString absMs ++ " milliseconds"
      else sign ++ Number_toString absMs ++ "ms"
  end.

Definition humanize (ms : number) (options : option Options) : string :=
  let isLong := long_of options in
  let absMs := Math_abs ms in
  let sign := if num_lt ms (int 0) then "-" else "" in
  if num_eq absMs (int 0) then (if isLong then "0 milliseconds" else "0ms")
  else humanize_from UNITS sign absMs isLong.

Definition formatRelative (diffMs : number) (options : option Options) : string :=
  let isLong := long_of options in
  let absDiff := Math_abs diffMs in
  let threshold := num_mul MS_PER_SECOND (int 10) in
  if num_lt absDiff threshold then
    if num_ge diffMs (int 0) then (if isLong then "in a moment" else "in a moment")
    else (if isLong then "just now" else "just now")
  else
    let duration := humanize absDiff (Some {| opt_long := Some isLong |}) in
    if num_gt diffMs (int 0) then "in " ++ duration
    else duration ++ " ago".

(** ** time.ts *)

(** A [Date], as far as [Time] uses it: its time value. *)
Record Date : Type := { getTime : number }.

Module Time.

(** The private field [#ms]. *)
Record t : Type := mk { ms : number }.

(** The private constructor. *)
Definition new (ms : number) : t := mk (Math_floor ms).

(** [Time | Date], the type of [other] and [of]. *)
Inductive other : Type :=
| ofTime (x : t)
| ofDate (d : Date).

(** [other instanceof Time ? other.#ms : other.getTime()] *)
Definition otherMs (o : other) : number :=
  match o with
  | ofTime x => ms x
  | ofDate d => getTime d
  end.

Definition now (clock : number) : t := new clock.
Definition seconds (unix : number) : t := new (num_mul unix MS_PER_SECOND).
Definition millis (unix : number) : t := new unix.


(** [Time.in(d)] *)
Definition in_ (clock : number) (d : DurationInput) : result t :=
  bind (normalizeToMillis d) (fun ms => Ok (new (num_add clock ms))).

Definition ago (clock : number) (d : DurationInput) : result t :=
  bind (normalizeToMillis d) (fun ms => Ok (new (num_sub clock ms))).

Definition add (x : t) (d : DurationInput) : result t :=
  bind (normalizeToMillis d) (fun ms' => Ok (new (num_add (ms x) ms'))).

Definition subtract (x : t) (d : DurationInput) : result t :=
  bind (normalizeToMillis d) (fun ms' => Ok (new (num_sub (ms x) ms'))).

Definition diff (x : t) (o : other) : Duration.t :=
  Duration.milliseconds (num_sub (ms x) (otherMs o)).

Definition isBefore (x : t) (o : other) : bool := num_lt (ms x) (otherMs o).
Definition isAfter (x : t) (o : other) : bool := num_gt (ms x) (otherMs o).
Definition equals (x : t) (o : other) : bool := num_eq (ms x) (otherMs o).
Definition isPast (clock : number) (x : t) : bool := num_lt (ms x) clock.
Definition isFuture (clock : number) (x : t) : bool := num_gt (ms x) clock.

(** [isWithin(duration, of?)]; without [of] the anchor is [Date.now()]. *)
Definition isWithin (clock : number) (x : t) (duration : DurationInput)
    (of_ : option other) : result bool :=
  bind (normalizeToMillis duration) (fun w =>
  let windowMs := Math_abs w in
  let anchorMs :=
    match of_ with
    | Some o => otherMs o
    | None => clock
    end in
  let diff := Math_abs (num_sub (ms x) anchorMs) in
  Ok (num_le diff windowMs)).

Definition toSeconds (x : t) : number :=
  Math_floor (num_div (ms x) MS_PER_SECOND).
Definition toMillis (x : t) : number := ms x.

Definition toRelative (clock : number) (x : t) (options : option Options) : string :=
  let diff := num_sub (ms x) clock in
  formatRelative diff options.

End Time.


(** ** duration.ts and time.ts: the remaining methods *)

(** The methods of [Duration] that take a [DurationInput] or a scalar, its
    predicates, conversions and formatting. *)
Module DurationMethods.

Definition add (d : Duration.t) (other : DurationInput) : result Duration.t :=
  bind (normalizeToMillis other) (fun o =>
  Ok (Duration.new (num_add (Duration.ms d) o))).

Definition subtract (d : Duration.t) (other : DurationInput) : result Duration.t :=
  bind (normalizeToMillis other) (fun o =>
  Ok (Duration.new (num_sub (Duration.ms d) o))).

Definition multiply (d : Duration.t) (n : number) : Duration.t :=
  Duration.new (num_mul (Duration.ms d) n).

Definition divide (d : Duration.t) (n : number) : result Duration.t :=
  if num_eq n (int 0) then Throw DivideByZero
  else Ok (Duration.new (num_div (Duration.ms d) n)).

Definition equals (d : Duration.t) (other : DurationInput) : result bool :=
  bind (normalizeToMillis other) (fun o => Ok (num_eq (Duration.ms d) o)).

Definition greaterThan (d : Duration.t) (other : DurationInput) : result bool :=
  bind (normalizeToMillis other) (fun o => Ok (num_gt (Duration.ms d) o)).

Definition lessThan (d : Duration.t) (other : DurationInput) : result bool :=
  bind (normalizeToMillis other) (fun o => Ok (num_lt (Duration.ms d) o)).

Definition greaterThanOrEqual (d : Duration.t) (other : DurationInput) : result bool :=
  bind (normalizeToMillis other) (fun o => Ok (num_ge (Duration.ms d) o)).

Definition lessThanOrEqual (d : Duration.t) (other : DurationInput) : result bool :=
  bind (normalizeToMillis other) (fun o => Ok (num_le (Duration.ms d) o)).

Definition isZero (d : Duration.t) : bool := num_eq (Duration.ms d) (int 0).
Definition isNegative (d : Duration.t) : bool := num_lt (Duration.ms d) (int 0).
Definition isPositive (d : Duration.t) : bool := num_gt (Duration.ms d) (int 0).

Definition toSeconds (d : Duration.t) : number := num_div (Duration.ms d) MS_PER_SECOND.
Definition toMinutes (d : Duration.t) : number := num_div (Duration.ms d) MS_PER_MINUTE.
Definition toHours (d : Duration.t) : number := num_div (Duration.ms d) MS_PER_HOUR.
Definition toDays (d : Duration.t) : number := num_div (Duration.ms d) MS_PER_DAY.
Definition toWeeks (d : Duration.t) : number := num_div (Duration.ms d) MS_PER_WEEK.

Definition humanize (d : Duration.t) (options : option Options) : string :=
  humanize (Duration.ms d) options.

Definition toString (d : Duration.t) : string := humanize d None.

End DurationMethods.

(** The expiration helpers of [Time]. *)
Module TimeMethods.

Definition hasExpired (clock : number) (x : Time.t) : bool := Time.isPast clock x.

(** [expiresWithin(duration)]: [Date.now()] is read twice, [clock] in
    [isFuture()] and [clock'] for the time left; the duration is only
    normalised when the instant is in the future. *)
Definition expiresWithin (clock clock' : number) (x : Time.t)
    (duration : DurationInput) : result bool :=
  if negb (Time.isFuture clock x) then Ok false
  else
    bind (normalizeToMillis duration) (fun windowMs =>
    let timeUntilExpiry := num_sub (Time.ms x) clock' in
    Ok (num_le timeUntilExpiry windowMs)).

(** [expiredWithin(duration)], with the two readings of the clock. *)
Definition expiredWithin (clock clock' : number) (x : Time.t)
    (duration : DurationInput) : result bool :=
  if negb (Time.isPast clock x) then Ok false
  else
    bind (normalizeToMillis duration) (fun windowMs =>
    let timeSinceExpiry := num_sub clock' (Time.ms x) in
    Ok (num_le timeSinceExpiry windowMs)).

End TimeMethods.

(** ** Vocabulary of the properties *)

(** The first character of [s], if any, does not satisfy [p]. *)
Definition stops (p : ascii -> bool) (s : string) : Prop :=
  match s with
  | "" => True
  | String c _ => p c = false
  end.

Definition starts_with_digit (s : string) : bool :=
  match s with
  | String c _ => is_digit c
  | "" => false
  end.

(** [s] contains a [+], or a [-] that is not directly followed by a digit. *)
Fixpoint stray_sign (s : string) : bool :=
  match s with
  | "" => false
  | String c s' =>
      is_plus c || (is_minus c && negb (starts_with_digit s')) || stray_sign s'
  end.

(** A character that is no sign. *)
Definition clean (c : ascii) : bool := negb (is_plus c || is_minus c).

(** The two kinds of error that report an unexpected character or an
    unknown unit. *)
Definition sign_error (e : error) : Prop :=
  match e with
  | UnexpectedCharacters _ _ | UnknownUnit _ _ => True
  | _ => False
  end.

(** A sign-less decimal number: digits, then possibly [.] and digits. *)
Definition decimal (n : string) : Prop :=
  exists c d1 frac,
    n = String c d1 ++ frac /\ is_digit c = true /\ all_chars is_digit d1 = true /\
    (frac = "" \/ exists d2, frac = String "." d2 /\ all_chars is_digit d2 = true).

(** A single component: a sign-less number, optional white space and a unit
    that [UNIT_MAP] lists (in any letter case). *)
Definition single_component (A : string) : Prop :=
  exists n ws u,
    A = n ++ ws ++ u /\ decimal n /\ all_chars is_space ws = true /\
    all_chars is_alpha u = true /\ is_Some (UNIT_MAP !! toLowerCase u).

(** The unit families, their accepted spellings (the unit types of
    [types.ts]) and their sizes in milliseconds as the specification gives
    them. *)
Inductive family : Type :=
| Millisecond | Second | Minute | Hour | Day | Week | Month | Year.

Definition spellings (f : family) : list string :=
  match f with
  | Millisecond => ["milliseconds"; "millisecond"; "msecs"; "msec"; "ms"]
  | Second => ["seconds"; "second"; "secs"; "sec"; "s"]
  | Minute => ["minutes"; "minute"; "mins"; "min"; "m"]
  | Hour => ["hours"; "hour"; "hrs"; "hr"; "h"]
  | Day => ["days"; "day"; "d"]
  | Week => ["weeks"; "week"; "w"]
  | Month => ["months"; "month"; "mo"]
  | Year => ["years"; "year"; "yrs"; "yr"; "y"]
  end.

Definition family_ms (f : family) : number :=
  match f with
  | Millisecond => int 1
  | Second => int 1000
  | Minute => int 60000
  | Hour => int 3600000
  | Day => int 86400000
  | Week => int 604800000
  | Month => num_div (num_mul (Fin 365.25) (int 86400000)) (int 12)
  | Year => num_mul (Fin 365.25) (int 86400000)
  end.

(** The order of JavaScript numbers: [NaN] is not comparable, the finite
    numbers are ordered as rationals, and the infinities lie outside them. *)
Inductive number_le : number -> number -> Prop :=
| number_le_Fin a b : (a <= b)%Q -> number_le (Fin a) (Fin b)
| number_le_neg_Inf y : y <> NaN -> number_le (Inf true) y
| number_le_pos_Inf x : x <> NaN -> number_le x (Inf false).



(** What an error thrown by the component scan of [input] looks like: it
    names [input] and either a non-empty trimmed run of unexpected
    characters, or an unknown unit made of letters, or nothing more. *)
Definition scan_error (input : string) (e : error) : Prop :=
  match e with
  | UnexpectedCharacters g i => i = input /\ g <> "" /\ trim g = g
  | UnknownUnit u i =>
      i = input /\ u <> "" /\ all_chars is_alpha u = true /\
      unit_multiplier (toLowerCase u) = None
  | CouldNotParse i => i = input
  | _ => False
  end.

(** The value that a call returns, if it returns. *)
Definition returned {A : Type} (r : result A) : option A :=
  match r with
  | Ok a => Some a
  | Throw _ => None
  end.

(** Equality of numbers as terms. *)
Definition number_eqb (x y : number) : bool :=
  match x, y with
  | NaN, NaN => true
  | Inf s, Inf t => Bool.eqb s t
  | Fin a, Fin b => (Qnum a =? Qnum b)%Z && (Qden a =? Qden b)%positive
  | _, _ => false
  end.

(** For each unit of [UNITS], the largest whole count that stays below the
    next larger unit (for years, which have none, 100). *)
Definition whole_counts : list (unit_descriptor * nat) :=
  combine UNITS [100; 11; 4; 6; 23; 59; 59; 999]%nat.

(** [unit] taken [k] times, in milliseconds. *)
Definition times (k : nat) (unit : unit_descriptor) : number :=
  num_mul (int (Z.of_nat k)) (ms unit).

(** Whether [k] units are shown as ["k<unit>"] and whether both the short
    and the long text parse back to the same number. *)
Definition round_trip_check (unit : unit_descriptor) (k : nat) : bool :=
  let v := times k unit in
  String.eqb (humanize v None) (Z_to_string (Z.of_nat k) ++ short unit) &&
  match parseDuration (humanize v None) with
  | Ok w => number_eqb w v
  | Throw _ => false
  end &&
  match parseDuration (humanize v (Some {| opt_long := Some true |})) with
  | Ok w => number_eqb w v
  | Throw _ => false
  end.

(** The factory of [Duration] for each unit family. *)
Definition factory (f : family) : number -> Duration.t :=
  match f with
  | Millisecond => Duration.milliseconds
  | Second => Duration.seconds
  | Minute => Duration.minutes
  | Hour => Duration.hours
  | Day => Duration.days
  | Week => Duration.weeks
  | Month => Duration.months
  | Year => Duration.years
  end.

(** The integers of magnitude at most [2^53].  Each of them is a JavaScript
    number, and the sum, difference or product of two of them that lies in
    this range again is computed without rounding, as is a quotient that is
    an integer. *)
Definition exact_integer (z : Z) : Prop := (Z.abs z <= 2 ^ 53)%Z.

(** The time values that a [Date] can hold. *)
Definition time_value (z : Z) : Prop := (Z.abs z <= 8640000000000000)%Z.

(** * Properties *)

#[local] Arguments String.append : simpl nomatch.
#[local] Arguments scan : simpl never.
#[local] Arguments unit_multiplier : simpl never.
#[local] Arguments parseFloat : simpl never.
#[local] Arguments Number_toString : simpl never.

(** ** Character classes *)

Ltac classes :=
  unfold is_digit, is_alpha, is_space, is_minus, is_plus, is_dot, lower in *;
  repeat match goal with
    | H : context [N.leb ?a ?b] |- _ => destruct (N.leb_spec a b)
    | H : context [N.eqb ?a ?b] |- _ => destruct (N.eqb_spec a b)
    | |- context [N.leb ?a ?b] => destruct (N.leb_spec a b)
    | |- context [N.eqb ?a ?b] => destruct (N.eqb_spec a b)
    end;
  simpl in *; try discriminate; try reflexivity; try (exfalso; lia).

Lemma digit_not_space c : is_digit c = true -> is_space c = false.
Proof. intros H. classes. Qed.

Lemma digit_not_alpha c : is_digit c = true -> is_alpha c = false.
Proof. intros H. classes. Qed.

Lemma digit_not_minus c : is_digit c = true -> is_minus c = false.
Proof. intros H. classes. Qed.

Lemma digit_not_plus c : is_digit c = true -> is_plus c = false.
Proof. intros H. classes. Qed.

Lemma alpha_not_digit c : is_alpha c = true -> is_digit c = false.
Proof. intros H. classes. Qed.

Lemma alpha_not_space c : is_alpha c = true -> is_space c = false.
Proof. intros H. classes. Qed.

Lemma alpha_not_dot c : is_alpha c = true -> is_dot c = false.
Proof. intros H. classes. Qed.

Lemma alpha_not_minus c : is_alpha c = true -> is_minus c = false.
Proof. intros H. classes. Qed.

Lemma space_not_minus c : is_space c = true -> is_minus c = false.
Proof. intros H. classes. Qed.

Lemma space_not_plus c : is_space c = true -> is_plus c = false.
Proof. intros H. classes. Qed.

Lemma plus_not_space c : is_plus c = true -> is_space c = false.
Proof. intros H. classes. Qed.

Lemma minus_not_space c : is_minus c = true -> is_space c = false.
Proof. intros H. classes. Qed.

Lemma is_minus_eq c : is_minus c = true -> c = "-"%char.
Proof.
  unfold is_minus, code. intros H. apply N.eqb_eq in H.
  rewrite <- (ascii_N_embedding c), H. reflexivity.
Qed.

Lemma is_dot_eq c : is_dot c = true -> c = "."%char.
Proof.
  unfold is_dot, code. intros H. apply N.eqb_eq in H.
  rewrite <- (ascii_N_embedding c), H. reflexivity.
Qed.

(** ** Strings *)

Lemma app_nil_r (s : string) : s ++ "" = s.
Proof. induction s as [|c s IH]; simpl; [reflexivity | now rewrite IH]. Qed.

Lemma app_assoc (a b c : string) : (a ++ b) ++ c = a ++ (b ++ c).
Proof. induction a as [|x a IH]; simpl; [reflexivity | now rewrite IH]. Qed.

Lemma is_empty_true s : is_empty s = true -> s = "".
Proof. destruct s; [reflexivity | discriminate]. Qed.

Lemma span_spec p s a b :
  span p s = (a, b) -> s = a ++ b /\ all_chars p a = true /\ stops p b.
Proof.
  revert a b. induction s as [|c s IH]; simpl; intros a b H.
  - injection H as <- <-. repeat split.
  - destruct (p c) eqn:Hc.
    + destruct (span p s) as [a' b'] eqn:E. injection H as <- <-.
      destruct (IH _ _ eq_refl) as (-> & Ha & Hb).
      simpl. rewrite Hc, Ha. repeat split. exact Hb.
    + injection H as <- <-. simpl. repeat split. exact Hc.
Qed.

Lemma span_app p a b :
  all_chars p a = true -> stops p b -> span p (a ++ b) = (a, b).
Proof.
  induction a as [|c a IH]; simpl; intros Ha Hb.
  - destruct b as [|c b]; simpl in *; [reflexivity | now rewrite Hb].
  - apply andb_true_iff in Ha as [Hc Ha]. rewrite Hc, (IH Ha Hb). reflexivity.
Qed.

Lemma span_stops p s : stops p s -> span p s = ("", s).
Proof. intros H. apply (span_app p "" s); [reflexivity | exact H]. Qed.

Lemma all_chars_app p a b :
  all_chars p (a ++ b) = all_chars p a && all_chars p b.
Proof.
  induction a as [|c a IH]; simpl; [reflexivity|].
  now rewrite IH, andb_assoc.
Qed.

Lemma all_chars_impl (p q : ascii -> bool) s :
  (forall c, p c = true -> q c = true) ->
  all_chars p s = true -> all_chars q s = true.
Proof.
  intros Hpq. induction s as [|c s IH]; simpl; [reflexivity|].
  intros H. apply andb_true_iff in H as [Hc Hs].
  now rewrite (Hpq _ Hc), IH.
Qed.

(** ** [trim] *)

Lemma trimStart_stops s : stops is_space s -> trimStart s = s.
Proof. intros H. unfold trimStart. now rewrite span_stops. Qed.

Lemma trimEnd_idem s : trimEnd (trimEnd s) = trimEnd s.
Proof.
  induction s as [|c s IH]; simpl; [reflexivity|].
  destruct (is_space c && is_empty (trimEnd s)) eqn:E; simpl; [reflexivity|].
  now rewrite IH, E.
Qed.

Lemma trimEnd_cons_nonspace c s :
  is_space c = false -> trimEnd (String c s) = String c (trimEnd s).
Proof. intros H. simpl. now rewrite H. Qed.

(** Text that ends in characters other than white space is not shortened at
    its end. *)
Lemma trimEnd_app a u :
  u <> "" -> all_chars (fun c => negb (is_space c)) u = true ->
  trimEnd (a ++ u) = a ++ u.
Proof.
  intros Hne Hu.
  assert (Hu' : trimEnd u = u).
  { clear Hne. induction u as [|c u IH]; simpl in *; [reflexivity|].
    apply andb_true_iff in Hu as [Hc Hu]. apply negb_true_iff in Hc.
    now rewrite Hc, (IH Hu). }
  induction a as [|c a IH]; simpl; [exact Hu'|].
  rewrite IH. destruct (a ++ u) eqn:E.
  - destruct a; simpl in E; [congruence | discriminate].
  - simpl. now rewrite andb_false_r.
Qed.

Lemma trim_empty_all_space s : all_chars is_space s = true -> trim s = "".
Proof.
  intros H. unfold trim.
  assert (E : trimEnd s = "").
  { induction s as [|c s IH]; simpl in *; [reflexivity|].
    apply andb_true_iff in H as [Hc Hs]. now rewrite Hc, (IH Hs). }
  now rewrite E.
Qed.

Lemma trimEnd_empty_all_space s : trimEnd s = "" -> all_chars is_space s = true.
Proof.
  induction s as [|c s IH]; simpl; [reflexivity|].
  destruct (is_space c) eqn:Hc; simpl; [|discriminate].
  destruct (trimEnd s) eqn:E; simpl; [|discriminate].
  intros _. now apply IH.
Qed.

(** [trim s] is empty exactly when [s] is white space. *)
Lemma trim_empty_iff s : trim s = "" <-> all_chars is_space s = true.
Proof.
  split; [|apply trim_empty_all_space].
  unfold trim, trimStart. intros H.
  destruct (span is_space (trimEnd s)) as [a b] eqn:E. simpl in H. subst b.
  apply span_spec in E as (E & Ha & _). rewrite app_nil_r in E.
  assert (Hs : trimEnd s = "").
  { destruct (trimEnd s) as [|c r] eqn:Er; [reflexivity|].
    exfalso. subst a.
    assert (Hl : forall t, trimEnd t <> "" ->
              all_chars is_space (trimEnd t) = false).
    { clear. induction t as [|c t IH]; simpl; [congruence|].
      destruct (is_space c) eqn:Hc; simpl.
      - destruct (trimEnd t) eqn:Et; simpl; [congruence|].
        intros _. rewrite Hc. simpl. apply IH. discriminate.
      - intros _. simpl. now rewrite Hc. }
    specialize (Hl s). rewrite Er in Hl. rewrite Hl in Ha; discriminate. }
  now apply trimEnd_empty_all_space.
Qed.

(** ** The component scan *)

Lemma scan_eq input t m s :
  scan input t m s =
  match exec s with
  | None => after_loop input t m s
  | Some mt =>
      match loop_body input t m mt with
      | Throw e => Throw e
      | Ok (t', m') => scan input t' m' (rest mt)
      end
  end.
Proof.
  unfold scan at 1. rewrite Subterm.FixWf_unfold.
  - cbn [pr1 pr2]. unfold scan_functional.
    change (exec s) with (proj1_sig (Logic.inspect (exec s))) at 2.
    generalize (Logic.inspect (exec s)). intros [[mt|] e]; cbn [proj1_sig].
    + unfold scan_clause_1, scan_clause_1_clause_2.
      destruct (loop_body input t m mt) as [[t' m']|]; reflexivity.
    + reflexivity.
  - intros [i [t0 [m0 s0]]] f g H. cbn [pr1 pr2].
    unfold scan_functional, scan_clause_1.
    destruct (Logic.inspect (exec s0)) as [[mt|] e]; [|reflexivity].
    unfold scan_clause_1_clause_2.
    destruct (loop_body i t0 m0 mt) as [[t' m']|]; [|reflexivity].
    apply H.
Qed.

Lemma exec_shorter s m :
  exec s = Some m -> String.length (rest m) < String.length s.
Proof. intros H. exact (scan_obligation_1 s m H). Qed.

(** Induction along the successive matches. *)
Lemma scan_induction (P : string -> Prop) :
  (forall s, (forall m, exec s = Some m -> P (rest m)) -> P s) ->
  forall s, P s.
Proof.
  intros step s. remember (String.length s) as n eqn:Hn.
  revert s Hn. induction n as [n IH] using lt_wf_ind. intros s ->.
  apply step. intros m Hm. apply (IH _ (exec_shorter _ _ Hm) _ eq_refl).
Qed.

Lemma exec_match s n u r :
  match_component s = Some (n, u, r) ->
  exec s = Some {| skipped := ""; numStr := n; unitStr := u; rest := r |}.
Proof.
  intros H. destruct s as [|c s]; [discriminate H|].
  unfold exec; fold exec. now rewrite H.
Qed.

(** A match comes from the pattern applied at some suffix. *)
Lemma exec_inv s m :
  exec s = Some m ->
  exists g s', s = g ++ s' /\ skipped m = g /\
    match_component s' = Some (numStr m, unitStr m, rest m).
Proof.
  revert m. induction s as [|c s IH]; intros m H.
  - discriminate.
  - simpl in H. cbn zeta in H.
    destruct (match_component (String c s)) as [[[n u] r]|] eqn:E.
    + injection H as <-. exists "", (String c s). simpl. auto.
    + destruct (exec s) as [m'|] eqn:E'; [|discriminate].
      injection H as <-. simpl.
      destruct (IH _ eq_refl) as (g & s' & -> & <- & Hm).
      exists (String c (skipped m')), s'. auto.
Qed.

Lemma optional_spec p s a b :
  optional p s = (a, b) ->
  s = a ++ b /\
  ((a = "" /\ stops p b) \/ (exists c, a = String c "" /\ p c = true)).
Proof.
  destruct s as [|c s]; simpl; intros H.
  - injection H as <- <-. split; [reflexivity | left; split; exact I || reflexivity].
  - destruct (p c) eqn:Hc; injection H as <- <-.
    + split; [reflexivity | right; eauto].
    + split; [reflexivity | left; split; [reflexivity | exact Hc]].
Qed.

(** The shape of a match: an optional [-], digits, an optional [.], digits,
    white space, letters. *)
Lemma match_component_inv s n u r :
  match_component s = Some (n, u, r) ->
  exists sign c d1 dot d2 ws,
    s = sign ++ String c d1 ++ dot ++ d2 ++ ws ++ u ++ r /\
    n = sign ++ String c d1 ++ dot ++ d2 /\
    (sign = "" \/ sign = "-") /\
    is_digit c = true /\ all_chars is_digit d1 = true /\
    (dot = "" \/ dot = ".") /\ all_chars is_digit d2 = true /\
    all_chars is_space ws = true /\ all_chars is_alpha u = true /\
    stops is_alpha r.
Proof.
  unfold match_component.
  destruct (optional is_minus s) as [sign s1] eqn:E0.
  destruct (span is_digit s1) as [d1 s2] eqn:E1.
  destruct d1 as [|c d1]; simpl; [discriminate|].
  destruct (optional is_dot s2) as [dot s3] eqn:E2.
  destruct (span is_digit s3) as [d2 s4] eqn:E3.
  destruct (span is_space s4) as [ws s5] eqn:E4.
  destruct (span is_alpha s5) as [un s6] eqn:E5.
  intros H. injection H as <- <- <-.
  apply optional_spec in E0 as (-> & Hsign).
  apply span_spec in E1 as (-> & Hd1 & _).
  apply optional_spec in E2 as (-> & Hdot).
  apply span_spec in E3 as (-> & Hd2 & _).
  apply span_spec in E4 as (-> & Hws & _).
  apply span_spec in E5 as (-> & Hu & Hr).
  simpl in Hd1. apply andb_true_iff in Hd1 as [Hc Hd1].
  exists sign, c, d1, dot, d2, ws. repeat split; auto.
  - destruct Hsign as [[-> _]|(c0 & -> & Hm)]; [now left | right].
    now rewrite (is_minus_eq _ Hm).
  - destruct Hdot as [[-> _]|(c0 & -> & Hm)]; [now left | right].
    now rewrite (is_dot_eq _ Hm).
Qed.

Lemma exec_numStr s m :
  exec s = Some m ->
  exists sign c t, (sign = "" \/ sign = "-") /\ is_digit c = true /\
    numStr m = sign ++ String c t.
Proof.
  intros H. apply exec_inv in H as (g & s' & _ & _ & H).
  apply match_component_inv in H
    as (sign & c & d1 & dot & d2 & ws & _ & Hn & Hs & Hc & _).
  exists sign, c, (d1 ++ dot ++ d2). repeat split; auto.
Qed.

(** [parseFloat] of group 1 is never [NaN]. *)
Lemma parseFloat_digit c t : is_digit c = true -> isNaN (parseFloat (String c t)) = false.
Proof.
  intros Hc. unfold parseFloat.
  rewrite trimStart_stops by (simpl; now apply digit_not_space).
  unfold strip_sign. rewrite (digit_not_minus _ Hc), (digit_not_plus _ Hc).
  unfold String.prefix.
  destruct (ascii_dec "I" c) as [<-|_]; [discriminate Hc|].
  unfold span; fold span.
  rewrite Hc. destruct (span is_digit t) as [a b].
  destruct b as [|c' b']; [reflexivity|].
  destruct (is_dot c'); [|reflexivity].
  destruct (span is_digit b'); reflexivity.
Qed.

Lemma parseFloat_minus_digit c t :
  is_digit c = true -> isNaN (parseFloat (String "-" (String c t))) = false.
Proof.
  intros Hc. unfold parseFloat.
  rewrite trimStart_stops by reflexivity.
  unfold strip_sign. change (is_minus "-") with true. cbv iota.
  unfold String.prefix.
  destruct (ascii_dec "I" c) as [<-|_]; [discriminate Hc|].
  unfold span; fold span.
  rewrite Hc. destruct (span is_digit t) as [a b].
  destruct b as [|c' b']; [reflexivity|].
  destruct (is_dot c'); [|reflexivity].
  destruct (span is_digit b'); reflexivity.
Qed.

Lemma exec_parseFloat s m :
  exec s = Some m ->
  is_empty (numStr m) = false /\ isNaN (parseFloat (numStr m)) = false.
Proof.
  intros H. apply exec_numStr in H as (sign & c & t & [->| ->] & Hc & ->); simpl.
  - split; [reflexivity | now apply parseFloat_digit].
  - split; [reflexivity | now apply parseFloat_minus_digit].
Qed.

(** ** Signs inside the text *)

Lemma stray_app_clean a b :
  all_chars clean a = true -> stray_sign (a ++ b) = stray_sign b.
Proof.
  induction a as [|c a IH]; simpl; [reflexivity|].
  intros H. apply andb_true_iff in H as [Hc Ha]. unfold clean in Hc.
  apply negb_true_iff, orb_false_iff in Hc as [-> ->]. simpl. now apply IH.
Qed.

Lemma digits_clean s : all_chars is_digit s = true -> all_chars clean s = true.
Proof.
  apply all_chars_impl. intros c H. unfold clean.
  now rewrite (digit_not_plus _ H), (digit_not_minus _ H).
Qed.

Lemma spaces_clean s : all_chars is_space s = true -> all_chars clean s = true.
Proof.
  apply all_chars_impl. intros c H. unfold clean.
  now rewrite (space_not_plus _ H), (space_not_minus _ H).
Qed.

Lemma letters_clean s : all_chars is_alpha s = true -> all_chars clean s = true.
Proof.
  apply all_chars_impl. intros c H. unfold clean.
  rewrite (alpha_not_minus _ H). classes.
Qed.

(** A match contains no stray sign: its only possible sign stands in front
    of a digit. *)
Lemma match_component_stray s n u r :
  match_component s = Some (n, u, r) -> stray_sign s = stray_sign r.
Proof.
  intros H. apply match_component_inv in H
    as (sign & c & d1 & dot & d2 & ws & -> & _ & Hs & Hc & Hd1 & Hdot & Hd2 & Hws & Hu & _).
  assert (E : stray_sign (String c d1 ++ dot ++ d2 ++ ws ++ u ++ r) = stray_sign r).
  { change (String c d1 ++ dot ++ d2 ++ ws ++ u ++ r)
      with (String c "" ++ d1 ++ dot ++ d2 ++ ws ++ u ++ r).
    rewrite stray_app_clean
      by (simpl; unfold clean;
          now rewrite (digit_not_plus _ Hc), (digit_not_minus _ Hc)).
    rewrite stray_app_clean by now apply digits_clean.
    rewrite stray_app_clean by (destruct Hdot as [->| ->]; reflexivity).
    rewrite stray_app_clean by now apply digits_clean.
    rewrite stray_app_clean by now apply spaces_clean.
    now rewrite stray_app_clean by now apply letters_clean. }
  destruct Hs as [->| ->]; [exact E|].
  simpl in *. rewrite Hc. simpl. exact E.
Qed.

Lemma stray_not_space s : stray_sign s = true -> all_chars is_space s = false.
Proof.
  induction s as [|c s IH]; simpl; [discriminate|].
  intros H. apply orb_true_iff in H as [H|H].
  - apply orb_true_iff in H as [H|H].
    + now rewrite (plus_not_space _ H).
    + apply andb_true_iff in H as [H _]. now rewrite (minus_not_space _ H).
  - rewrite (IH H). apply andb_false_r.
Qed.

Lemma stray_not_bare s : stray_sign s = true -> digits_and_dots s = false.
Proof.
  intros H. unfold digits_and_dots.
  assert (E : all_chars (fun c => is_digit c || is_dot c) s = false).
  { induction s as [|c s IH]; simpl in *; [discriminate|].
    apply orb_true_iff in H as [H|H].
    - apply orb_true_iff in H as [H|H].
      + assert (is_digit c || is_dot c = false) as -> by classes. reflexivity.
      + apply andb_true_iff in H as [H _].
        assert (is_digit c || is_dot c = false) as -> by classes. reflexivity.
    - rewrite (IH H). apply andb_false_r. }
  rewrite E. apply andb_false_r.
Qed.

Lemma exec_stray s m :
  exec s = Some m -> stray_sign s = true ->
  trim (skipped m) <> "" \/ stray_sign (rest m) = true.
Proof.
  revert m. induction s as [|c s IH]; intros m H Hs; [discriminate|].
  unfold exec in H; fold exec in H.
  destruct (match_component (String c s)) as [[[n u] r]|] eqn:E.
  - injection H as <-. simpl. right.
    now rewrite <- (match_component_stray _ _ _ _ E).
  - destruct (exec s) as [m'|] eqn:E'; [|discriminate].
    injection H as <-. simpl.
    destruct (stray_sign (rest m')) eqn:Hr; [now right | left].
    rewrite trim_empty_iff. simpl.
    destruct (is_space c) eqn:Hc; simpl; [|discriminate].
    simpl in Hs. rewrite (space_not_plus _ Hc), (space_not_minus _ Hc) in Hs.
    simpl in Hs. destruct (IH _ eq_refl Hs) as [Hg|Hg]; [|congruence].
    rewrite trim_empty_iff in Hg. now destruct (all_chars is_space (skipped m')).
Qed.

(** The scan of a text with a stray sign throws, whatever came before. *)
Lemma scan_stray input s :
  stray_sign s = true ->
  forall t mt, exists e, scan input t mt s = Throw e /\ sign_error e.
Proof.
  induction s as [s IH] using scan_induction. intros Hs t mt.
  rewrite scan_eq. destruct (exec s) as [m|] eqn:E.
  - unfold loop_body.
    destruct (is_empty (trim (skipped m))) eqn:Hg; unfold negb.
    + destruct (exec_parseFloat _ _ E) as [-> ->].
      destruct (unit_multiplier _) as [mult|]; [|eexists; split; [reflexivity | exact I]].
      apply (IH _ eq_refl).
      destruct (exec_stray _ _ E Hs) as [Hne|Hr]; [|exact Hr].
      apply is_empty_true in Hg. contradiction.
    + eexists; split; [reflexivity | exact I].
  - unfold after_loop.
    destruct (is_empty (trim s)) eqn:Hg; unfold negb.
    + apply is_empty_true, trim_empty_iff in Hg.
      now rewrite (stray_not_space _ Hs) in Hg.
    + eexists; split; [reflexivity | exact I].
Qed.

(** ** C1: signs after the leading position *)

(** C1, as stated, fails: in ["1h-30m"] the first match is ["1h"], the [-]
    comes after it, and [parseDuration] returns 1800000 instead of throwing:
    the [-] is read as the sign of the component ["-30m"]. *)
Lemma C1_internal_minus_accepted :
  exec "1h-30m" =
    Some {| skipped := ""; numStr := "1"; unitStr := "h"; rest := "-30m" |} /\
  exec "-30m" =
    Some {| skipped := ""; numStr := "-30"; unitStr := "m"; rest := "" |} /\
  parseDuration "1h-30m" = Ok (int 1800000).
Proof. repeat split; vm_compute; reflexivity. Qed.

(** C1 (amended): when the text that follows the optional leading sign
    contains a [+], or a [-] that is not directly followed by a digit,
    [parseDuration] throws, and the error reports unexpected characters or
    an unknown unit; a [-] directly in front of a digit is the sign of that
    component, as in ["1h-30m"], which is 3600000 - 1800000. *)
Theorem C1_stray_sign_rejected :
  (forall input : string,
      stray_sign (snd (leading_sign (trim input))) = true ->
      exists e, parseDuration input = Throw e /\ sign_error e) /\
  parseDuration "1h-30m" = Ok (num_sub (int 3600000) (int 1800000)).
Proof.
  split; [|vm_compute; reflexivity].
  intros input H. unfold parseDuration.
  destruct (trim input) as [|c str] eqn:Et; [discriminate H|].
  cbn [is_empty].
  destruct (leading_sign (String c str)) as [isNegative parseStr].
  cbn [snd] in H. rewrite (stray_not_bare _ H), andb_false_r.
  destruct (scan_stray input parseStr H (int 0) false) as (e & -> & He).
  exists e. split; [reflexivity | exact He].
Qed.

Lemma C1_witness :
  stray_sign (snd (leading_sign (trim "1h+30m"))) = true /\
  exists e, parseDuration "1h+30m" = Throw e /\ sign_error e.
Proof.
  split; [reflexivity|].
  apply (proj1 C1_stray_sign_rejected "1h+30m"). reflexivity.
Defined.

(** ** C2: the fast path for bare numbers *)

(** C2 fails on the code: ["1.2.3"] passes the test [/^[\d.]+$/],
    [parseFloat] reads its prefix ["1.2"], and [parseDuration] returns 1.2;
    the component scan, had it been reached, rejects the second dot. *)
Lemma C2_two_dots_accepted :
  digits_and_dots "1.2.3" = true /\
  parseFloat "1.2.3" = Fin (6 # 5) /\
  parseDuration "1.2.3" = Ok (Fin (6 # 5)) /\
  scan "1.2.3" (int 0) false "1.2.3" = Throw (UnexpectedCharacters "." "1.2.3").
Proof. repeat split; vm_compute; reflexivity. Qed.

(** The fast path takes every text of digits and dots that starts with a
    digit, however many dots it has, and returns what [parseFloat] reads. *)
Lemma fast_path_digits_and_dots c t :
  is_digit c = true -> digits_and_dots (String c t) = true ->
  parseDuration (String c t) = Ok (parseFloat (String c t)).
Proof.
  intros Hc Hb. unfold parseDuration.
  assert (Ht : trim (String c t) = String c t).
  { unfold trim. change (String c t) with ("" ++ String c t) at 1.
    rewrite (trimEnd_app "" (String c t)); [| discriminate |].
    - apply trimStart_stops. simpl. now apply digit_not_space.
    - unfold digits_and_dots in Hb. apply andb_true_iff in Hb as [_ Hb].
      revert Hb. apply all_chars_impl. intros x Hx.
      apply orb_true_iff in Hx as [Hx|Hx]; classes. }
  rewrite Ht. cbn [is_empty]. unfold leading_sign.
  rewrite (digit_not_minus _ Hc), (digit_not_plus _ Hc).
  now rewrite (parseFloat_digit c t Hc), Hb.
Qed.

(** ** Scanning one component *)

Lemma optional_stops p s : stops p s -> optional p s = ("", s).
Proof. destruct s as [|c s]; simpl; [reflexivity | now intros ->]. Qed.

(** White space followed by at least one letter starts with neither a
    digit nor a dot. *)
Lemma stops_space_letters (q : ascii -> bool) ws u r :
  (forall c, is_space c = true -> q c = false) ->
  (forall c, is_alpha c = true -> q c = false) ->
  all_chars is_space ws = true -> all_chars is_alpha u = true -> u <> "" ->
  stops q (ws ++ u ++ r).
Proof.
  intros Hs Ha Hws Hu Hne.
  destruct ws as [|c ws]; simpl in *.
  - destruct u as [|c u]; [congruence|]. simpl in *.
    apply andb_true_iff in Hu as [Hc _]. now apply Ha.
  - apply andb_true_iff in Hws as [Hc _]. now apply Hs.
Qed.

Lemma match_component_plain n ws u r :
  decimal n -> all_chars is_space ws = true -> all_chars is_alpha u = true ->
  u <> "" -> stops is_alpha r ->
  match_component (n ++ ws ++ u ++ r) = Some (n, u, r).
Proof.
  intros (c & d1 & frac & -> & Hc & Hd1 & Hfrac) Hws Hu Hne Hr.
  assert (Hdig : stops is_digit (ws ++ u ++ r))
    by (apply stops_space_letters; auto using alpha_not_digit;
        intros x Hx; classes).
  assert (Hdot : stops is_dot (ws ++ u ++ r))
    by (apply stops_space_letters; auto using alpha_not_dot;
        intros x Hx; classes).
  assert (Hsp : stops is_space (u ++ r)).
  { destruct u as [|x u]; [congruence|]. simpl in *.
    apply andb_true_iff in Hu as [Hx _]. now apply alpha_not_space. }
  unfold match_component. rewrite !app_assoc.
  rewrite optional_stops by (simpl; now apply digit_not_minus).
  destruct Hfrac as [->|(d2 & -> & Hd2)].
  - rewrite (span_app is_digit (String c d1) ("" ++ ws ++ u ++ r))
      by (simpl; auto; now rewrite Hc, Hd1).
    cbn [is_empty]. change ("" ++ ws ++ u ++ r) with (ws ++ u ++ r).
    rewrite (optional_stops _ _ Hdot), (span_stops _ _ Hdig).
    rewrite (span_app is_space ws (u ++ r) Hws Hsp).
    rewrite (span_app is_alpha u r Hu Hr).
    now rewrite !app_nil_r.
  - rewrite (span_app is_digit (String c d1) (String "." d2 ++ ws ++ u ++ r))
      by (simpl; auto; now rewrite Hc, Hd1).
    cbn [is_empty].
    change (optional is_dot (String "." d2 ++ ws ++ u ++ r))
      with (String "."%char "", d2 ++ ws ++ u ++ r).
    cbv beta iota.
    rewrite (span_app is_digit d2 (ws ++ u ++ r) Hd2 Hdig).
    rewrite (span_app is_space ws (u ++ r) Hws Hsp).
    rewrite (span_app is_alpha u r Hu Hr).
    reflexivity.
Qed.

Lemma decimal_parseFloat n :
  decimal n -> is_empty n = false /\ isNaN (parseFloat n) = false.
Proof.
  intros (c & d1 & frac & -> & Hc & _). split; [reflexivity|].
  now apply (parseFloat_digit c (d1 ++ frac)).
Qed.

Lemma toLowerCase_empty u : is_empty (toLowerCase u) = is_empty u.
Proof. destruct u; reflexivity. Qed.

Lemma trim_nil : trim "" = "".
Proof. reflexivity. Qed.

(** One pass of the loop over a component with a recognised unit. *)
Lemma scan_component input t mt n ws u r mult :
  decimal n -> all_chars is_space ws = true -> all_chars is_alpha u = true ->
  u <> "" -> stops is_alpha r ->
  unit_multiplier (toLowerCase u) = Some mult ->
  scan input t mt (n ++ ws ++ u ++ r) =
  scan input (num_add t (num_mul (parseFloat n) mult)) true r.
Proof.
  intros Hn Hws Hu Hne Hr Hm.
  rewrite scan_eq.
  rewrite (exec_match _ _ _ _ (match_component_plain n ws u r Hn Hws Hu Hne Hr)).
  unfold loop_body. cbn [skipped numStr unitStr rest].
  rewrite trim_nil. cbn [is_empty negb].
  destruct (decimal_parseFloat n Hn) as [-> ->].
  rewrite toLowerCase_empty.
  destruct u as [|x u]; [congruence|]. cbn [is_empty].
  now rewrite Hm.
Qed.

Lemma scan_end input t : scan input t true "" = Ok t.
Proof. rewrite scan_eq. reflexivity. Qed.

Lemma bind_Ok {A : Type} (r : result A) : bind r (fun a => Ok a) = r.
Proof. destruct r; reflexivity. Qed.

(** A text from a digit to a final letter has no leading sign and is no
    bare number: it goes to the component scan as it is. *)
Lemma parseDuration_plain c Y a u :
  String c Y = a ++ u -> is_digit c = true ->
  u <> "" -> all_chars is_alpha u = true ->
  parseDuration (String c Y) = scan (String c Y) (int 0) false (String c Y).
Proof.
  intros E Hc Hne Hu. unfold parseDuration.
  assert (Ht : trim (String c Y) = String c Y).
  { unfold trim. rewrite E, trimEnd_app, <- E; auto.
    - apply trimStart_stops. simpl. now apply digit_not_space.
    - revert Hu. apply all_chars_impl. intros x Hx.
      now rewrite (alpha_not_space _ Hx). }
  rewrite Ht. cbn [is_empty]. unfold leading_sign.
  rewrite (digit_not_minus _ Hc), (digit_not_plus _ Hc).
  assert (Hb : digits_and_dots (String c Y) = false).
  { unfold digits_and_dots. rewrite E, all_chars_app.
    destruct u as [|x u]; [congruence|]. simpl in Hu |- *.
    apply andb_true_iff in Hu as [Hx _].
    rewrite (alpha_not_digit _ Hx), (alpha_not_dot _ Hx). simpl.
    now rewrite !andb_false_r. }
  rewrite Hb, andb_false_r. apply bind_Ok.
Qed.

(** ** C5: the unit table *)

Lemma lower_alpha c : is_alpha (lower c) = true -> is_alpha c = true.
Proof.
  unfold lower. destruct ((65 <=? code c)%N && (code c <=? 90)%N) eqn:E.
  - intros _. unfold is_alpha. now rewrite E.
  - auto.
Qed.

Lemma toLowerCase_alpha s :
  all_chars is_alpha (toLowerCase s) = true -> all_chars is_alpha s = true.
Proof.
  induction s as [|c s IH]; simpl; [reflexivity|].
  intros H. apply andb_true_iff in H as [Hc Hs].
  now rewrite (lower_alpha _ Hc), IH.
Qed.

Lemma decimal_one : decimal "1".
Proof. exists "1"%char, "", "". repeat split. now left. Qed.

Lemma parseDuration_one tok mult :
  all_chars is_alpha tok = true -> tok <> "" ->
  unit_multiplier (toLowerCase tok) = Some mult ->
  parseDuration ("1" ++ tok) = Ok (num_add (int 0) (num_mul (int 1) mult)).
Proof.
  intros Ha Hne Hm.
  change ("1" ++ tok) with (String "1" tok).
  rewrite (parseDuration_plain "1" tok "1" tok) by auto.
  change (String "1" tok) with ("1" ++ "" ++ tok) at 2.
  rewrite <- (app_nil_r tok) at 2.
  rewrite (scan_component _ _ _ "1" "" tok "" mult decimal_one) by (simpl; auto).
  apply scan_end.
Qed.

Lemma spellings_table f k :
  In k (spellings f) ->
  all_chars is_alpha k = true /\ k <> "" /\
  unit_multiplier k = Some (family_ms f) /\
  num_add (int 0) (num_mul (int 1) (family_ms f)) = family_ms f.
Proof.
  destruct f; simpl; intros H;
    repeat (destruct H as [<-|H]; [repeat split; try discriminate; vm_compute; reflexivity|]);
    contradiction.
Qed.

(** C5: for every unit family and every spelling of its token, in any letter
    case, [parseDuration("1" + token)] is the family's size in
    milliseconds. *)
Theorem C5_unit_table (f : family) (token : string) :
  In (toLowerCase token) (spellings f) ->
  parseDuration ("1" ++ token) = Ok (family_ms f).
Proof.
  intros H. apply spellings_table in H as (Ha & Hne & Hm & Hv).
  rewrite (parseDuration_one token (family_ms f)); [now rewrite Hv | | | exact Hm].
  - now apply toLowerCase_alpha.
  - intros ->. now apply Hne.
Qed.

Lemma C5_witness :
  In (toLowerCase "HoUrS") (spellings Hour) /\
  parseDuration ("1" ++ "HoUrS") = Ok (family_ms Hour).
Proof.
  split; [left; reflexivity | apply (C5_unit_table Hour "HoUrS"); left; reflexivity].
Defined.

(** The sizes are the integers the specification names, and the spellings
    are exactly the keys of [UNIT_MAP]. *)
Lemma family_ms_values :
  map family_ms [Millisecond; Second; Minute; Hour; Day; Week; Month; Year] =
  [int 1; int 1000; int 60000; int 3600000; int 86400000; int 604800000;
   int 2629800000; int 31557600000].
Proof. vm_compute. reflexivity. Qed.

Lemma UNIT_MAP_keys (k : string) :
  is_Some (UNIT_MAP !! k) <-> exists f, In k (spellings f).
Proof.
  split.
  - intros [v Hv]. apply elem_of_list_to_map_2 in Hv.
    repeat (apply elem_of_cons in Hv as [Hv|Hv];
            [injection Hv as -> _;
             first [ exists Millisecond; simpl; tauto | exists Second; simpl; tauto
                   | exists Minute; simpl; tauto | exists Hour; simpl; tauto
                   | exists Day; simpl; tauto | exists Week; simpl; tauto
                   | exists Month; simpl; tauto | exists Year; simpl; tauto ] |]).
    now apply elem_of_nil in Hv.
  - intros [f H]. exists (family_ms f).
    destruct f; simpl in H;
      repeat (destruct H as [<-|H]; [vm_compute; reflexivity|]); contradiction.
Qed.

(** ** C3: compound additivity *)

Lemma num_add_zero_mul x y : num_add (int 0) (num_mul x y) = num_mul x y.
Proof.
  destruct x as [| s | a], y as [| t | b]; simpl; try reflexivity.
  - now destruct (Qis_zero b).
  - now destruct (Qis_zero a).
  - f_equal. apply Qred_complete. rewrite Qplus_0_l. apply Qred_correct.
Qed.

Lemma decimal_head n : decimal n -> exists c t, n = String c t /\ is_digit c = true.
Proof. intros (c & d1 & frac & -> & Hc & _). now exists c, (d1 ++ frac). Qed.

Lemma UNIT_MAP_multiplier u :
  is_Some (UNIT_MAP !! toLowerCase u) ->
  u <> "" /\ exists mult, unit_multiplier (toLowerCase u) = Some mult.
Proof.
  intros [mult H]. split.
  - intros ->. vm_compute in H. discriminate.
  - exists mult. unfold unit_multiplier. now rewrite H.
Qed.

(** A single component parses to its number times its unit. *)
Lemma parseDuration_component n ws u mult :
  decimal n -> all_chars is_space ws = true -> all_chars is_alpha u = true ->
  u <> "" -> unit_multiplier (toLowerCase u) = Some mult ->
  parseDuration (n ++ ws ++ u) =
  Ok (num_add (int 0) (num_mul (parseFloat n) mult)).
Proof.
  intros Hn Hws Hu Hne Hm.
  destruct (decimal_head n Hn) as (c & t & En & Hc).
  assert (E : n ++ ws ++ u = String c (t ++ ws ++ u)) by now rewrite En.
  rewrite E.
  rewrite (parseDuration_plain c (t ++ ws ++ u) (n ++ ws) u);
    [| now rewrite <- E, app_assoc | auto..].
  rewrite <- E at 2. rewrite <- (app_nil_r u) at 2.
  rewrite (scan_component _ _ _ n ws u "" mult) by (simpl; auto).
  apply scan_end.
Qed.

(** C3: when [A] and [B] are single components, a sign-less number [n],
    optional white space and a unit of [UNIT_MAP] with multiplier [m] each,
    [parseDuration(A)] is [parseFloat(n) * m] and [parseDuration(A + B)] is
    [parseDuration(A) + parseDuration(B)]; the units need not even differ.
    In particular ["1h30m"] is [3600000 + 1800000 = 5400000]. *)
Theorem C3_compound_additivity (nA wsA uA nB wsB uB : string) (mA mB : number) :
  decimal nA -> all_chars is_space wsA = true -> all_chars is_alpha uA = true ->
  UNIT_MAP !! toLowerCase uA = Some mA ->
  decimal nB -> all_chars is_space wsB = true -> all_chars is_alpha uB = true ->
  UNIT_MAP !! toLowerCase uB = Some mB ->
  single_component (nA ++ wsA ++ uA) /\ single_component (nB ++ wsB ++ uB) /\
  parseDuration (nA ++ wsA ++ uA) = Ok (num_mul (parseFloat nA) mA) /\
  parseDuration (nB ++ wsB ++ uB) = Ok (num_mul (parseFloat nB) mB) /\
  parseDuration ((nA ++ wsA ++ uA) ++ (nB ++ wsB ++ uB)) =
    Ok (num_add (num_mul (parseFloat nA) mA) (num_mul (parseFloat nB) mB)) /\
  parseDuration "1h" = Ok (int 3600000) /\
  parseDuration "30m" = Ok (int 1800000) /\
  parseDuration "1h30m" = Ok (int 5400000).
Proof.
  intros HnA HwsA HuA HkA HnB HwsB HuB HkB.
  assert (HsA : single_component (nA ++ wsA ++ uA)).
  { exists nA, wsA, uA. repeat split; auto; now exists mA. }
  assert (HsB : single_component (nB ++ wsB ++ uB)).
  { exists nB, wsB, uB. repeat split; auto; now exists mB. }
  split; [exact HsA|]. split; [exact HsB|].
  destruct (UNIT_MAP_multiplier uA (ex_intro _ mA HkA)) as (HneA & mA' & HmA).
  destruct (UNIT_MAP_multiplier uB (ex_intro _ mB HkB)) as (HneB & mB' & HmB).
  assert (mA' = mA) as ->
    by (unfold unit_multiplier in HmA; rewrite HkA in HmA; congruence).
  assert (mB' = mB) as ->
    by (unfold unit_multiplier in HmB; rewrite HkB in HmB; congruence).
  split.
  { rewrite <- (num_add_zero_mul (parseFloat nA) mA).
    now apply parseDuration_component. }
  split.
  { rewrite <- (num_add_zero_mul (parseFloat nB) mB).
    now apply parseDuration_component. }
  split; [|repeat split; vm_compute; reflexivity].
  destruct (decimal_head nA HnA) as (c & t & En & Hc).
  destruct (decimal_head nB HnB) as (c' & t' & En' & Hc').
  assert (E : (nA ++ wsA ++ uA) ++ nB ++ wsB ++ uB =
              String c (t ++ wsA ++ uA ++ nB ++ wsB ++ uB))
    by (rewrite En; simpl; now rewrite !app_assoc).
  rewrite E.
  rewrite (parseDuration_plain c _ (nA ++ wsA ++ uA ++ nB ++ wsB) uB);
    [| rewrite <- E; now rewrite !app_assoc | auto..].
  rewrite <- E at 2. rewrite !app_assoc.
  rewrite (scan_component _ _ _ nA wsA uA (nB ++ wsB ++ uB) mA); auto.
  - rewrite <- (app_nil_r uB) at 2.
    rewrite (scan_component _ _ _ nB wsB uB "" mB) by (simpl; auto).
    rewrite scan_end. now rewrite (num_add_zero_mul (parseFloat nA) mA).
  - rewrite En'. simpl. now apply digit_not_alpha.
Qed.

Lemma C3_witness :
  decimal "1.5" /\ decimal "30" /\
  parseDuration "1.5 h" = Ok (int 5400000) /\
  parseDuration "30Min" = Ok (int 1800000) /\
  parseDuration "1.5 h30Min" = Ok (int 7200000).
Proof.
  assert (H1 : decimal "1.5").
  { exists "1"%char, "", ".5". repeat split. right. now exists "5". }
  assert (H2 : decimal "30").
  { exists "3"%char, "0", "". repeat split. now left. }
  split; [exact H1|]. split; [exact H2|].
  destruct (C3_compound_additivity "1.5" " " "h" "30" "" "Min"
              MS_PER_HOUR MS_PER_MINUTE H1 eq_refl eq_refl eq_refl
              H2 eq_refl eq_refl eq_refl) as (_ & _ & HA & HB & HAB & _).
  split; [exact HA | split; [exact HB | exact HAB]].
Defined.

(** The example of the specification. *)
Example parseDuration_1h30m :
  parseDuration "1h" = Ok (int 3600000) /\
  parseDuration "30m" = Ok (int 1800000) /\
  parseDuration "1h30m" = Ok (int 5400000) /\
  num_add (int 3600000) (int 1800000) = int 5400000.
Proof. repeat split; vm_compute; reflexivity. Qed.

(** ** C4: the leading minus *)

Lemma all_chars_trimEnd p s : all_chars p s = true -> all_chars p (trimEnd s) = true.
Proof.
  induction s as [|c s IH]; simpl; [reflexivity|].
  intros H. apply andb_true_iff in H as [Hc Hs].
  destruct (is_space c && is_empty (trimEnd s)); [reflexivity|].
  simpl. now rewrite Hc, IH.
Qed.

Lemma all_chars_trim p s : all_chars p s = true -> all_chars p (trim s) = true.
Proof.
  intros H. apply (all_chars_trimEnd p) in H. unfold trim, trimStart.
  destruct (span is_space (trimEnd s)) as [a b] eqn:E.
  apply span_spec in E as (E & _). rewrite E, all_chars_app in H.
  now apply andb_true_iff in H as [_ H].
Qed.

Lemma leading_sign_clean s : all_chars clean s = true -> leading_sign s = (false, s).
Proof.
  destruct s as [|c s]; simpl; [reflexivity|].
  intros H. apply andb_true_iff in H as [Hc _]. unfold clean in Hc.
  apply negb_true_iff, orb_false_iff in Hc as [Hp Hm]. now rewrite Hm, Hp.
Qed.

Lemma trim_minus X : trim (String "-" X) = String "-" (trimEnd X).
Proof. unfold trim. rewrite trimEnd_cons_nonspace by reflexivity. reflexivity. Qed.

Lemma loop_body_input i1 i2 t mt m p :
  loop_body i1 t mt m = Ok p -> loop_body i2 t mt m = Ok p.
Proof.
  unfold loop_body.
  destruct (negb (is_empty (trim (skipped m)))); [discriminate|].
  destruct (is_empty (numStr m)); [auto|].
  destruct (isNaN (parseFloat (numStr m))); [discriminate|].
  destruct (unit_multiplier _); [auto | discriminate].
Qed.

(** The value that the scan returns does not depend on [input], which only
    appears in error messages. *)
Lemma scan_input i1 i2 s :
  forall t mt v, scan i1 t mt s = Ok v -> scan i2 t mt s = Ok v.
Proof.
  induction s as [s IH] using scan_induction. intros t mt v.
  rewrite !scan_eq. destruct (exec s) as [m|] eqn:E.
  - destruct (loop_body i1 t mt m) as [[t' mt']|e] eqn:B; [|discriminate].
    rewrite (loop_body_input i1 i2 _ _ _ _ B). now apply IH.
  - unfold after_loop.
    destruct (negb (is_empty (trim s))); [discriminate|].
    destruct (negb mt); [discriminate | auto].
Qed.

(** C4: for every text [X] without sign characters that [parseDuration]
    accepts, [parseDuration("-" + X)] is the negation of
    [parseDuration(X)]. *)
Theorem C4_sign_distributivity (X : string) (v : number) :
  all_chars clean X = true ->
  parseDuration X = Ok v ->
  parseDuration ("-" ++ X) = Ok (num_neg v).
Proof.
  intros Hc H. change ("-" ++ X) with (String "-" X).
  unfold parseDuration in *. rewrite trim_minus. cbn [is_empty].
  destruct (is_empty (trim X)); [discriminate|].
  rewrite leading_sign_clean in H by now apply all_chars_trim.
  unfold leading_sign. change (is_minus "-") with true. cbv iota.
  replace (trim (trimEnd X)) with (trim X)
    by (unfold trim; now rewrite trimEnd_idem).
  destruct (negb (isNaN (parseFloat (trim X))) && digits_and_dots (trim X)).
  - now injection H as <-.
  - destruct (scan X (int 0) false (trim X)) as [t|e] eqn:E; [|discriminate].
    injection H as <-.
    now rewrite (scan_input X (String "-" X) _ _ _ _ E).
Qed.

Lemma C4_witness :
  all_chars clean "1h30m" = true /\
  parseDuration "1h30m" = Ok (int 5400000) /\
  parseDuration ("-" ++ "1h30m") = Ok (num_neg (int 5400000)).
Proof.
  split; [reflexivity|]. split; [vm_compute; reflexivity|].
  apply (C4_sign_distributivity "1h30m" (int 5400000));
    [reflexivity | vm_compute; reflexivity].
Defined.

(** ** Comparisons of numbers *)

Lemma num_lt_Fin a b : num_lt (Fin a) (Fin b) = true <-> (a < b)%Q.
Proof.
  simpl. rewrite Qlt_alt. destruct (a ?= b)%Q; split; congruence.
Qed.

Lemma num_eq_Fin a b : num_eq (Fin a) (Fin b) = true <-> (a == b)%Q.
Proof. simpl. apply Qeq_bool_iff. Qed.

Lemma num_le_Fin a b : num_le (Fin a) (Fin b) = true <-> (a <= b)%Q.
Proof.
  unfold num_le. rewrite orb_true_iff, num_lt_Fin, num_eq_Fin.
  rewrite Qle_lteq. tauto.
Qed.

Lemma num_ge_Fin a b : num_ge (Fin a) (Fin b) = true <-> (b <= a)%Q.
Proof. apply num_le_Fin. Qed.

Lemma num_gt_Fin a b : num_gt (Fin a) (Fin b) = true <-> (b < a)%Q.
Proof. apply num_lt_Fin. Qed.

Lemma num_lt_Fin_false a b : num_lt (Fin a) (Fin b) = false <-> (b <= a)%Q.
Proof.
  rewrite <- not_true_iff_false, num_lt_Fin. split.
  - apply Qnot_lt_le.
  - apply Qle_not_lt.
Qed.

Lemma num_le_Fin_false a b : num_le (Fin a) (Fin b) = false <-> (b < a)%Q.
Proof.
  rewrite <- not_true_iff_false, num_le_Fin. split.
  - apply Qnot_le_lt.
  - apply Qlt_not_le.
Qed.

Lemma num_eq_Fin_false a b : num_eq (Fin a) (Fin b) = false <-> ~ (a == b)%Q.
Proof. rewrite <- not_true_iff_false, num_eq_Fin. tauto. Qed.

Lemma Math_abs_Fin q : exists a, Math_abs (Fin q) = Fin a /\ (a == Qabs q)%Q.
Proof. exists (Qred (Qabs q)). split; [reflexivity | apply Qred_correct]. Qed.

(** [Math.round] yields the nearest integer, the larger one on a tie. *)
Lemma Math_round_nearest q :
  exists n : Z, Math_round (Fin q) = int n /\
    (inject_Z n - (1 # 2) <= q)%Q /\ (q < inject_Z n + (1 # 2))%Q.
Proof.
  exists (Qfloor (q + (1 # 2))). split; [reflexivity|].
  pose proof (Qfloor_le (q + (1 # 2))) as H1.
  pose proof (Qlt_floor (q + (1 # 2))) as H2.
  rewrite inject_Z_plus in H2. change (inject_Z 1) with 1%Q in H2.
  split; lra.
Qed.

(** ** C6: [humanize] from one millisecond up *)

Lemma ge_one_not_zero a : num_ge a (int 1) = true -> num_eq a (int 0) = false.
Proof.
  destruct a as [| s | q]; try reflexivity.
  unfold int. rewrite num_ge_Fin, num_eq_Fin_false.
  change (inject_Z 1) with 1%Q. change (inject_Z 0) with 0%Q. lra.
Qed.

(** The loop returns at the first unit that is not larger than [absMs]. *)
Lemma humanize_from_first units sign absMs isLong :
  Exists (fun u => num_ge absMs (ms u) = true) units ->
  exists before unit after,
    units = (before ++ unit :: after)%list /\
    Forall (fun u => num_ge absMs (ms u) = false) before /\
    num_ge absMs (ms unit) = true /\
    humanize_from units sign absMs isLong = render sign absMs isLong unit.
Proof.
  induction units as [|u units IH]; intros H; [inversion H|].
  simpl. destruct (num_ge absMs (ms u)) eqn:E.
  - exists [], u, units. repeat split; auto.
  - inversion H as [? ? H0|? ? H0]; subst; [congruence|].
    destruct (IH H0) as (before & unit & after & -> & Hb & Hu & Hr).
    exists (u :: before), unit, after. repeat split; auto.
Qed.

Lemma UNITS_sizes :
  map ms UNITS =
  [int 31557600000; int 2629800000; int 604800000; int 86400000;
   int 3600000; int 60000; int 1000; int 1].
Proof. vm_compute. reflexivity. Qed.

(** C6: from one millisecond up, [humanize] takes the first unit of [UNITS]
    (year, month, week, day, hour, minute, second, millisecond) that is not
    larger than [|ms|], shows [|ms| / unit.ms] rounded to the nearest integer
    (the larger one on a tie) and puts [-] in front exactly when [ms < 0];
    in the long form the name is singular exactly when the value shown
    is 1. *)
Theorem C6_humanize_largest_unit :
  (forall (x : number) (options : option Options),
      num_ge (Math_abs x) (int 1) = true ->
      exists before unit after,
        UNITS = (before ++ unit :: after)%list /\
        Forall (fun u => num_ge (Math_abs x) (ms u) = false) before /\
        num_ge (Math_abs x) (ms unit) = true /\
        let value := Math_round (num_div (Math_abs x) (ms unit)) in
        humanize x options =
          (if num_lt x (int 0) then "-" else "") ++ Number_toString value ++
          (if long_of options
           then " " ++ (if num_eq value (int 1) then long unit else longPlural unit)
           else short unit)) /\
  (forall q : Q, exists n : Z, Math_round (Fin q) = int n /\
      (inject_Z n - (1 # 2) <= q)%Q /\ (q < inject_Z n + (1 # 2))%Q) /\
  humanize (int 5400000) None = "2h" /\
  humanize (int 129600000) None = "2d".
Proof.
  split; [|split; [exact Math_round_nearest | split; vm_compute; reflexivity]].
  intros x options H. unfold humanize. rewrite (ge_one_not_zero _ H).
  destruct (humanize_from_first UNITS (if num_lt x (int 0) then "-" else "")
              (Math_abs x) (long_of options))
    as (before & unit & after & E & Hb & Hu & Hr).
  { unfold UNITS. do 7 apply Exists_cons_tl. apply Exists_cons_hd. exact H. }
  exists before, unit, after. repeat split; auto.
  cbv zeta. rewrite Hr. unfold render. now destruct (long_of options).
Qed.

Lemma C6_witness :
  num_ge (Math_abs (int (-5400000))) (int 1) = true /\
  humanize (int (-5400000)) (Some {| opt_long := Some true |}) = "-2 hours" /\
  exists before unit after,
    UNITS = (before ++ unit :: after)%list /\
    Forall (fun u => num_ge (Math_abs (int (-5400000))) (ms u) = false) before /\
    num_ge (Math_abs (int (-5400000))) (ms unit) = true /\
    let value := Math_round (num_div (Math_abs (int (-5400000))) (ms unit)) in
    humanize (int (-5400000)) (Some {| opt_long := Some true |}) =
      (if num_lt (int (-5400000)) (int 0) then "-" else "") ++
      Number_toString value ++
      (if long_of (Some {| opt_long := Some true |})
       then " " ++ (if num_eq value (int 1) then long unit else longPlural unit)
       else short unit).
Proof.
  split; [reflexivity|]. split; [vm_compute; reflexivity|].
  apply (proj1 C6_humanize_largest_unit (int (-5400000))
           (Some {| opt_long := Some true |})).
  reflexivity.
Defined.

(** ** C9: [humanize] below one millisecond *)

Lemma UNITS_at_least_one u :
  In u UNITS -> exists U, ms u = Fin U /\ (1 <= U)%Q.
Proof.
  intros H. apply (in_map ms) in H. rewrite UNITS_sizes in H. simpl in H.
  repeat (destruct H as [<-|H];
          [eexists; split; [reflexivity | unfold Qle; simpl; lia]|]).
  contradiction.
Qed.

(** Below the smallest unit the loop falls through to the fallback. *)
Lemma humanize_from_small units sign a isLong :
  (forall u, In u units -> exists U, ms u = Fin U /\ (1 <= U)%Q) ->
  (a < 1)%Q ->
  humanize_from units sign (Fin a) isLong =
  if isLong then sign ++ Number_toString (Fin a) ++ " milliseconds"
  else sign ++ Number_toString (Fin a) ++ "ms".
Proof.
  intros Hu Ha. induction units as [|u units IH]; [reflexivity|].
  simpl. destruct (Hu u (or_introl eq_refl)) as (U & -> & HU).
  assert (E : num_ge (Fin a) (Fin U) = false)
    by (apply num_le_Fin_false; lra).
  rewrite E. apply IH. intros u' H'. apply Hu. now right.
Qed.

(** C9: for [0 < |ms| < 1] no unit is chosen and nothing is rounded:
    [humanize] returns the magnitude itself followed by ["ms"] or
    [" milliseconds"], with a [-] in front when [ms < 0]; and [humanize]
    returns a string for every number. *)
Theorem C9_humanize_sub_millisecond :
  (forall (x : number) (options : option Options),
      num_lt (int 0) (Math_abs x) = true ->
      num_lt (Math_abs x) (int 1) = true ->
      humanize x options =
        (if num_lt x (int 0) then "-" else "") ++ Number_toString (Math_abs x) ++
        (if long_of options then " milliseconds" else "ms")) /\
  humanize (Fin 0.5) None = "0.5ms" /\
  humanize (Fin (-0.5)) (Some {| opt_long := Some true |}) = "-0.5 milliseconds" /\
  (forall (x : number) (options : option Options),
      exists s : string, humanize x options = s).
Proof.
  split; [|split; [vm_compute; reflexivity|split; [vm_compute; reflexivity|eauto]]].
  intros x options H0 H1.
  destruct x as [| s | q]; try discriminate.
  destruct (Math_abs_Fin q) as (a & Ea & Ha). rewrite Ea in *.
  unfold int in H0, H1. apply num_lt_Fin in H0, H1.
  change (inject_Z 0) with 0%Q in H0. change (inject_Z 1) with 1%Q in H1.
  unfold humanize. rewrite Ea.
  assert (E : num_eq (Fin a) (int 0) = false)
    by (apply num_eq_Fin_false; change (inject_Z 0) with 0%Q; lra).
  rewrite E, (humanize_from_small UNITS _ a _ UNITS_at_least_one H1).
  now destruct (long_of options).
Qed.

Lemma C9_witness :
  num_lt (int 0) (Math_abs (Fin (1 # 4))) = true /\
  num_lt (Math_abs (Fin (1 # 4))) (int 1) = true /\
  humanize (Fin (1 # 4)) None =
    (if num_lt (Fin (1 # 4)) (int 0) then "-" else "") ++
    Number_toString (Math_abs (Fin (1 # 4))) ++
    (if long_of None then " milliseconds" else "ms").
Proof.
  split; [reflexivity|]. split; [reflexivity|].
  apply (proj1 C9_humanize_sub_millisecond (Fin (1 # 4)) None); reflexivity.
Defined.

(** ** C7: [formatRelative] *)

Lemma humanize_long_of x options :
  humanize x (Some {| opt_long := Some (long_of options) |}) = humanize x options.
Proof. reflexivity. Qed.

Lemma num_ge_not_lt a b : num_ge a b = true -> num_lt a b = false.
Proof.
  destruct a as [| s | p], b as [| t | q]; simpl; try discriminate; try reflexivity.
  - unfold num_ge, num_le. simpl. destruct s, t; simpl; congruence.
  - unfold num_ge, num_le. simpl. destruct s; simpl; congruence.
  - unfold num_ge, num_le. simpl. destruct t; simpl; congruence.
  - intros H. apply num_ge_Fin in H. apply num_lt_Fin_false. exact H.
Qed.

(** Away from zero, [diffMs > 0] and [diffMs >= 0] coincide. *)
Lemma far_gt_ge d :
  num_ge (Math_abs d) (int 10000) = true -> num_gt d (int 0) = num_ge d (int 0).
Proof.
  destruct d as [| s | q]; try discriminate.
  - intros _. now destruct s.
  - destruct (Math_abs_Fin q) as (a & -> & Ha). unfold int.
    rewrite num_ge_Fin. change (inject_Z 10000) with 10000%Q.
    change (inject_Z 0) with 0%Q. intros H. rewrite Ha in H.
    destruct (Qlt_le_dec 0 q) as [Hq|Hq].
    + assert (num_gt (Fin q) (Fin 0) = true) as -> by now apply num_gt_Fin.
      symmetry. apply num_ge_Fin. lra.
    + rewrite Qabs_neg in H by exact Hq.
      assert (num_gt (Fin q) (Fin 0) = false) as ->
          by (apply num_lt_Fin_false; lra).
      symmetry. apply num_le_Fin_false. lra.
Qed.

(** C7: strictly below ten seconds [formatRelative] returns the fixed
    phrase, whatever [long] is; from ten seconds on it wraps
    [humanize(|diffMs|)] in ["in ..."] or ["... ago"]. *)
Theorem C7_formatRelative_threshold :
  (forall (diffMs : number) (options : option Options),
      num_lt (Math_abs diffMs) (int 10000) = true ->
      formatRelative diffMs options =
        if num_ge diffMs (int 0) then "in a moment" else "just now") /\
  (forall (diffMs : number) (options : option Options),
      num_ge (Math_abs diffMs) (int 10000) = true ->
      formatRelative diffMs options =
        if num_ge diffMs (int 0) then "in " ++ humanize (Math_abs diffMs) options
        else humanize (Math_abs diffMs) options ++ " ago") /\
  formatRelative (int 9999) None = "in a moment" /\
  formatRelative (int 11000) None = "in 11s".
Proof.
  split; [|split; [|split; vm_compute; reflexivity]].
  - intros d options H. unfold formatRelative.
    change (num_mul MS_PER_SECOND (int 10)) with (int 10000). rewrite H.
    now destruct (long_of options), (num_ge d (int 0)).
  - intros d options H. unfold formatRelative.
    change (num_mul MS_PER_SECOND (int 10)) with (int 10000).
    rewrite (num_ge_not_lt _ _ H), (far_gt_ge _ H), humanize_long_of.
    reflexivity.
Qed.

Lemma C7_witness :
  num_lt (Math_abs (int (-5000))) (int 10000) = true /\
  formatRelative (int (-5000)) (Some {| opt_long := Some true |}) = "just now" /\
  num_ge (Math_abs (int (-300000))) (int 10000) = true /\
  formatRelative (int (-300000)) None = humanize (Math_abs (int (-300000))) None ++ " ago".
Proof.
  split; [reflexivity|]. split.
  - apply (proj1 C7_formatRelative_threshold (int (-5000))
             (Some {| opt_long := Some true |})). reflexivity.
  - split; [reflexivity|].
    apply (proj1 (proj2 C7_formatRelative_threshold) (int (-300000)) None).
    reflexivity.
Defined.

(** ** Arithmetic on integers *)

Lemma num_neg_int z : num_neg (int z) = int (- z).
Proof. unfold int. simpl. f_equal. apply (inject_Z_Qred (- z)). Qed.

Lemma Math_floor_int z : Math_floor (int z) = int z.
Proof.
  change (Math_floor (int z)) with (int (Qfloor (inject_Z z))).
  now rewrite Qfloor_Z.
Qed.

Lemma num_add_int a b : num_add (int a) (int b) = int (a + b).
Proof.
  unfold int. simpl. f_equal.
  transitivity (Qred (inject_Z (a + b))); [|apply inject_Z_Qred].
  apply Qred_complete. now rewrite inject_Z_plus.
Qed.

Lemma num_sub_int a b : num_sub (int a) (int b) = int (a - b).
Proof. unfold num_sub. now rewrite num_neg_int, num_add_int. Qed.

Lemma num_mul_int a b : num_mul (int a) (int b) = int (a * b).
Proof.
  unfold int. simpl. f_equal.
  transitivity (Qred (inject_Z (a * b))); [|apply inject_Z_Qred].
  apply Qred_complete. now rewrite inject_Z_mult.
Qed.

Lemma Math_abs_int z : Math_abs (int z) = int (Z.abs z).
Proof.
  unfold int. cbn [Math_abs]. f_equal.
  transitivity (Qred (inject_Z (Z.abs z))); [|apply inject_Z_Qred].
  apply Qred_complete. unfold Qabs, inject_Z. reflexivity.
Qed.

(** ** C8: the window check *)

Lemma num_le_spec x y : num_le x y = true <-> number_le x y.
Proof.
  split.
  - destruct x as [| s | a], y as [| t | b]; try discriminate.
    + destruct s, t; try discriminate; intros _;
        (now apply number_le_neg_Inf) || (now apply number_le_pos_Inf).
    + destruct s; try discriminate. intros _. now apply number_le_neg_Inf.
    + destruct t; try discriminate. intros _. now apply number_le_pos_Inf.
    + intros H. apply number_le_Fin. now apply num_le_Fin.
  - intros H. destruct H as [a b H | y H | x H].
    + now apply num_le_Fin.
    + destruct y as [| [] |]; try reflexivity. congruence.
    + destruct x as [| [] |]; try reflexivity. congruence.
Qed.

Lemma Math_abs_neg x : Math_abs (num_neg x) = Math_abs x.
Proof.
  destruct x as [| s | q]; try reflexivity. simpl. f_equal.
  apply Qred_complete. rewrite (Qred_correct (- q)). apply Qabs_opp.
Qed.

Lemma num_neg_sub x y : num_neg (num_sub x y) = num_sub y x.
Proof.
  destruct x as [| s | a], y as [| t | b]; try reflexivity.
  - unfold num_sub. simpl. destruct s, t; reflexivity.
  - unfold num_sub. simpl. now destruct t.
  - unfold num_sub. simpl. f_equal. apply Qred_complete.
    rewrite !Qred_correct. ring.
Qed.

(** [|x - y| = |y - x|] *)
Lemma Math_abs_sub_sym x y : Math_abs (num_sub x y) = Math_abs (num_sub y x).
Proof. now rewrite <- (num_neg_sub x y), Math_abs_neg. Qed.

(** C8: for a duration input that yields [w] milliseconds,
    [t.isWithin(d, a)] is true exactly when [|t_ms - a_ms| <= |w|], the
    difference being the one that the code computes; for whole numbers of
    milliseconds in the exact range this is the inequality of the integers.
    The window is symmetric around the anchor, a negated duration gives the
    same window, and without an anchor the clock is the anchor. *)
Theorem C8_isWithin_window (clock : number) (t : Time.t) (d : DurationInput)
    (a : Time.other) (w : number) :
  normalizeToMillis d = Ok w ->
  (exists b : bool,
      Time.isWithin clock t d (Some a) = Ok b /\
      (b = true <->
       number_le (Math_abs (num_sub (Time.toMillis t) (Time.otherMs a)))
                 (Math_abs w))) /\
  (forall p q r : Z,
      exact_integer p -> exact_integer q -> exact_integer (p - q) ->
      exact_integer r ->
      (Time.isWithin clock (Time.millis (int p))
         (DurationLike (Duration.milliseconds (int r)))
         (Some (Time.ofTime (Time.millis (int q)))) = Ok true <->
       (Z.abs (p - q) <= Z.abs r)%Z)) /\
  (forall t' : Time.t,
      Time.isWithin clock t d (Some (Time.ofTime t')) =
      Time.isWithin clock t' d (Some (Time.ofTime t))) /\
  (forall dd : Duration.t,
      Time.isWithin clock t (DurationLike (Duration.negate dd)) (Some a) =
      Time.isWithin clock t (DurationLike dd) (Some a)) /\
  Time.isWithin clock t d None =
    Time.isWithin clock t d (Some (Time.ofDate {| getTime := clock |})).
Proof.
  intros Hw. unfold Time.isWithin. rewrite Hw. cbn [bind].
  split; [|split; [|split; [|split]]].
  - eexists. split; [reflexivity|]. apply num_le_spec.
  - intros p q r _ _ _ _.
    cbn [normalizeToMillis bind Duration.toMillis Duration.milliseconds
         Duration.ms Time.otherMs Time.millis Time.new Time.ms].
    rewrite !Math_floor_int, num_sub_int, !Math_abs_int.
    split.
    + intros [= H]. apply num_le_Fin in H. now rewrite Zle_Qle.
    + intros H. f_equal. apply num_le_Fin. now rewrite <- Zle_Qle.
  - intros t'. cbn [Time.otherMs]. now rewrite Math_abs_sub_sym.
  - intros dd. cbn [normalizeToMillis bind Duration.toMillis Duration.negate Duration.ms].
    now rewrite Math_abs_neg.
  - reflexivity.
Qed.

Lemma C8_witness :
  normalizeToMillis (StringValue "-1s") = Ok (int (-1000)) /\
  Time.isWithin (int 0) (Time.millis (int 1000)) (StringValue "-1s")
    (Some (Time.ofTime (Time.millis (int 2000)))) = Ok true /\
  Time.isWithin (int 0) (Time.millis (int 1000)) (StringValue "-1s")
    (Some (Time.ofTime (Time.millis (int 2001)))) = Ok false.
Proof.
  assert (H : normalizeToMillis (StringValue "-1s") = Ok (int (-1000)))
    by (vm_compute; reflexivity).
  split; [exact H|]. split.
  - destruct (C8_isWithin_window (int 0) (Time.millis (int 1000))
                (StringValue "-1s") (Time.ofTime (Time.millis (int 2000)))
                (int (-1000)) H) as ((b & Hb & Hiff) & _).
    rewrite Hb. f_equal. apply Hiff. apply num_le_spec. reflexivity.
  - destruct (C8_isWithin_window (int 0) (Time.millis (int 1000))
                (StringValue "-1s") (Time.ofTime (Time.millis (int 2001)))
                (int (-1000)) H) as ((b & Hb & Hiff) & _).
    rewrite Hb. f_equal. destruct b; [|reflexivity].
    assert (G : number_le
                  (Math_abs (num_sub (Time.toMillis (Time.millis (int 1000)))
                               (Time.otherMs (Time.ofTime (Time.millis (int 2001))))))
                  (Math_abs (int (-1000)))) by now apply Hiff.
    apply num_le_spec in G. discriminate G.
Defined.

(** ** C10: the stored timestamp *)







(** * Further properties of the code *)

(** ** More about [trim] *)

Lemma trimStart_cons_space c s : is_space c = true -> trimStart (String c s) = trimStart s.
Proof.
  intros H. unfold trimStart. simpl. rewrite H. now destruct (span is_space s).
Qed.

Lemma trimStart_result_stops s : stops is_space (trimStart s).
Proof.
  unfold trimStart. destruct (span is_space s) as [a b] eqn:E.
  now apply span_spec in E as (_ & _ & H).
Qed.

Lemma trimEnd_suffix a b : trimEnd (a ++ b) = a ++ b -> trimEnd b = b.
Proof.
  induction a as [|c a IH]; simpl; [auto|].
  destruct (is_space c && is_empty (trimEnd (a ++ b))); [discriminate|].
  intros H. injection H as H. auto.
Qed.

Lemma trimEnd_trim s : trimEnd (trim s) = trim s.
Proof.
  unfold trim, trimStart.
  destruct (span is_space (trimEnd s)) as [a b] eqn:E. simpl.
  apply span_spec in E as (E & _).
  apply (trimEnd_suffix a b). rewrite <- E. apply trimEnd_idem.
Qed.

Lemma trim_idem s : trim (trim s) = trim s.
Proof.
  unfold trim at 1. rewrite trimEnd_trim.
  apply trimStart_stops, trimStart_result_stops.
Qed.

Lemma trimEnd_spaces a b :
  all_chars is_space b = true -> trimEnd (a ++ b) = trimEnd a.
Proof.
  intros Hb.
  assert (E : trimEnd b = "").
  { induction b as [|c b IH]; simpl in *; [reflexivity|].
    apply andb_true_iff in Hb as [Hc Hb]. now rewrite Hc, (IH Hb). }
  induction a as [|c a IH]; simpl; [exact E | now rewrite IH].
Qed.

Lemma trim_leading_spaces ws s :
  all_chars is_space ws = true -> trim (ws ++ s) = trim s.
Proof.
  induction ws as [|c ws IH]; simpl; [reflexivity|].
  intros H. apply andb_true_iff in H as [Hc Hws]. specialize (IH Hws).
  unfold trim in *. simpl. rewrite Hc. simpl.
  destruct (trimEnd (ws ++ s)) as [|x r] eqn:E; simpl.
  - rewrite <- IH. reflexivity.
  - rewrite <- IH. now apply trimStart_cons_space.
Qed.

(** White space around a text does not change what [trim] returns. *)
Lemma trim_padding ws s ws' :
  all_chars is_space ws = true -> all_chars is_space ws' = true ->
  trim (ws ++ s ++ ws') = trim s.
Proof.
  intros H H'. rewrite (trim_leading_spaces ws _ H).
  unfold trim. now rewrite trimEnd_spaces.
Qed.

(** ** The errors of [parseDuration] *)

Lemma exec_unitStr s m : exec s = Some m -> all_chars is_alpha (unitStr m) = true.
Proof.
  intros H. apply exec_inv in H as (g & s' & _ & _ & H).
  now apply match_component_inv in H
    as (sign & c & d1 & dot & d2 & ws & _ & _ & _ & _ & _ & _ & _ & _ & Hu & _).
Qed.

(** One pass of the loop either adds the component and sets [matched], or
    throws one of two errors; the [continue] and the invalid-number error
    are never reached. *)
Lemma loop_body_cases input t mt s m :
  exec s = Some m ->
  match loop_body input t mt m with
  | Ok (t', mt') =>
      mt' = true /\ trim (skipped m) = "" /\
      exists mult,
        unit_multiplier
          (if is_empty (toLowerCase (unitStr m)) then "ms"
           else toLowerCase (unitStr m)) = Some mult /\
        t' = num_add t (num_mul (parseFloat (numStr m)) mult)
  | Throw e => scan_error input e /\ e <> CouldNotParse input
  end.
Proof.
  intros H. destruct (exec_parseFloat _ _ H) as [E1 E2].
  pose proof (exec_unitStr _ _ H) as Hu.
  unfold loop_body. rewrite E1, E2.
  destruct (is_empty (trim (skipped m))) eqn:Hg; unfold negb.
  - apply is_empty_true in Hg.
    destruct (unit_multiplier _) as [mult|] eqn:Hm.
    + repeat split; auto. now exists mult.
    + split; [|discriminate]. simpl. repeat split; auto.
      * intros E. rewrite E in Hm. vm_compute in Hm. discriminate.
      * destruct (unitStr m) as [|x u]; [vm_compute in Hm; discriminate|].
        exact Hm.
  - split; [|discriminate]. simpl. repeat split.
    + intros E. now rewrite E in Hg.
    + apply trim_idem.
Qed.

(** Once a component has matched, "could not parse" is out of reach. *)
Lemma scan_matched input s :
  forall t e, scan input t true s = Throw e -> e <> CouldNotParse input.
Proof.
  induction s as [s IH] using scan_induction. intros t e.
  rewrite scan_eq. destruct (exec s) as [m|] eqn:E.
  - pose proof (loop_body_cases input t true s m E) as B.
    destruct (loop_body input t true m) as [[t' mt']|e'].
    + destruct B as (-> & _). now apply IH.
    + destruct B as (_ & B). now intros [= <-].
  - unfold after_loop.
    destruct (negb (is_empty (trim s))); simpl;
      [intros [= <-]; discriminate | discriminate].
Qed.

Lemma scan_throws input s :
  forall t mt e, scan input t mt s = Throw e -> scan_error input e.
Proof.
  induction s as [s IH] using scan_induction. intros t mt e.
  rewrite scan_eq. destruct (exec s) as [m|] eqn:E.
  - pose proof (loop_body_cases input t mt s m E) as B.
    destruct (loop_body input t mt m) as [[t' mt']|e'].
    + now apply IH.
    + destruct B as (B & _). now intros [= <-].
  - unfold after_loop.
    destruct (is_empty (trim s)) eqn:Hg; unfold negb.
    + destruct mt; [discriminate|]. now intros [= <-].
    + intros [= <-]. simpl. repeat split.
      * intros E'. now rewrite E' in Hg.
      * apply trim_idem.
Qed.

(** "Could not parse" means that there was nothing to scan. *)
Lemma scan_could_not_parse input s t mt :
  scan input t mt s = Throw (CouldNotParse input) -> mt = false /\ trim s = "".
Proof.
  rewrite scan_eq. destruct (exec s) as [m|] eqn:E.
  - pose proof (loop_body_cases input t mt s m E) as B.
    destruct (loop_body input t mt m) as [[t' mt']|e'].
    + destruct B as (-> & _). intros H. now apply scan_matched in H.
    + destruct B as (_ & B). now intros [= ->].
  - unfold after_loop.
    destruct (is_empty (trim s)) eqn:Hg; unfold negb; [|discriminate].
    apply is_empty_true in Hg. destruct mt; [discriminate | auto].
Qed.

Lemma parseDuration_throw_scan input e :
  parseDuration input = Throw e ->
  (e = EmptyInput /\ trim input = "") \/
  (trim input <> "" /\
   scan input (int 0) false (snd (leading_sign (trim input))) = Throw e).
Proof.
  unfold parseDuration.
  destruct (trim input) as [|c str] eqn:Et; cbn [is_empty].
  - intros [= <-]. now left.
  - destruct (leading_sign (String c str)) as [isNegative parseStr].
    destruct (negb (isNaN (parseFloat parseStr)) && digits_and_dots parseStr);
      [discriminate|].
    destruct (scan input (int 0) false parseStr) as [v|e'] eqn:E; [discriminate|].
    intros [= <-]. right. split; [discriminate | exact E].
Qed.

Lemma parseDuration_throw_cases input e :
  parseDuration input = Throw e ->
  (e = EmptyInput /\ all_chars is_space input = true) \/
  (scan_error input e /\ all_chars is_space input = false).
Proof.
  intros H. apply parseDuration_throw_scan in H as [[-> Ht]|[Ht H]].
  - left. split; [reflexivity | now apply trim_empty_iff].
  - right. split; [now apply scan_throws in H|].
    destruct (all_chars is_space input) eqn:Hs; [|reflexivity].
    apply trim_empty_iff in Hs. contradiction.
Qed.

(** X1. An input is rejected with the empty-string error exactly when it is
    empty or consists of white space only. *)
Theorem X1_empty_input (input : string) :
  parseDuration input = Throw EmptyInput <-> all_chars is_space input = true.
Proof.
  split.
  - intros H. apply parseDuration_throw_cases in H as [[_ H]|[H _]];
      [exact H | destruct H].
  - intros H. apply trim_empty_iff in H. unfold parseDuration. now rewrite H.
Qed.

Lemma X1_witness :
  all_chars is_space "   " = true /\ parseDuration "   " = Throw EmptyInput.
Proof.
  assert (H : all_chars is_space "   " = true) by reflexivity.
  split; [exact H | exact (proj2 (X1_empty_input "   ") H)].
Defined.

(** X2. Every error [parseDuration] throws for an input that is not blank
    names that input and is an unexpected-characters error (with a trimmed,
    non-empty text), an unknown-unit error (with a non-empty word of letters
    that is no key of the unit table in lower case) or a could-not-parse
    error; the empty-string error is thrown for blank inputs only, and the
    invalid-number error is never thrown. *)
Theorem X2_error_taxonomy (input : string) (e : error) :
  parseDuration input = Throw e ->
  (e = EmptyInput /\ all_chars is_space input = true) \/
  (scan_error input e /\ all_chars is_space input = false).
Proof.
  intros H. apply parseDuration_throw_scan in H as [[-> Ht]|[Ht H]].
  - left. split; [reflexivity | now apply trim_empty_iff].
  - right. split; [now apply scan_throws in H|].
    destruct (all_chars is_space input) eqn:Hs; [|reflexivity].
    apply trim_empty_iff in Hs. contradiction.
Qed.

Lemma X2_witness :
  parseDuration "1 fortnight" = Throw (UnknownUnit "fortnight" "1 fortnight") /\
  scan_error "1 fortnight" (UnknownUnit "fortnight" "1 fortnight").
Proof.
  assert (H : parseDuration "1 fortnight" =
              Throw (UnknownUnit "fortnight" "1 fortnight"))
    by (vm_compute; reflexivity).
  split; [exact H|].
  destruct (X2_error_taxonomy _ _ H) as [[E _]|[E _]]; [discriminate E | exact E].
Defined.

Lemma is_plus_eq c : is_plus c = true -> c = "+"%char.
Proof.
  unfold is_plus, code. intros H. apply N.eqb_eq in H.
  rewrite <- (ascii_N_embedding c), H. reflexivity.
Qed.

Lemma trimEnd_all_space s : all_chars is_space s = true -> trimEnd s = "".
Proof.
  induction s as [|c s IH]; simpl; [reflexivity|].
  intros H. apply andb_true_iff in H as [Hc Hs]. now rewrite Hc, (IH Hs).
Qed.

(** In a trimmed text, white space after the first character is followed by
    something else. *)
Lemma trimmed_tail c tl :
  trimEnd (String c tl) = String c tl -> all_chars is_space tl = true -> tl = "".
Proof.
  simpl. destruct (is_space c && is_empty (trimEnd tl)); [discriminate|].
  intros [= H] Hs. now rewrite <- H, trimEnd_all_space.
Qed.

Lemma scan_nothing input : scan input (int 0) false "" = Throw (CouldNotParse input).
Proof. rewrite scan_eq. reflexivity. Qed.

(** X3. The could-not-parse error is thrown exactly for a lone sign: after
    trimming, the input is ["-"] or ["+"]. *)
Theorem X3_could_not_parse (input : string) :
  parseDuration input = Throw (CouldNotParse input) <->
  trim input = "-" \/ trim input = "+".
Proof.
  split.
  - intros H. apply parseDuration_throw_scan in H as [[H _]|[Ht H]];
      [discriminate H|].
    apply scan_could_not_parse in H as [_ H].
    pose proof (trimEnd_trim input) as He.
    pose proof (trim_idem input) as Hi.
    destruct (trim input) as [|c tl]; [congruence|].
    unfold leading_sign in H.
    destruct (is_minus c) eqn:Hm; [|destruct (is_plus c) eqn:Hp].
    + cbn [snd] in H. rewrite trim_idem in H. apply trim_empty_iff in H.
      rewrite (trimmed_tail c tl He H), (is_minus_eq _ Hm). now left.
    + cbn [snd] in H. rewrite trim_idem in H. apply trim_empty_iff in H.
      rewrite (trimmed_tail c tl He H), (is_plus_eq _ Hp). now right.
    + cbn [snd] in H. rewrite Hi in H. discriminate.
  - intros [H|H]; unfold parseDuration; rewrite H; cbn [is_empty].
    + change (leading_sign "-") with (true, ""). cbv beta iota.
      change (parseFloat "") with NaN. cbn [isNaN negb andb].
      now rewrite scan_nothing.
    + change (leading_sign "+") with (false, ""). cbv beta iota.
      change (parseFloat "") with NaN. cbn [isNaN negb andb].
      now rewrite scan_nothing.
Qed.

Lemma X3_witness :
  trim " - " = "-" /\ parseDuration " - " = Throw (CouldNotParse " - ").
Proof.
  assert (H : trim " - " = "-") by reflexivity.
  split; [exact H | exact (proj2 (X3_could_not_parse " - ") (or_introl H))].
Defined.

(** ** Bare numbers and the leading sign *)

Lemma parseFloat_digits d :
  d <> "" -> all_chars is_digit d = true -> parseFloat d = int (digits_val 0 d).
Proof.
  intros Hne Hd. destruct d as [|c t]; [congruence|].
  pose proof Hd as Hd'. simpl in Hd'. apply andb_true_iff in Hd' as [Hc _].
  unfold parseFloat.
  rewrite trimStart_stops by (simpl; now apply digit_not_space).
  unfold strip_sign. rewrite (digit_not_minus _ Hc), (digit_not_plus _ Hc).
  unfold String.prefix.
  destruct (ascii_dec "I" c) as [<-|_]; [discriminate Hc|].
  rewrite <- (app_nil_r (String c t)) at 1.
  rewrite (span_app is_digit (String c t) "" Hd I).
  cbn [is_empty andb]. rewrite app_nil_r.
  change (parse_exponent "" - Z.of_nat (String.length ""))%Z with 0%Z.
  unfold int. f_equal.
  transitivity (Qred (inject_Z (digits_val 0 (String c t))));
    [apply Qred_complete; exact (Qmult_1_r _) | apply inject_Z_Qred].
Qed.

Lemma trim_plus X : trim (String "+" X) = String "+" (trimEnd X).
Proof. unfold trim. rewrite trimEnd_cons_nonspace by reflexivity. reflexivity. Qed.

(** A [-] in front of a sign-free text negates its value. *)
Lemma parseDuration_leading_minus X v :
  all_chars clean X = true -> parseDuration X = Ok v ->
  parseDuration (String "-" X) = Ok (num_neg v).
Proof.
  intros Hc H. unfold parseDuration in *. rewrite trim_minus. cbn [is_empty].
  destruct (is_empty (trim X)); [discriminate|].
  rewrite leading_sign_clean in H by now apply all_chars_trim.
  unfold leading_sign. change (is_minus "-") with true. cbv iota.
  replace (trim (trimEnd X)) with (trim X)
    by (unfold trim; now rewrite trimEnd_idem).
  destruct (negb (isNaN (parseFloat (trim X))) && digits_and_dots (trim X)).
  - now injection H as <-.
  - destruct (scan X (int 0) false (trim X)) as [t|e] eqn:E; [|discriminate].
    injection H as <-.
    now rewrite (scan_input X (String "-" X) _ _ _ _ E).
Qed.

(** X7. A [+] in front of a text without sign characters changes nothing:
    [parseDuration("+" + X)] is [parseDuration(X)] whenever the latter
    returns. *)
Theorem X7_leading_plus (X : string) (v : number) :
  all_chars clean X = true -> parseDuration X = Ok v ->
  parseDuration ("+" ++ X) = Ok v.
Proof.
  intros Hc H. change ("+" ++ X) with (String "+" X).
  unfold parseDuration in *. rewrite trim_plus. cbn [is_empty].
  destruct (is_empty (trim X)); [discriminate|].
  rewrite leading_sign_clean in H by now apply all_chars_trim.
  unfold leading_sign. change (is_minus "+") with false.
  change (is_plus "+") with true. cbv iota.
  replace (trim (trimEnd X)) with (trim X)
    by (unfold trim; now rewrite trimEnd_idem).
  destruct (negb (isNaN (parseFloat (trim X))) && digits_and_dots (trim X)).
  - exact H.
  - destruct (scan X (int 0) false (trim X)) as [t|e] eqn:E; [|discriminate].
    injection H as <-.
    now rewrite (scan_input X (String "+" X) _ _ _ _ E).
Qed.

Lemma X7_witness :
  all_chars clean "2 days" = true /\
  parseDuration "2 days" = Ok (int 172800000) /\
  parseDuration ("+" ++ "2 days") = Ok (int 172800000).
Proof.
  split; [reflexivity|]. split; [vm_compute; reflexivity|].
  apply (X7_leading_plus "2 days" (int 172800000));
    [reflexivity | vm_compute; reflexivity].
Defined.

(** X4. A non-empty run of decimal digits whose value is at most [2^53] is
    a bare number: it parses to the integer it denotes, taken as
    milliseconds, and with a leading [-] to its negation. *)
Theorem X4_bare_number (d : string) :
  d <> "" -> all_chars is_digit d = true -> exact_integer (digits_val 0 d) ->
  parseDuration d = Ok (int (digits_val 0 d)) /\
  parseDuration ("-" ++ d) = Ok (int (- digits_val 0 d)).
Proof.
  intros Hne Hd _.
  assert (H : parseDuration d = Ok (int (digits_val 0 d))).
  { rewrite <- (parseFloat_digits d Hne Hd).
    destruct d as [|c t]; [congruence|].
    pose proof Hd as Hd'. simpl in Hd'. apply andb_true_iff in Hd' as [Hc _].
    apply fast_path_digits_and_dots; [exact Hc|].
    unfold digits_and_dots. cbn [is_empty negb andb].
    revert Hd. apply all_chars_impl. intros x ->. reflexivity. }
  split; [exact H|].
  change ("-" ++ d) with (String "-" d). rewrite <- num_neg_int.
  apply parseDuration_leading_minus; [now apply digits_clean | exact H].
Qed.

Lemma X4_witness :
  "0042" <> "" /\ all_chars is_digit "0042" = true /\
  exact_integer (digits_val 0 "0042") /\
  parseDuration "0042" = Ok (int 42) /\
  parseDuration ("-" ++ "0042") = Ok (int (-42)).
Proof.
  assert (B : exact_integer (digits_val 0 "0042")) by now vm_compute.
  split; [discriminate|]. split; [reflexivity|]. split; [exact B|].
  apply (X4_bare_number "0042"); [discriminate | reflexivity | exact B].
Defined.

(** ** Unknown units and surrounding white space *)

(** X5. A number followed by letters that are no unit (in any letter case)
    is rejected with the unknown-unit error, which quotes the letters as
    they were written and the whole input. *)
Theorem X5_unknown_unit (n ws u : string) :
  decimal n -> all_chars is_space ws = true -> all_chars is_alpha u = true ->
  u <> "" -> unit_multiplier (toLowerCase u) = None ->
  parseDuration (n ++ ws ++ u) = Throw (UnknownUnit u (n ++ ws ++ u)).
Proof.
  intros Hn Hws Hu Hne Hm.
  destruct (decimal_head n Hn) as (c & t & En & Hc).
  assert (E : n ++ ws ++ u = String c (t ++ ws ++ u)) by now rewrite En.
  rewrite E at 1.
  rewrite (parseDuration_plain c (t ++ ws ++ u) (n ++ ws) u);
    [| now rewrite <- E, app_assoc | auto..].
  rewrite <- E. rewrite scan_eq.
  replace (exec (n ++ ws ++ u)) with (exec (n ++ ws ++ u ++ ""))
    by now rewrite app_nil_r.
  rewrite (exec_match _ _ _ _ (match_component_plain n ws u "" Hn Hws Hu Hne I)).
  unfold loop_body. cbn [skipped numStr unitStr rest].
  rewrite trim_nil. cbn [is_empty negb].
  destruct (decimal_parseFloat n Hn) as [-> ->].
  rewrite toLowerCase_empty.
  destruct u as [|x u]; [congruence|]. cbn [is_empty].
  now rewrite Hm.
Qed.

Lemma X5_witness :
  decimal "1.5" /\ all_chars is_space " " = true /\
  all_chars is_alpha "Fortnights" = true /\ "Fortnights" <> "" /\
  unit_multiplier (toLowerCase "Fortnights") = None /\
  parseDuration ("1.5" ++ " " ++ "Fortnights") =
    Throw (UnknownUnit "Fortnights" ("1.5" ++ " " ++ "Fortnights")).
Proof.
  assert (Hn : decimal "1.5").
  { exists "1"%char, "", ".5". repeat split. right. now exists "5". }
  split; [exact Hn|]. split; [reflexivity|]. split; [reflexivity|].
  split; [discriminate|]. split; [reflexivity|].
  apply (X5_unknown_unit "1.5" " " "Fortnights" Hn);
    [reflexivity | reflexivity | discriminate | reflexivity].
Defined.

(** The value that [parseDuration] returns depends on the input only
    through its trimmed text. *)
Lemma parseDuration_trim i1 i2 v :
  trim i1 = trim i2 -> parseDuration i1 = Ok v -> parseDuration i2 = Ok v.
Proof.
  intros Ht. unfold parseDuration. rewrite <- Ht.
  destruct (is_empty (trim i1)); [discriminate|].
  destruct (leading_sign (trim i1)) as [isNegative parseStr].
  destruct (negb (isNaN (parseFloat parseStr)) && digits_and_dots parseStr);
    [auto|].
  destruct (scan i1 (int 0) false parseStr) as [t|e] eqn:E; [|discriminate].
  now rewrite (scan_input i1 i2 _ _ _ _ E).
Qed.

(** X6. White space before and after the text is ignored: a text that
    parses to [v] still parses to [v] when it is padded with white space. *)
Theorem X6_surrounding_white_space (ws X ws' : string) (v : number) :
  all_chars is_space ws = true -> all_chars is_space ws' = true ->
  parseDuration X = Ok v -> parseDuration (ws ++ X ++ ws') = Ok v.
Proof.
  intros H H'. apply parseDuration_trim. symmetry. now apply trim_padding.
Qed.

Lemma X6_witness :
  all_chars is_space (String "009" " ") = true /\
  all_chars is_space (String "010" "") = true /\
  parseDuration "5m" = Ok (int 300000) /\
  parseDuration (String "009" " " ++ "5m" ++ String "010" "") = Ok (int 300000).
Proof.
  split; [reflexivity|]. split; [reflexivity|]. split; [vm_compute; reflexivity|].
  apply (X6_surrounding_white_space (String "009" " ") "5m" (String "010" ""));
    [reflexivity | reflexivity | vm_compute; reflexivity].
Defined.

(** ** Letter case *)

Lemma code_lower c :
  code (lower c) =
  if ((65 <=? code c) && (code c <=? 90))%N then (code c + 32)%N else code c.
Proof.
  unfold lower. destruct ((65 <=? code c) && (code c <=? 90))%N eqn:E; [|reflexivity].
  unfold code at 1. apply N_ascii_embedding.
  apply andb_true_iff in E as [_ E]. apply N.leb_le in E. lia.
Qed.

Ltac lower_class :=
  unfold is_digit, is_alpha, is_space, is_minus, is_plus, is_dot;
  rewrite code_lower;
  match goal with
  | |- context [if (N.leb 65 ?x && N.leb ?x 90)%bool then _ else _] =>
      destruct (N.leb_spec 65 x); destruct (N.leb_spec x 90); cbn [andb]
  end;
  repeat match goal with
    | |- context [N.leb ?a ?b] => destruct (N.leb_spec a b)
    | |- context [N.eqb ?a ?b] => destruct (N.eqb_spec a b)
    end;
  simpl in *; try reflexivity; try (exfalso; lia).

Lemma lower_space c : is_space (lower c) = is_space c.
Proof. lower_class. Qed.

Lemma lower_digit c : is_digit (lower c) = is_digit c.
Proof. lower_class. Qed.

Lemma lower_letter c : is_alpha (lower c) = is_alpha c.
Proof. lower_class. Qed.

Lemma lower_minus c : is_minus (lower c) = is_minus c.
Proof. lower_class. Qed.

Lemma lower_plus c : is_plus (lower c) = is_plus c.
Proof. lower_class. Qed.

Lemma lower_dot c : is_dot (lower c) = is_dot c.
Proof. lower_class. Qed.

Lemma lower_idem c : lower (lower c) = lower c.
Proof.
  unfold lower at 1. rewrite code_lower.
  destruct ((65 <=? code c) && (code c <=? 90))%N eqn:E.
  - apply andb_true_iff in E as [E1 E2]. apply N.leb_le in E1, E2.
    assert ((65 <=? code c + 32) && (code c + 32 <=? 90) = false)%N as ->;
      [|reflexivity].
    apply andb_false_iff. right. apply N.leb_gt. lia.
  - now rewrite E.
Qed.

Lemma lower_not_letter c : is_alpha c = false -> lower c = c.
Proof.
  unfold lower, is_alpha. intros H. apply orb_false_iff in H as [H _].
  now rewrite H.
Qed.

Lemma toLowerCase_idem s : toLowerCase (toLowerCase s) = toLowerCase s.
Proof. induction s as [|c s IH]; simpl; [reflexivity | now rewrite lower_idem, IH]. Qed.

Lemma toLowerCase_app a b : toLowerCase (a ++ b) = toLowerCase a ++ toLowerCase b.
Proof. induction a as [|c a IH]; simpl; [reflexivity | now rewrite IH]. Qed.

Lemma toLowerCase_no_letters s :
  all_chars (fun c => negb (is_alpha c)) s = true -> toLowerCase s = s.
Proof.
  induction s as [|c s IH]; simpl; [reflexivity|].
  intros H. apply andb_true_iff in H as [Hc Hs]. apply negb_true_iff in Hc.
  now rewrite (lower_not_letter _ Hc), IH.
Qed.

Lemma span_lower p s :
  (forall c, p (lower c) = p c) ->
  span p (toLowerCase s) =
  (toLowerCase (fst (span p s)), toLowerCase (snd (span p s))).
Proof.
  intros Hp. induction s as [|c s IH]; simpl; [reflexivity|].
  rewrite Hp. destruct (p c); [|reflexivity].
  rewrite IH. now destruct (span p s).
Qed.

Lemma optional_lower p s :
  (forall c, p (lower c) = p c) ->
  optional p (toLowerCase s) =
  (toLowerCase (fst (optional p s)), toLowerCase (snd (optional p s))).
Proof.
  intros Hp. destruct s as [|c s]; simpl; [reflexivity|].
  rewrite Hp. now destruct (p c).
Qed.

Lemma trimStart_lower s : trimStart (toLowerCase s) = toLowerCase (trimStart s).
Proof. unfold trimStart. now rewrite (span_lower _ _ lower_space). Qed.

Lemma trimEnd_lower s : trimEnd (toLowerCase s) = toLowerCase (trimEnd s).
Proof.
  induction s as [|c s IH]; simpl; [reflexivity|].
  rewrite IH, lower_space, toLowerCase_empty.
  now destruct (is_space c && is_empty (trimEnd s)).
Qed.

Lemma trim_lower s : trim (toLowerCase s) = toLowerCase (trim s).
Proof. unfold trim. now rewrite trimEnd_lower, trimStart_lower. Qed.

Lemma leading_sign_lower s :
  leading_sign (toLowerCase s) =
  (fst (leading_sign s), toLowerCase (snd (leading_sign s))).
Proof.
  destruct s as [|c s]; simpl; [reflexivity|].
  rewrite lower_minus, lower_plus.
  destruct (is_minus c); [now rewrite trim_lower|].
  destruct (is_plus c); [now rewrite trim_lower | reflexivity].
Qed.

Lemma all_chars_lower p s :
  (forall c, p (lower c) = p c) -> all_chars p (toLowerCase s) = all_chars p s.
Proof.
  intros Hp. induction s as [|c s IH]; simpl; [reflexivity | now rewrite Hp, IH].
Qed.

Lemma digits_and_dots_lower s : digits_and_dots (toLowerCase s) = digits_and_dots s.
Proof.
  unfold digits_and_dots. rewrite toLowerCase_empty. f_equal.
  apply all_chars_lower. intros c. now rewrite lower_digit, lower_dot.
Qed.

Lemma digits_and_dots_fixed s : digits_and_dots s = true -> toLowerCase s = s.
Proof.
  unfold digits_and_dots. intros H. apply andb_true_iff in H as [_ H].
  apply toLowerCase_no_letters. revert H. apply all_chars_impl.
  intros c H. apply orb_true_iff in H as [H|H]; classes.
Qed.

Lemma match_component_lower s :
  match_component (toLowerCase s) =
  match match_component s with
  | Some (n, u, r) => Some (toLowerCase n, toLowerCase u, toLowerCase r)
  | None => None
  end.
Proof.
  unfold match_component.
  rewrite (optional_lower _ _ lower_minus).
  destruct (optional is_minus s) as [sign s1]. cbn [fst snd].
  rewrite (span_lower _ _ lower_digit).
  destruct (span is_digit s1) as [d1 s2]. cbn [fst snd].
  rewrite toLowerCase_empty. destruct (is_empty d1); [reflexivity|].
  rewrite (optional_lower _ _ lower_dot).
  destruct (optional is_dot s2) as [dot s3]. cbn [fst snd].
  rewrite (span_lower _ _ lower_digit).
  destruct (span is_digit s3) as [d2 s4]. cbn [fst snd].
  rewrite (span_lower _ _ lower_space).
  destruct (span is_space s4) as [ws s5]. cbn [fst snd].
  rewrite (span_lower _ _ lower_letter).
  destruct (span is_alpha s5) as [u s6]. cbn [fst snd].
  now rewrite !toLowerCase_app.
Qed.

(** Group 1 contains no letter. *)
Lemma numStr_no_letters s n u r :
  match_component s = Some (n, u, r) -> toLowerCase n = n.
Proof.
  intros H. apply match_component_inv in H
    as (sign & c & d1 & dot & d2 & ws & _ & -> & Hs & Hc & Hd1 & Hdot & Hd2 & _).
  assert (Hd : forall d, all_chars is_digit d = true -> toLowerCase d = d).
  { intros d Hd. apply toLowerCase_no_letters. revert Hd.
    apply all_chars_impl. intros x Hx. now rewrite (digit_not_alpha _ Hx). }
  change (String c d1) with (String c "" ++ d1).
  rewrite !toLowerCase_app, (Hd d1 Hd1), (Hd d2 Hd2).
  rewrite (Hd (String c "")) by (simpl; now rewrite Hc).
  destruct Hs as [->| ->], Hdot as [->| ->]; reflexivity.
Qed.

Lemma exec_cons c s :
  exec (String c s) =
  match match_component (String c s) with
  | Some (n, u, r) =>
      Some {| skipped := ""; numStr := n; unitStr := u; rest := r |}
  | None =>
      match exec s with
      | Some m =>
          Some {| skipped := String c (skipped m); numStr := numStr m;
                  unitStr := unitStr m; rest := rest m |}
      | None => None
      end
  end.
Proof. reflexivity. Qed.

Lemma exec_lower s :
  match exec s with
  | Some m =>
      exec (toLowerCase s) =
      Some {| skipped := toLowerCase (skipped m); numStr := numStr m;
              unitStr := toLowerCase (unitStr m);
              rest := toLowerCase (rest m) |}
  | None => exec (toLowerCase s) = None
  end.
Proof.
  induction s as [|c s IH]; [reflexivity|].
  rewrite exec_cons.
  change (toLowerCase (String c s)) with (String (lower c) (toLowerCase s)).
  rewrite exec_cons.
  change (String (lower c) (toLowerCase s)) with (toLowerCase (String c s)).
  rewrite match_component_lower.
  destruct (match_component (String c s)) as [[[n u] r]|] eqn:E.
  - now rewrite (numStr_no_letters _ _ _ _ E).
  - destruct (exec s) as [m|]; rewrite IH; reflexivity.
Qed.

Lemma loop_body_lower i1 i2 t mt m :
  returned (loop_body i2 t mt
              {| skipped := toLowerCase (skipped m); numStr := numStr m;
                 unitStr := toLowerCase (unitStr m);
                 rest := toLowerCase (rest m) |}) =
  returned (loop_body i1 t mt m).
Proof.
  unfold loop_body. cbn [skipped numStr unitStr rest].
  rewrite trim_lower, toLowerCase_empty, toLowerCase_idem.
  destruct (negb (is_empty (trim (skipped m)))); [reflexivity|].
  destruct (is_empty (numStr m)); [reflexivity|].
  destruct (isNaN (parseFloat (numStr m))); [reflexivity|].
  now destruct (unit_multiplier _).
Qed.

Lemma scan_lower i1 i2 s :
  forall t mt,
    returned (scan i2 t mt (toLowerCase s)) = returned (scan i1 t mt s).
Proof.
  induction s as [s IH] using scan_induction. intros t mt.
  rewrite !scan_eq. pose proof (exec_lower s) as E.
  destruct (exec s) as [m|] eqn:Em; rewrite E.
  - pose proof (loop_body_lower i1 i2 t mt m) as B.
    destruct (loop_body i1 t mt m) as [[t' mt']|e];
      destruct (loop_body i2 t mt _) as [[t'' mt'']|e'];
      try discriminate B; [|reflexivity].
    injection B as -> ->. cbn [rest]. now apply IH.
  - unfold after_loop. rewrite trim_lower, toLowerCase_empty.
    destruct (negb (is_empty (trim s))); [reflexivity|].
    now destruct (negb mt).
Qed.

Lemma parseDuration_lower X :
  returned (parseDuration (toLowerCase X)) = returned (parseDuration X).
Proof.
  unfold parseDuration. rewrite trim_lower, toLowerCase_empty.
  destruct (is_empty (trim X)); [reflexivity|].
  rewrite leading_sign_lower.
  destruct (leading_sign (trim X)) as [isNegative parseStr]. cbn [fst snd].
  rewrite digits_and_dots_lower.
  assert (Hscan :
    returned (bind (scan (toLowerCase X) (int 0) false (toLowerCase parseStr))
                (fun totalMs => Ok (if isNegative then num_neg totalMs else totalMs))) =
    returned (bind (scan X (int 0) false parseStr)
                (fun totalMs => Ok (if isNegative then num_neg totalMs else totalMs)))).
  { pose proof (scan_lower X (toLowerCase X) parseStr (int 0) false) as H.
    destruct (scan X (int 0) false parseStr);
      destruct (scan (toLowerCase X) (int 0) false (toLowerCase parseStr));
      try discriminate H; [|reflexivity].
    now injection H as ->. }
  destruct (digits_and_dots parseStr) eqn:Hb.
  - rewrite (digits_and_dots_fixed _ Hb) in *.
    destruct (negb (isNaN (parseFloat parseStr))); [reflexivity | exact Hscan].
  - rewrite !andb_false_r. exact Hscan.
Qed.

(** X8. Letter case is irrelevant: two inputs that differ only in the case
    of their letters either parse to the same value or are both rejected. *)
Theorem X8_case_insensitive (X Y : string) :
  toLowerCase X = toLowerCase Y ->
  returned (parseDuration X) = returned (parseDuration Y).
Proof.
  intros H. rewrite <- (parseDuration_lower X), <- (parseDuration_lower Y).
  now rewrite H.
Qed.

Lemma X8_witness :
  toLowerCase "1H 30Min" = toLowerCase "1h 30mIN" /\
  returned (parseDuration "1H 30Min") = returned (parseDuration "1h 30mIN") /\
  parseDuration "1H 30Min" = Ok (int 5400000).
Proof.
  split; [reflexivity|].
  split; [apply (X8_case_insensitive "1H 30Min" "1h 30mIN"); reflexivity|].
  vm_compute. reflexivity.
Defined.

(** ** Components without a unit, and the inherited key *)

Lemma parseDuration_scan c Y :
  is_digit c = true -> trim (String c Y) = String c Y ->
  digits_and_dots (String c Y) = false ->
  parseDuration (String c Y) = scan (String c Y) (int 0) false (String c Y).
Proof.
  intros Hc Ht Hb. unfold parseDuration. rewrite Ht. cbn [is_empty].
  unfold leading_sign. rewrite (digit_not_minus _ Hc), (digit_not_plus _ Hc).
  rewrite Hb, andb_false_r. apply bind_Ok.
Qed.

Lemma digit_or_dot_not_space c :
  is_digit c || is_dot c = true -> is_space c = false.
Proof. intros H. apply orb_true_iff in H as [H|H]; classes. Qed.

Lemma decimal_chars n :
  decimal n -> all_chars (fun c => is_digit c || is_dot c) n = true.
Proof.
  intros (c & d1 & frac & -> & Hc & Hd1 & Hfrac).
  assert (Hd : forall d, all_chars is_digit d = true ->
                         all_chars (fun c => is_digit c || is_dot c) d = true).
  { intros d. apply all_chars_impl. now intros x ->. }
  change (String c d1) with (String c "" ++ d1).
  rewrite !all_chars_app, (Hd d1 Hd1). simpl. rewrite Hc. simpl.
  destruct Hfrac as [->|(d2 & -> & Hd2)]; [reflexivity|].
  simpl. now apply Hd.
Qed.

Lemma match_component_bare n :
  decimal n -> match_component n = Some (n, "", "").
Proof.
  intros (c & d1 & frac & -> & Hc & Hd1 & Hfrac).
  unfold match_component.
  rewrite optional_stops by (simpl; now apply digit_not_minus).
  destruct Hfrac as [->|(d2 & -> & Hd2)].
  - rewrite (span_app is_digit (String c d1) "") by (simpl; auto; now rewrite Hc, Hd1).
    cbn [is_empty]. cbv beta iota.
    change (optional is_dot "") with ("", ""). cbv beta iota.
    change (span is_digit "") with ("", ""). cbv beta iota.
    change (span is_space "") with ("", ""). cbv beta iota.
    change (span is_alpha "") with ("", ""). cbv beta iota.
    now rewrite !app_nil_r.
  - rewrite (span_app is_digit (String c d1) (String "." d2))
      by (simpl; auto; now rewrite Hc, Hd1).
    cbn [is_empty].
    change (optional is_dot (String "." d2)) with (String "."%char "", d2).
    cbv beta iota.
    rewrite <- (app_nil_r d2) at 1.
    rewrite (span_app is_digit d2 "" Hd2 I).
    change (span is_space "") with ("", ""). cbv beta iota.
    change (span is_alpha "") with ("", ""). cbv beta iota.
    reflexivity.
Qed.

Lemma parseFloat_decimal_Fin n : decimal n -> exists q, parseFloat n = Fin (Qred q).
Proof.
  intros (c & d1 & frac & -> & Hc & _).
  change (String c d1 ++ frac) with (String c (d1 ++ frac)).
  unfold parseFloat.
  rewrite trimStart_stops by (simpl; now apply digit_not_space).
  unfold strip_sign. rewrite (digit_not_minus _ Hc), (digit_not_plus _ Hc).
  unfold String.prefix.
  destruct (ascii_dec "I" c) as [<-|_]; [discriminate Hc|].
  unfold span; fold span. rewrite Hc.
  destruct (span is_digit (d1 ++ frac)) as [a b].
  destruct b as [|c' b']; [eexists; reflexivity|].
  destruct (is_dot c'); [|eexists; reflexivity].
  destruct (span is_digit b'); eexists; reflexivity.
Qed.

Lemma num_mul_one_Qred q : num_mul (Fin (Qred q)) (int 1) = Fin (Qred q).
Proof.
  simpl. f_equal. apply Qred_complete.
  rewrite Qmult_1_r. apply Qred_correct.
Qed.

(** X9. A trailing number without a unit counts as milliseconds: after a
    single component [A], a sign-less number [n] adds its own value, so that
    [parseDuration(A + n)] is [parseDuration(A) + parseDuration(n)]. *)
Theorem X9_trailing_number_is_milliseconds (A n : string) :
  single_component A -> decimal n ->
  exists a,
    parseDuration A = Ok a /\
    parseDuration n = Ok (parseFloat n) /\
    parseDuration (A ++ n) = Ok (num_add a (parseFloat n)).
Proof.
  intros (nA & wsA & uA & -> & HnA & HwsA & HuA & HmA) Hn.
  apply UNIT_MAP_multiplier in HmA as (HneA & mA & HmA).
  exists (num_add (int 0) (num_mul (parseFloat nA) mA)).
  split; [now apply parseDuration_component|].
  destruct (decimal_head n Hn) as (c' & t' & En' & Hc').
  split.
  { rewrite En' at 1 2. apply fast_path_digits_and_dots; [exact Hc'|].
    rewrite <- En'. unfold digits_and_dots. rewrite (decimal_chars n Hn).
    now rewrite En'. }
  destruct (decimal_head nA HnA) as (c & t & En & Hc).
  assert (E : (nA ++ wsA ++ uA) ++ n = String c (t ++ wsA ++ uA ++ n))
    by (rewrite En; simpl; now rewrite !app_assoc).
  assert (Hnsp : all_chars (fun x => negb (is_space x)) n = true).
  { generalize (decimal_chars n Hn). apply all_chars_impl.
    intros x Hx. now rewrite (digit_or_dot_not_space _ Hx). }
  rewrite E.
  rewrite parseDuration_scan; [| exact Hc | |].
  - rewrite <- E at 2. rewrite !app_assoc.
    rewrite (scan_component _ _ _ nA wsA uA n mA); auto;
      [|rewrite En'; simpl; now apply digit_not_alpha].
    rewrite scan_eq, (exec_match _ _ _ _ (match_component_bare n Hn)).
    unfold loop_body. cbn [skipped numStr unitStr rest].
    rewrite trim_nil. cbn [is_empty negb toLowerCase].
    destruct (decimal_parseFloat n Hn) as [-> ->].
    change (unit_multiplier "ms") with (Some (int 1)). cbv beta iota.
    rewrite scan_end.
    destruct (parseFloat_decimal_Fin n Hn) as [q ->].
    now rewrite num_mul_one_Qred.
  - rewrite <- E. unfold trim.
    rewrite trimEnd_app; [| rewrite En'; discriminate | exact Hnsp].
    rewrite E. apply trimStart_stops. simpl. now apply digit_not_space.
  - rewrite <- E. unfold digits_and_dots.
    rewrite !all_chars_app.
    destruct uA as [|x uA]; [congruence|]. simpl in HuA |- *.
    apply andb_true_iff in HuA as [Hx _].
    rewrite (alpha_not_digit _ Hx), (alpha_not_dot _ Hx). simpl.
    now rewrite !andb_false_r.
Qed.

Lemma X9_witness :
  single_component "1h" /\ decimal "30" /\
  exists a,
    parseDuration "1h" = Ok a /\
    parseDuration "30" = Ok (parseFloat "30") /\
    parseDuration ("1h" ++ "30") = Ok (num_add a (parseFloat "30")).
Proof.
  assert (H1 : single_component "1h").
  { exists "1", "", "h". repeat split.
    - exists "1"%char, "", "". repeat split. now left.
    - exists MS_PER_HOUR. reflexivity. }
  assert (H2 : decimal "30").
  { exists "3"%char, "0", "". repeat split. now left. }
  split; [exact H1|]. split; [exact H2|].
  exact (X9_trailing_number_is_milliseconds "1h" "30" H1 H2).
Defined.

(** X10. The key [constructor], which [UNIT_MAP] inherits, is taken for a
    unit: a number followed by it (in any letter case) is not rejected, and
    the result is [NaN]. *)
Theorem X10_inherited_constructor (n u : string) :
  decimal n -> toLowerCase u = "constructor" ->
  parseDuration (n ++ u) = Ok NaN.
Proof.
  intros Hn Hu.
  assert (Ha : all_chars is_alpha u = true)
    by (apply toLowerCase_alpha; now rewrite Hu).
  assert (Hne : u <> "") by (intros ->; discriminate Hu).
  change (n ++ u) with (n ++ "" ++ u).
  rewrite (parseDuration_component n "" u NaN); auto.
  - destruct (parseFloat n); reflexivity.
  - now rewrite Hu.
Qed.

Lemma X10_witness :
  decimal "1" /\ toLowerCase "Constructor" = "constructor" /\
  parseDuration ("1" ++ "Constructor") = Ok NaN.
Proof.
  assert (H : decimal "1").
  { exists "1"%char, "", "". repeat split. now left. }
  split; [exact H|]. split; [reflexivity|].
  apply (X10_inherited_constructor "1" "Constructor" H). reflexivity.
Defined.

(** ** More about [humanize] and [formatRelative] *)

Lemma humanize_from_sign units a isLong :
  humanize_from units "-" a isLong = "-" ++ humanize_from units "" a isLong.
Proof.
  induction units as [|u units IH]; simpl.
  - now destruct isLong.
  - destruct (num_ge a (ms u)); [|exact IH].
    unfold render. now destruct isLong.
Qed.

Lemma positive_cases x :
  num_gt x (int 0) = true ->
  num_lt x (int 0) = false /\ num_lt (num_neg x) (int 0) = true /\
  num_eq (Math_abs x) (int 0) = false.
Proof.
  destruct x as [| s | q]; try discriminate.
  - destruct s; [discriminate|]. intros _. repeat split.
  - unfold int. change (inject_Z 0) with 0%Q. rewrite num_gt_Fin. intros H.
    repeat split.
    + apply num_lt_Fin_false. lra.
    + simpl num_neg. apply num_lt_Fin. rewrite Qred_correct. lra.
    + destruct (Math_abs_Fin q) as (a & -> & Ha).
      apply num_eq_Fin_false. rewrite Ha, Qabs_pos; lra.
Qed.

(** X11. The sign is carried over unchanged: for [x > 0],
    [humanize(-x)] is ["-"] followed by [humanize(x)]. *)
Theorem X11_humanize_negation (x : number) (options : option Options) :
  num_gt x (int 0) = true ->
  humanize (num_neg x) options = "-" ++ humanize x options.
Proof.
  intros H. destruct (positive_cases x H) as (H1 & H2 & H3).
  unfold humanize. rewrite Math_abs_neg, H1, H2, H3.
  apply humanize_from_sign.
Qed.

Lemma X11_witness :
  num_gt (int 300000) (int 0) = true /\
  humanize (num_neg (int 300000)) None = "-" ++ humanize (int 300000) None /\
  humanize (int 300000) None = "5m".
Proof.
  split; [reflexivity|].
  split; [apply (X11_humanize_negation (int 300000) None); reflexivity|].
  vm_compute. reflexivity.
Defined.

Lemma round_ratio_ge_one a U :
  (0 < U)%Q -> num_ge a (Fin U) = true ->
  num_ge (Math_round (num_div a (Fin U))) (int 1) = true.
Proof.
  intros HU H. destruct a as [| s | q]; try discriminate.
  - destruct s; [discriminate|].
    simpl. unfold Qsign_neg.
    assert ((Qnum U <? 0)%Z = false) as ->; [|reflexivity].
    apply Z.ltb_ge. unfold Qlt in HU. simpl in HU. lia.
  - apply num_ge_Fin in H. simpl. unfold Qis_zero.
    assert ((Qnum U =? 0)%Z = false) as ->.
    { apply Z.eqb_neq. unfold Qlt in HU. simpl in HU. lia. }
    unfold Math_round, int. apply num_ge_Fin.
    change (inject_Z 1) with 1%Q.
    assert (Hq : (1 <= q / U)%Q).
    { apply Qle_shift_div_l; [exact HU | lra]. }
    rewrite <- (Qred_correct (q / U)) in Hq.
    set (r := Qred (q / U)) in *.
    assert (Hf : (Qfloor 1 <= Qfloor (r + (1 # 2)))%Z)
      by (apply Qfloor_resp_le; lra).
    change (Qfloor 1) with 1%Z in Hf.
    rewrite Zle_Qle in Hf. exact Hf.
Qed.

(** X12. From one millisecond up, the number that [humanize] shows is at
    least 1: the unit it takes is never too large for the value. *)
Theorem X12_humanize_value_at_least_one (x : number) (options : option Options) :
  num_ge (Math_abs x) (int 1) = true ->
  exists unit,
    In unit UNITS /\
    humanize x options =
      render (if num_lt x (int 0) then "-" else "") (Math_abs x)
             (long_of options) unit /\
    num_ge (Math_round (num_div (Math_abs x) (ms unit))) (int 1) = true.
Proof.
  intros H. unfold humanize. rewrite (ge_one_not_zero _ H).
  destruct (humanize_from_first UNITS (if num_lt x (int 0) then "-" else "")
              (Math_abs x) (long_of options))
    as (before & unit & after & E & _ & Hu & Hr).
  { unfold UNITS. do 7 apply Exists_cons_tl. apply Exists_cons_hd. exact H. }
  assert (Hin : In unit UNITS) by (rewrite E; apply in_elt).
  exists unit. repeat split; auto.
  destruct (UNITS_at_least_one unit Hin) as (U & EU & HU).
  rewrite EU in *. apply round_ratio_ge_one; [lra | exact Hu].
Qed.

Lemma X12_witness :
  num_ge (Math_abs (int 59999)) (int 1) = true /\
  humanize (int 59999) None = "60s" /\
  exists unit,
    In unit UNITS /\
    humanize (int 59999) None =
      render (if num_lt (int 59999) (int 0) then "-" else "")
             (Math_abs (int 59999)) (long_of None) unit /\
    num_ge (Math_round (num_div (Math_abs (int 59999)) (ms unit))) (int 1) = true.
Proof.
  split; [reflexivity|]. split; [vm_compute; reflexivity|].
  apply (X12_humanize_value_at_least_one (int 59999) None). reflexivity.
Defined.

Lemma Math_abs_idem x : Math_abs (Math_abs x) = Math_abs x.
Proof.
  destruct x as [| s | q]; try reflexivity. simpl. f_equal.
  apply Qred_complete. rewrite Qred_correct. apply Qabs_pos, Qabs_nonneg.
Qed.

Lemma Math_abs_not_negative x : num_lt (Math_abs x) (int 0) = false.
Proof.
  destruct x as [| s | q]; try reflexivity.
  destruct (Math_abs_Fin q) as (a & -> & Ha).
  apply num_lt_Fin_false. rewrite Ha. apply Qabs_nonneg.
Qed.

(** For a number that is not negative, [humanize] of its absolute value is
    [humanize] of the number. *)
Lemma humanize_abs x options :
  num_lt x (int 0) = false -> humanize (Math_abs x) options = humanize x options.
Proof.
  intros H. unfold humanize.
  now rewrite Math_abs_idem, Math_abs_not_negative, H.
Qed.

Lemma far_positive x :
  num_ge x (int 10000) = true ->
  num_ge (Math_abs x) (int 10000) = true /\ num_ge x (int 0) = true /\
  num_ge (Math_abs (num_neg x)) (int 10000) = true /\
  num_ge (num_neg x) (int 0) = false.
Proof.
  destruct x as [| s | q]; try discriminate.
  - destruct s; [discriminate|]. intros _. repeat split.
  - unfold int. change (inject_Z 10000) with 10000%Q.
    change (inject_Z 0) with 0%Q. rewrite num_ge_Fin. intros H.
    rewrite Math_abs_neg.
    destruct (Math_abs_Fin q) as (a & -> & Ha).
    assert (Ha' : (a == q)%Q) by (rewrite Ha; apply Qabs_pos; lra).
    repeat split.
    + apply num_ge_Fin. lra.
    + apply num_ge_Fin. lra.
    + apply num_ge_Fin. lra.
    + simpl num_neg. apply num_le_Fin_false. rewrite Qred_correct. lra.
Qed.

(** X13. Past and future are worded from the same magnitude: from ten
    seconds on, [formatRelative(d)] is ["in "] and [humanize(d)], and
    [formatRelative(-d)] is [humanize(d)] and [" ago"]; no minus sign is
    shown. *)
Theorem X13_formatRelative_mirror (d : number) (options : option Options) :
  num_ge d (int 10000) = true ->
  formatRelative d options = "in " ++ humanize d options /\
  formatRelative (num_neg d) options = humanize d options ++ " ago".
Proof.
  intros H. destruct (far_positive d H) as (H1 & H2 & H3 & H4).
  assert (Hn : num_lt d (int 0) = false).
  { destruct d as [| s | q]; try discriminate; [now destruct s|].
    apply num_ge_Fin in H2. now apply num_lt_Fin_false. }
  unfold formatRelative.
  change (num_mul MS_PER_SECOND (int 10)) with (int 10000).
  rewrite (num_ge_not_lt _ _ H1), (num_ge_not_lt _ _ H3).
  rewrite (far_gt_ge _ H1), (far_gt_ge _ H3), H2, H4.
  rewrite !humanize_long_of, Math_abs_neg.
  now rewrite (humanize_abs d options Hn).
Qed.

Lemma X13_witness :
  num_ge (int 300000) (int 10000) = true /\
  formatRelative (int 300000) None = "in " ++ humanize (int 300000) None /\
  formatRelative (num_neg (int 300000)) None = humanize (int 300000) None ++ " ago".
Proof.
  split; [reflexivity|].
  apply (X13_formatRelative_mirror (int 300000) None). reflexivity.
Defined.

(** ** From text to number and back *)

Lemma number_eqb_eq x y : number_eqb x y = true -> x = y.
Proof.
  destruct x as [| s | [a b]], y as [| t | [c d]]; simpl; try discriminate;
    try reflexivity.
  - intros H. apply Bool.eqb_prop in H. now subst.
  - intros H. apply andb_true_iff in H as [H1 H2].
    apply Z.eqb_eq in H1. apply Pos.eqb_eq in H2. now subst.
Qed.

Lemma whole_counts_checked :
  forallb (fun p => forallb (round_trip_check (fst p)) (seq 1 (snd p)))
          whole_counts = true.
Proof. vm_compute. reflexivity. Qed.

(** X14. Whole counts of a unit survive the round trip: for each unit and
    each count [k] from 1 up to the last one below the next larger unit
    (999 ms, 59 s, 59 m, 23 h, 6 d, 4 w, 11 mo, and years up to 100),
    [humanize] shows [k] units as the digits of [k] and the unit symbol, and
    [parseDuration] maps both that text and the long form back to the same
    number of milliseconds. *)
Theorem X14_humanize_parse_round_trip (unit : unit_descriptor) (bound k : nat) :
  In (unit, bound) whole_counts -> (1 <= k <= bound)%nat ->
  humanize (times k unit) None = Z_to_string (Z.of_nat k) ++ short unit /\
  parseDuration (humanize (times k unit) None) = Ok (times k unit) /\
  parseDuration (humanize (times k unit) (Some {| opt_long := Some true |})) =
    Ok (times k unit).
Proof.
  intros Hin Hk.
  pose proof whole_counts_checked as H.
  rewrite forallb_forall in H. specialize (H _ Hin). cbn [fst snd] in H.
  rewrite forallb_forall in H. specialize (H k).
  assert (Hs : In k (seq 1 bound)) by (apply in_seq; lia).
  specialize (H Hs). unfold round_trip_check in H.
  apply andb_true_iff in H as [H H3]. apply andb_true_iff in H as [H1 H2].
  split; [now apply String.eqb_eq|].
  split.
  - destruct (parseDuration (humanize (times k unit) None)); [|discriminate].
    now rewrite (number_eqb_eq _ _ H2).
  - destruct (parseDuration
                (humanize (times k unit) (Some {| opt_long := Some true |})));
      [|discriminate].
    now rewrite (number_eqb_eq _ _ H3).
Qed.

Lemma X14_witness :
  In ({| ms := MS_PER_HOUR; short := "h"; long := "hour"; longPlural := "hours" |},
      23%nat) whole_counts /\
  (1 <= 23 <= 23)%nat /\
  humanize (int 82800000) None = "23h" /\
  parseDuration "23h" = Ok (int 82800000) /\
  parseDuration "23 hours" = Ok (int 82800000).
Proof.
  assert (Hin : In ({| ms := MS_PER_HOUR; short := "h"; long := "hour";
                       longPlural := "hours" |}, 23%nat) whole_counts)
    by (do 4 right; left; reflexivity).
  assert (Hk : (1 <= 23 <= 23)%nat) by lia.
  split; [exact Hin|]. split; [exact Hk|].
  exact (X14_humanize_parse_round_trip _ 23 23 Hin Hk).
Defined.

(** ** [Duration] *)

(** Two numbers other than [NaN] are in exactly one of the relations [<],
    [===] and [>]. *)
Lemma num_trichotomy x y :
  isNaN x = false -> isNaN y = false ->
  Nat.b2n (num_lt x y) + Nat.b2n (num_eq x y) + Nat.b2n (num_gt x y) = 1%nat.
Proof.
  destruct x as [| s | a], y as [| t | b]; try discriminate; intros _ _.
  - now destruct s, t.
  - now destruct s.
  - now destruct t.
  - unfold num_gt. simpl. rewrite <- (Qcompare_antisym a b).
    destruct (Qeq_bool a b) eqn:E.
    + apply Qeq_bool_iff in E. apply Qeq_alt in E. now rewrite E.
    + destruct (a ?= b)%Q eqn:C; try reflexivity.
      apply Qeq_alt, Qeq_bool_iff in C. congruence.
Qed.

Lemma num_ge_negb_lt x y :
  isNaN x = false -> isNaN y = false -> num_ge x y = negb (num_lt x y).
Proof.
  intros Hx Hy. pose proof (num_trichotomy x y Hx Hy) as H.
  unfold num_ge, num_le, num_gt in *.
  assert (E : num_eq y x = num_eq x y).
  { destruct x as [| s | a], y as [| t | b]; try reflexivity.
    - now destruct s, t.
    - simpl. apply eq_true_iff_eq. rewrite !Qeq_bool_iff. split; intros ->; reflexivity. }
  rewrite E.
  destruct (num_lt x y), (num_eq x y), (num_lt y x); simpl in *;
    try reflexivity; discriminate.
Qed.

(** X15. A duration whose value is a number is negative, zero or positive,
    and exactly one of the three; compared with another such duration it is
    less, equal or greater, exactly one of the three, and
    [greaterThanOrEqual] is the negation of [lessThan]. *)
Theorem X15_duration_order (d o : Duration.t) :
  isNaN (Duration.toMillis d) = false -> isNaN (Duration.toMillis o) = false ->
  Nat.b2n (DurationMethods.isNegative d) + Nat.b2n (DurationMethods.isZero d) +
    Nat.b2n (DurationMethods.isPositive d) = 1%nat /\
  (exists lt eq gt ge,
      DurationMethods.lessThan d (DurationLike o) = Ok lt /\
      DurationMethods.equals d (DurationLike o) = Ok eq /\
      DurationMethods.greaterThan d (DurationLike o) = Ok gt /\
      DurationMethods.greaterThanOrEqual d (DurationLike o) = Ok ge /\
      Nat.b2n lt + Nat.b2n eq + Nat.b2n gt = 1%nat /\ ge = negb lt).
Proof.
  intros Hd Ho. split.
  - now apply (num_trichotomy (Duration.ms d) (int 0)).
  - do 4 eexists. repeat split.
    + now apply (num_trichotomy (Duration.ms d) (Duration.ms o)).
    + now apply (num_ge_negb_lt (Duration.ms d) (Duration.ms o)).
Qed.

Lemma X15_witness :
  isNaN (Duration.toMillis (Duration.minutes (int 90))) = false /\
  isNaN (Duration.toMillis (Duration.hours (Fin 1.5))) = false /\
  DurationMethods.equals (Duration.minutes (int 90))
    (DurationLike (Duration.hours (Fin 1.5))) = Ok true /\
  DurationMethods.lessThan (Duration.minutes (int 90))
    (DurationLike (Duration.hours (Fin 1.5))) = Ok false.
Proof.
  split; [reflexivity|]. split; [reflexivity|].
  destruct (X15_duration_order (Duration.minutes (int 90))
              (Duration.hours (Fin 1.5)) eq_refl eq_refl)
    as (_ & lt & eq & gt & ge & Hlt & Heq & _).
  split; reflexivity.
Defined.

(** X16. [abs] forgets the sign and nothing else: its result is never
    negative, it is the same for a duration and its negation, and applying
    it twice changes nothing. *)
Theorem X16_duration_abs (d : Duration.t) :
  DurationMethods.isNegative (Duration.abs d) = false /\
  Duration.abs (Duration.negate d) = Duration.abs d /\
  Duration.abs (Duration.abs d) = Duration.abs d /\
  DurationMethods.isZero (Duration.abs d) = DurationMethods.isZero d.
Proof.
  destruct d as [x]. unfold DurationMethods.isNegative, DurationMethods.isZero,
    Duration.abs, Duration.negate. cbn [Duration.ms].
  repeat split.
  - apply Math_abs_not_negative.
  - now rewrite Math_abs_neg.
  - now rewrite Math_abs_idem.
  - destruct x as [| s | q]; try reflexivity.
    destruct (Math_abs_Fin q) as (a & -> & Ha).
    apply eq_true_iff_eq. unfold int. rewrite !num_eq_Fin, Ha.
    change (inject_Z 0) with 0%Q. split; intros H.
    + destruct (Qlt_le_dec q 0) as [Hq|Hq].
      * rewrite Qabs_neg in H by lra. lra.
      * rewrite Qabs_pos in H by lra. exact H.
    + rewrite H. reflexivity.
Qed.

Lemma scale_back (z : Z) (U : Q) :
  (0 < U)%Q -> num_div (num_mul (int z) (Fin U)) (Fin U) = int z.
Proof.
  intros HU. simpl. unfold Qis_zero.
  assert ((Qnum U =? 0)%Z = false) as ->.
  { apply Z.eqb_neq. unfold Qlt in HU. simpl in HU. lia. }
  unfold int. f_equal.
  transitivity (Qred (inject_Z z)); [|apply inject_Z_Qred].
  apply Qred_complete. rewrite Qred_correct. field. lra.
Qed.

(** X17. A whole number of units is read back unchanged: for an integer
    [z] whose number of milliseconds is at most [2^53] in magnitude,
    [Duration.seconds(z).toSeconds()] is [z], and likewise for minutes,
    hours, days and weeks. *)
Theorem X17_duration_unit_round_trip (z : Z) :
  (exact_integer (z * 1000) ->
   DurationMethods.toSeconds (Duration.seconds (int z)) = int z) /\
  (exact_integer (z * 60000) ->
   DurationMethods.toMinutes (Duration.minutes (int z)) = int z) /\
  (exact_integer (z * 3600000) ->
   DurationMethods.toHours (Duration.hours (int z)) = int z) /\
  (exact_integer (z * 86400000) ->
   DurationMethods.toDays (Duration.days (int z)) = int z) /\
  (exact_integer (z * 604800000) ->
   DurationMethods.toWeeks (Duration.weeks (int z)) = int z).
Proof.
  unfold DurationMethods.toSeconds, DurationMethods.toMinutes,
    DurationMethods.toHours, DurationMethods.toDays, DurationMethods.toWeeks,
    Duration.seconds, Duration.minutes, Duration.hours, Duration.days,
    Duration.weeks. cbn [Duration.ms].
  change MS_PER_SECOND with (Fin 1000).
  change MS_PER_MINUTE with (Fin 60000).
  change MS_PER_HOUR with (Fin 3600000).
  change MS_PER_DAY with (Fin 86400000).
  change MS_PER_WEEK with (Fin 604800000).
  repeat split; intros _; apply scale_back; reflexivity.
Qed.

Lemma X17_witness :
  exact_integer (90 * 60000) /\
  DurationMethods.toMinutes (Duration.minutes (int 90)) = int 90.
Proof.
  assert (B : exact_integer (90 * 60000)) by now vm_compute.
  split; [exact B|].
  exact (proj1 (proj2 (X17_duration_unit_round_trip 90)) B).
Defined.

Lemma factory_ms f x : factory f x = Duration.new (num_mul x (family_ms f)) \/
                       (f = Millisecond /\ factory f x = Duration.new x).
Proof. destruct f; (now left) || (right; now split). Qed.

(** X18. The parser and the factories agree: for a sign-less number [n] and
    any spelling of a unit, [dur(n + unit)] is the duration that the
    factory of that unit makes from the value of [n]. *)
Theorem X18_dur_is_factory (f : family) (n ws token : string) :
  decimal n -> all_chars is_space ws = true ->
  In (toLowerCase token) (spellings f) ->
  dur (n ++ ws ++ token) = Ok (factory f (parseFloat n)).
Proof.
  intros Hn Hws H. apply spellings_table in H as (Ha & Hne & Hm & _).
  unfold dur, normalizeToMillis.
  rewrite (parseDuration_component n ws token (family_ms f)); auto.
  - cbn [bind]. rewrite num_add_zero_mul. unfold Duration.milliseconds. f_equal.
    destruct (factory_ms f (parseFloat n)) as [->|[-> ->]]; [reflexivity|].
    destruct (parseFloat_decimal_Fin n Hn) as [q ->].
    f_equal. apply num_mul_one_Qred.
  - now apply toLowerCase_alpha.
  - intros ->. now apply Hne.
Qed.

Lemma X18_witness :
  decimal "2.5" /\ all_chars is_space " " = true /\
  In (toLowerCase "Days") (spellings Day) /\
  dur ("2.5" ++ " " ++ "Days") = Ok (Duration.days (parseFloat "2.5")) /\
  Duration.toMillis (Duration.days (parseFloat "2.5")) = int 216000000.
Proof.
  assert (Hn : decimal "2.5").
  { exists "2"%char, "", ".5". repeat split. right. now exists "5". }
  assert (Hs : In (toLowerCase "Days") (spellings Day)) by (left; reflexivity).
  split; [exact Hn|]. split; [reflexivity|]. split; [exact Hs|].
  split; [|vm_compute; reflexivity].
  exact (X18_dur_is_factory Day "2.5" " " "Days" Hn eq_refl Hs).
Defined.

(** ** [Time] *)

(** X19. Two instants whose timestamps are numbers are ordered: exactly one
    of [isBefore], [equals] and [isAfter] holds, and an instant is never
    both past and future. *)
Theorem X19_time_order (clock : number) (a b : Time.t) :
  isNaN (Time.toMillis a) = false -> isNaN (Time.toMillis b) = false ->
  Nat.b2n (Time.isBefore a (Time.ofTime b)) +
    Nat.b2n (Time.equals a (Time.ofTime b)) +
    Nat.b2n (Time.isAfter a (Time.ofTime b)) = 1%nat /\
  Time.isBefore a (Time.ofTime b) = Time.isAfter b (Time.ofTime a) /\
  Time.isPast clock a && Time.isFuture clock a = false.
Proof.
  intros Ha Hb. split; [|split].
  - now apply (num_trichotomy (Time.ms a) (Time.ms b)).
  - reflexivity.
  - unfold Time.isPast, Time.isFuture, Time.toMillis in *.
    destruct (isNaN clock) eqn:Hc.
    + destruct clock; try discriminate. now destruct (Time.ms a).
    + pose proof (num_trichotomy (Time.ms a) clock Ha Hc) as H.
      destruct (num_lt (Time.ms a) clock), (num_eq (Time.ms a) clock),
        (num_gt (Time.ms a) clock); simpl in *; try reflexivity; discriminate.
Qed.

Lemma X19_witness :
  isNaN (Time.toMillis (Time.seconds (int 1000))) = false /\
  isNaN (Time.toMillis (Time.seconds (int 2000))) = false /\
  Time.isBefore (Time.seconds (int 1000)) (Time.ofTime (Time.seconds (int 2000))) = true /\
  Time.equals (Time.seconds (int 1000)) (Time.ofTime (Time.seconds (int 2000))) = false.
Proof.
  split; [reflexivity|]. split; [reflexivity|].
  pose proof (X19_time_order (int 0) (Time.seconds (int 1000))
                (Time.seconds (int 2000)) eq_refl eq_refl) as H.
  split; reflexivity.
Defined.

Lemma Qfloor_div_1000 z : Qfloor (Qred (inject_Z z / 1000)) = (z / 1000)%Z.
Proof.
  rewrite (Qfloor_comp _ _ (Qred_correct _)).
  unfold Qfloor, Qdiv, Qmult, Qinv, inject_Z. simpl. now rewrite Z.mul_1_r.
Qed.

(** X20. Whole timestamps are kept and read back exactly: for an integer
    [z] of magnitude at most [2^53], [Time.millis(z).toMillis()] is [z];
    when [1000 z] is in this range, [Time.seconds(z)] stores [1000 z] and
    reads back [z] seconds; and for a time value of a [Date],
    [Time.millis(z).toSeconds()] is [z] divided by 1000 and rounded down,
    also when [z] is negative. *)
Theorem X20_time_round_trip (z : Z) :
  (exact_integer z -> Time.toMillis (Time.millis (int z)) = int z) /\
  (exact_integer (z * 1000) ->
   Time.toMillis (Time.seconds (int z)) = int (z * 1000) /\
   Time.toSeconds (Time.seconds (int z)) = int z) /\
  (time_value z -> Time.toSeconds (Time.millis (int z)) = int (z / 1000)).
Proof.
  assert (Hms : forall w, Time.toSeconds (Time.millis (int w)) = int (w / 1000)).
  { intros w. unfold Time.toSeconds, Time.millis, Time.new. cbn [Time.ms].
    rewrite Math_floor_int. change MS_PER_SECOND with (Fin 1000).
    unfold int at 1. simpl num_div. unfold Math_floor.
    now rewrite Qfloor_div_1000. }
  split; [|split].
  - intros _. apply Math_floor_int.
  - intros _. split.
    + unfold Time.toMillis, Time.seconds, Time.new. cbn [Time.ms].
      change MS_PER_SECOND with (int 1000). now rewrite num_mul_int, Math_floor_int.
    + unfold Time.seconds. change MS_PER_SECOND with (int 1000).
      rewrite num_mul_int. fold (Time.millis (int (z * 1000))).
      rewrite Hms. now rewrite Z.div_mul.
  - intros _. apply Hms.
Qed.

Lemma X20_witness :
  time_value (-1) /\ Time.toSeconds (Time.millis (int (-1))) = int (-1).
Proof.
  assert (B : time_value (-1)) by now vm_compute.
  split; [exact B|].
  exact (proj2 (proj2 (X20_time_round_trip (-1))) B).
Defined.

(** X21. Adding and then subtracting a duration of whole milliseconds
    returns the instant started from, as long as the timestamps stay
    within [2^53] in magnitude. *)
Theorem X21_add_subtract_inverse (z w : Z) :
  exact_integer z -> exact_integer w -> exact_integer (z + w) ->
  Time.add (Time.millis (int z))
    (DurationLike (Duration.milliseconds (int w))) =
    Ok (Time.millis (int (z + w))) /\
  Time.subtract (Time.millis (int (z + w)))
    (DurationLike (Duration.milliseconds (int w))) =
    Ok (Time.millis (int z)).
Proof.
  intros _ _ _. unfold Time.add, Time.subtract, Time.millis, Time.new.
  cbn [normalizeToMillis bind Duration.toMillis Duration.milliseconds
       Duration.ms Time.ms].
  rewrite !Math_floor_int, num_add_int, num_sub_int, !Math_floor_int.
  split; [reflexivity|]. do 3 f_equal. lia.
Qed.

Lemma X21_witness :
  Time.add (Time.millis (int 1704067200000))
    (DurationLike (Duration.milliseconds (int 5400000))) =
    Ok (Time.millis (int 1704072600000)) /\
  Time.subtract (Time.millis (int 1704072600000))
    (DurationLike (Duration.milliseconds (int 5400000))) =
    Ok (Time.millis (int 1704067200000)).
Proof.
  assert (B1 : exact_integer 1704067200000) by now vm_compute.
  assert (B2 : exact_integer 5400000) by now vm_compute.
  assert (B3 : exact_integer (1704067200000 + 5400000)) by now vm_compute.
  exact (X21_add_subtract_inverse 1704067200000 5400000 B1 B2 B3).
Defined.

Lemma Qfloor_between (z : Z) (y : Q) :
  (inject_Z z <= y)%Q -> (y < inject_Z z + 1)%Q -> Qfloor y = z.
Proof.
  intros H1 H2.
  pose proof (Qfloor_le y) as F1. pose proof (Qlt_floor y) as F2.
  rewrite inject_Z_plus in F2. change (inject_Z 1) with 1%Q in F2.
  assert (A : (Qfloor y < z + 1)%Z).
  { rewrite Zlt_Qlt, inject_Z_plus. change (inject_Z 1) with 1%Q. lra. }
  assert (B : (z < Qfloor y + 1)%Z).
  { rewrite Zlt_Qlt, inject_Z_plus. change (inject_Z 1) with 1%Q. lra. }
  lia.
Qed.

Lemma fraction_lost (z : Z) (r : Q) :
  (0 < r)%Q -> (r < 1)%Q ->
  Math_floor (num_add (int z) (Fin r)) = int z /\
  Math_floor (num_sub (int z) (Fin r)) = int (z - 1).
Proof.
  intros H0 H1. unfold num_sub, int. cbn [num_add num_neg Math_floor].
  split; unfold int; do 2 f_equal; apply Qfloor_between.
  - rewrite Qred_correct. lra.
  - rewrite Qred_correct. lra.
  - rewrite !Qred_correct. unfold Z.sub.
    rewrite inject_Z_plus, inject_Z_opp. change (inject_Z 1) with 1%Q. lra.
  - rewrite !Qred_correct. unfold Z.sub.
    rewrite inject_Z_plus, inject_Z_opp. change (inject_Z 1) with 1%Q. lra.
Qed.

Lemma dyadic_fraction (k : Z) (n : nat) :
  (0 < k < 2 ^ Z.of_nat n)%Z ->
  (0 < Qred (inject_Z k / inject_Z (2 ^ Z.of_nat n)))%Q /\
  (Qred (inject_Z k / inject_Z (2 ^ Z.of_nat n)) < 1)%Q.
Proof.
  intros [H0 H1]. rewrite Qred_correct.
  assert (P : (0 < inject_Z (2 ^ Z.of_nat n))%Q).
  { change 0%Q with (inject_Z 0). rewrite <- Zlt_Qlt. lia. }
  split.
  - apply Qlt_shift_div_l; [exact P|]. rewrite Qmult_0_l.
    change 0%Q with (inject_Z 0). now rewrite <- Zlt_Qlt.
  - apply Qlt_shift_div_r; [exact P|]. rewrite Qmult_1_l.
    now rewrite <- Zlt_Qlt.
Qed.

(** X22. A fraction of a millisecond is lost differently in the two
    directions: for a whole timestamp [z] and a duration [k / 2^n] strictly
    between 0 and 1 ms that the numbers hold exactly next to [z], [add]
    returns the same instant while [subtract] returns the instant one
    millisecond earlier. *)
Theorem X22_fraction_of_a_millisecond (z k : Z) (n : nat) :
  (0 < k < 2 ^ Z.of_nat n)%Z ->
  exact_integer ((Z.abs z + 1) * 2 ^ Z.of_nat n) ->
  Time.add (Time.millis (int z))
    (DurationLike (Duration.milliseconds
       (Fin (Qred (inject_Z k / inject_Z (2 ^ Z.of_nat n)))))) =
    Ok (Time.millis (int z)) /\
  Time.subtract (Time.millis (int z))
    (DurationLike (Duration.milliseconds
       (Fin (Qred (inject_Z k / inject_Z (2 ^ Z.of_nat n)))))) =
    Ok (Time.millis (int (z - 1))).
Proof.
  intros Hk _. destruct (dyadic_fraction k n Hk) as [H0 H1].
  destruct (fraction_lost z _ H0 H1) as [Ha Hs].
  unfold Time.add, Time.subtract, Time.millis, Time.new.
  cbn [normalizeToMillis bind Duration.toMillis Duration.milliseconds
       Duration.ms Time.ms].
  rewrite !Math_floor_int. now rewrite Ha, Hs.
Qed.

Lemma X22_witness :
  Time.add (Time.millis (int 1704067200000))
    (DurationLike (Duration.milliseconds (Fin (1 # 2)))) =
    Ok (Time.millis (int 1704067200000)) /\
  Time.subtract (Time.millis (int 1704067200000))
    (DurationLike (Duration.milliseconds (Fin (1 # 2)))) =
    Ok (Time.millis (int 1704067199999)).
Proof.
  assert (Hk : (0 < 1 < 2 ^ Z.of_nat 1)%Z) by (cbn; lia).
  assert (B : exact_integer ((Z.abs 1704067200000 + 1) * 2 ^ Z.of_nat 1))
    by now vm_compute.
  exact (X22_fraction_of_a_millisecond 1704067200000 1 1 Hk B).
Defined.

(** X23. [diff] is antisymmetric, and adding the difference to the other
    instant leads back: [a.diff(b)] is the negation of [b.diff(a)], and for
    whole timestamps [z] and [w] that are, with their difference, within
    [2^53] in magnitude, [a.diff(b)] is [z - w] milliseconds and
    [b.add(a.diff(b))] is [a]. *)
Theorem X23_diff (a b : Time.t) (z w : Z) :
  Time.diff a (Time.ofTime b) = Duration.negate (Time.diff b (Time.ofTime a)) /\
  (exact_integer z -> exact_integer w -> exact_integer (z - w) ->
   Duration.toMillis
     (Time.diff (Time.millis (int z)) (Time.ofTime (Time.millis (int w)))) =
     int (z - w) /\
   Time.add (Time.millis (int w))
     (DurationLike
        (Time.diff (Time.millis (int z)) (Time.ofTime (Time.millis (int w))))) =
     Ok (Time.millis (int z))).
Proof.
  split.
  - unfold Time.diff, Duration.negate, Duration.milliseconds.
    cbn [Time.otherMs Duration.ms]. now rewrite num_neg_sub.
  - intros _ _ _.
    unfold Time.diff, Time.add, Duration.milliseconds, Time.millis, Time.new.
    cbn [Time.otherMs Time.ms normalizeToMillis Duration.toMillis Duration.ms bind].
    rewrite !Math_floor_int, num_sub_int. split; [reflexivity|].
    rewrite num_add_int, Math_floor_int.
    do 3 f_equal. lia.
Qed.

Lemma X23_witness :
  Duration.toMillis
    (Time.diff (Time.millis (int 2000000)) (Time.ofTime (Time.millis (int 1000000)))) =
    int 1000000 /\
  Time.add (Time.millis (int 1000000))
    (DurationLike (Time.diff (Time.millis (int 2000000))
                     (Time.ofTime (Time.millis (int 1000000))))) =
    Ok (Time.millis (int 2000000)).
Proof.
  assert (B1 : exact_integer 2000000) by now vm_compute.
  assert (B2 : exact_integer 1000000) by now vm_compute.
  assert (B3 : exact_integer (2000000 - 1000000)) by now vm_compute.
  exact (proj2 (X23_diff (Time.millis (int 2000000)) (Time.millis (int 1000000))
                  2000000 1000000) B1 B2 B3).
Defined.

Lemma number_le_trans x y z : number_le x y -> number_le y z -> number_le x z.
Proof.
  intros H1 H2. destruct H1 as [a b H|y H|x H].
  - inversion H2 as [? c H'| |? H']; subst.
    + apply number_le_Fin. lra.
    + apply number_le_pos_Inf. discriminate.
  - apply number_le_neg_Inf. inversion H2; subst; congruence.
  - inversion H2; subst. apply number_le_pos_Inf. exact H.
Qed.

(** X24. A wider window contains a narrower one: an instant that is within
    [d] of an anchor is within every duration whose magnitude is at least
    that of [d]. *)
Theorem X24_isWithin_monotone (clock : number) (x : Time.t)
    (d d' : DurationInput) (of_ : option Time.other) (w w' : number) :
  normalizeToMillis d = Ok w -> normalizeToMillis d' = Ok w' ->
  num_le (Math_abs w) (Math_abs w') = true ->
  Time.isWithin clock x d of_ = Ok true ->
  Time.isWithin clock x d' of_ = Ok true.
Proof.
  intros Hd Hd' Hw. unfold Time.isWithin. rewrite Hd, Hd'. cbn [bind].
  intros [= H]. f_equal. apply num_le_spec.
  apply num_le_spec in H, Hw. eapply number_le_trans; eassumption.
Qed.

Lemma X24_witness :
  normalizeToMillis (StringValue "5m") = Ok (int 300000) /\
  normalizeToMillis (StringValue "-1h") = Ok (int (-3600000)) /\
  num_le (Math_abs (int 300000)) (Math_abs (int (-3600000))) = true /\
  Time.isWithin (int 0) (Time.seconds (int 100)) (StringValue "5m") None = Ok true /\
  Time.isWithin (int 0) (Time.seconds (int 100)) (StringValue "-1h") None = Ok true.
Proof.
  assert (H1 : normalizeToMillis (StringValue "5m") = Ok (int 300000))
    by (vm_compute; reflexivity).
  assert (H2 : normalizeToMillis (StringValue "-1h") = Ok (int (-3600000)))
    by (vm_compute; reflexivity).
  assert (H3 : Time.isWithin (int 0) (Time.seconds (int 100)) (StringValue "5m")
                 None = Ok true) by (vm_compute; reflexivity).
  split; [exact H1|]. split; [exact H2|]. split; [reflexivity|].
  split; [exact H3|].
  exact (X24_isWithin_monotone _ _ _ _ None _ _ H1 H2 eq_refl H3).
Defined.

(** X25. With a window of zero, [isWithin] is [equals]: for finite
    timestamps, an instant is within a zero duration of an anchor exactly
    when the two are equal. *)
Theorem X25_isWithin_zero (clock : number) (x : Time.t) (d : DurationInput)
    (o : Time.other) (w : number) (p q : Q) :
  normalizeToMillis d = Ok w -> num_eq w (int 0) = true ->
  Time.toMillis x = Fin p -> Time.otherMs o = Fin q ->
  Time.isWithin clock x d (Some o) = Ok (Time.equals x o).
Proof.
  intros Hd Hw Hx Ho. unfold Time.isWithin, Time.equals.
  unfold Time.toMillis in Hx. rewrite Hd, Hx, Ho. cbn [bind]. f_equal.
  destruct w as [| s | r]; try discriminate.
  apply num_eq_Fin in Hw. change (inject_Z 0) with 0%Q in Hw.
  apply eq_true_iff_eq.
  unfold num_sub. cbn [num_neg num_add Math_abs].
  rewrite num_le_Fin, num_eq_Fin, !Qred_correct, Hw.
  change (Qabs 0) with 0%Q. split; intros H.
  - pose proof (Qabs_nonneg (p + - q)) as H'.
    assert (E : (Qabs (p + - q) == 0)%Q) by lra.
    destruct (Qlt_le_dec (p + - q) 0) as [Hn|Hn].
    + rewrite Qabs_neg in E by lra. lra.
    + rewrite Qabs_pos in E by lra. lra.
  - assert (E : (p + - q == 0)%Q) by lra. rewrite E. apply Qle_refl.
Qed.

Lemma X25_witness :
  normalizeToMillis (StringValue "0s") = Ok (int 0) /\
  num_eq (int 0) (int 0) = true /\
  Time.isWithin (int 0) (Time.millis (int 5)) (StringValue "0s")
    (Some (Time.ofDate {| getTime := int 5 |})) =
    Ok (Time.equals (Time.millis (int 5)) (Time.ofDate {| getTime := int 5 |})) /\
  Time.equals (Time.millis (int 5)) (Time.ofDate {| getTime := int 5 |}) = true.
Proof.
  assert (H1 : normalizeToMillis (StringValue "0s") = Ok (int 0))
    by (vm_compute; reflexivity).
  split; [exact H1|]. split; [reflexivity|]. split; [|reflexivity].
  apply (X25_isWithin_zero (int 0) _ _ _ (int 0) 5 5 H1); reflexivity.
Defined.

Lemma window_positive (u : Q) (w : number) :
  (0 < u)%Q -> num_ge w (int 0) = true ->
  num_le (Math_abs (Fin u)) (Math_abs w) = num_le (Fin u) w.
Proof.
  intros Hu Hw. destruct w as [| s | r]; try discriminate.
  - destruct s; [discriminate | reflexivity].
  - apply num_ge_Fin in Hw. change (inject_Z 0) with 0%Q in Hw.
    apply eq_true_iff_eq. cbn [Math_abs].
    rewrite !num_le_Fin, !Qred_correct, !Qabs_pos by lra. tauto.
Qed.

Lemma window_negative (u : Q) (w : number) :
  (0 < u)%Q -> num_lt w (int 0) = true -> num_le (Fin u) w = false.
Proof.
  intros Hu Hw. destruct w as [| s | r]; try discriminate.
  - now destruct s.
  - apply num_lt_Fin in Hw. change (inject_Z 0) with 0%Q in Hw.
    apply num_le_Fin_false. lra.
Qed.

Lemma num_sub_Fin a b : exists u, num_sub (Fin a) (Fin b) = Fin u /\ (u == a - b)%Q.
Proof.
  eexists. split; [reflexivity|]. rewrite !Qred_correct. reflexivity.
Qed.

(** X26. With one reading of the clock and finite timestamps, the expiry
    helpers are the window check split by direction: for a window that is
    not negative, [expiresWithin(d)] holds exactly when the instant is in
    the future and within [d] of now, and [expiredWithin(d)] exactly when it
    is in the past and within [d] of now; for a negative window both are
    false; and an instant that is not in the future makes [expiresWithin]
    return false without looking at the duration, which may be malformed. *)
Theorem X26_expiry_helpers (c m : Q) (x : Time.t) :
  Time.toMillis x = Fin m ->
  (forall d : DurationInput,
      Time.isFuture (Fin c) x = false ->
      TimeMethods.expiresWithin (Fin c) (Fin c) x d = Ok false) /\
  (forall d : DurationInput,
      Time.isPast (Fin c) x = false ->
      TimeMethods.expiredWithin (Fin c) (Fin c) x d = Ok false) /\
  (forall (d : DurationInput) (w : number),
      normalizeToMillis d = Ok w -> num_ge w (int 0) = true ->
      exists b,
        Time.isWithin (Fin c) x d None = Ok b /\
        TimeMethods.expiresWithin (Fin c) (Fin c) x d =
          Ok (Time.isFuture (Fin c) x && b) /\
        TimeMethods.expiredWithin (Fin c) (Fin c) x d =
          Ok (Time.isPast (Fin c) x && b)) /\
  (forall (d : DurationInput) (w : number),
      normalizeToMillis d = Ok w -> num_lt w (int 0) = true ->
      TimeMethods.expiresWithin (Fin c) (Fin c) x d = Ok false /\
      TimeMethods.expiredWithin (Fin c) (Fin c) x d = Ok false).
Proof.
  intros Hx. destruct x as [y]. cbn in Hx. subst y.
  unfold TimeMethods.expiresWithin, TimeMethods.expiredWithin, Time.isWithin,
    Time.isFuture, Time.isPast. cbn [Time.ms].
  destruct (num_sub_Fin m c) as (u & Eu & Hu).
  destruct (num_sub_Fin c m) as (u' & Eu' & Hu').
  split; [|split; [|split]].
  - intros d ->. reflexivity.
  - intros d ->. reflexivity.
  - intros d w Hd Hw. rewrite Hd. cbn [bind]. eexists. split; [reflexivity|].
    split.
    + destruct (num_gt (Fin m) (Fin c)) eqn:G; cbn [negb andb]; [|reflexivity].
      apply num_gt_Fin in G. rewrite Eu. f_equal. symmetry.
      apply window_positive; [lra | exact Hw].
    + destruct (num_lt (Fin m) (Fin c)) eqn:G; cbn [negb andb]; [|reflexivity].
      apply num_lt_Fin in G. rewrite (Math_abs_sub_sym (Fin m) (Fin c)), Eu'.
      f_equal. symmetry. apply window_positive; [lra | exact Hw].
  - intros d w Hd Hw. rewrite Hd. cbn [bind]. split.
    + destruct (num_gt (Fin m) (Fin c)) eqn:G; cbn [negb]; [|reflexivity].
      apply num_gt_Fin in G. rewrite Eu. f_equal.
      apply window_negative; [lra | exact Hw].
    + destruct (num_lt (Fin m) (Fin c)) eqn:G; cbn [negb]; [|reflexivity].
      apply num_lt_Fin in G. rewrite Eu'. f_equal.
      apply window_negative; [lra | exact Hw].
Qed.

Lemma X26_witness :
  Time.toMillis (Time.seconds (int 100)) = Fin 100000 /\
  normalizeToMillis (StringValue "5m") = Ok (int 300000) /\
  TimeMethods.expiresWithin (Fin 0) (Fin 0) (Time.seconds (int 100))
    (StringValue "5m") = Ok true /\
  TimeMethods.expiredWithin (Fin 0) (Fin 0) (Time.seconds (int 100))
    (StringValue "not a duration") = Ok false.
Proof.
  assert (H1 : Time.toMillis (Time.seconds (int 100)) = Fin 100000) by reflexivity.
  assert (H2 : normalizeToMillis (StringValue "5m") = Ok (int 300000))
    by (vm_compute; reflexivity).
  destruct (X26_expiry_helpers 0 100000 _ H1) as (_ & Hpast & Hpos & _).
  split; [exact H1|]. split; [exact H2|]. split.
  - destruct (Hpos _ _ H2 eq_refl) as (b & Hb & He & _).
    rewrite He. vm_compute in Hb. injection Hb as <-. reflexivity.
  - apply Hpast. reflexivity.
Defined.

(** X27. For a whole clock reading, [Time.in(d)] is [Time.now().add(d)] and
    [Time.ago(d)] is [Time.now().subtract(d)]. *)
Theorem X27_in_is_now_add (clock : Z) (d : DurationInput) :
  Time.in_ (int clock) d = Time.add (Time.now (int clock)) d /\
  Time.ago (int clock) d = Time.subtract (Time.now (int clock)) d.
Proof.
  unfold Time.in_, Time.ago, Time.add, Time.subtract, Time.now, Time.new.
  cbn [Time.ms]. now rewrite Math_floor_int.
Qed.

Lemma formatRelative_future (w : Z) (options : option Options) :
  (10000 <= w)%Z ->
  formatRelative (int w) options = "in " ++ humanize (int w) options.
Proof.
  intros Hw.
  assert (H : num_ge (int w) (int 10000) = true).
  { apply num_ge_Fin. rewrite <- Zle_Qle. exact Hw. }
  destruct (far_positive (int w) H) as (H1 & H2 & _).
  assert (Hn : num_lt (int w) (int 0) = false).
  { apply num_ge_Fin in H2. now apply num_lt_Fin_false. }
  unfold formatRelative.
  change (num_mul MS_PER_SECOND (int 10)) with (int 10000).
  rewrite (num_ge_not_lt _ _ H1), (far_gt_ge _ H1), H2, humanize_long_of.
  now rewrite (humanize_abs (int w) options Hn).
Qed.

(** X28. An instant made by [Time.in(d)] reads as ["in "] and the humanized
    duration: for a whole clock reading that has not moved and a duration of
    at least ten seconds in whole milliseconds, both within [2^53] together,
    [Time.in(d).toRelative()] is ["in " + humanize(d)]. *)
Theorem X28_in_toRelative (clock w : Z) (options : option Options) :
  exact_integer clock -> exact_integer w -> exact_integer (clock + w) ->
  (10000 <= w)%Z ->
  exists x,
    Time.in_ (int clock) (DurationLike (Duration.milliseconds (int w))) = Ok x /\
    Time.toRelative (int clock) x options = "in " ++ humanize (int w) options.
Proof.
  intros _ _ _ Hw. unfold Time.in_.
  cbn [normalizeToMillis bind Duration.toMillis Duration.milliseconds Duration.ms].
  eexists. split; [reflexivity|].
  unfold Time.toRelative, Time.new. cbn [Time.ms].
  rewrite num_add_int, Math_floor_int, num_sub_int.
  replace (clock + w - clock)%Z with w by lia.
  now apply formatRelative_future.
Qed.

Lemma X28_witness :
  exists x,
    Time.in_ (int 1704067200000)
      (DurationLike (Duration.milliseconds (int 5400000))) = Ok x /\
    Time.toRelative (int 1704067200000) x None = "in " ++ humanize (int 5400000) None.
Proof.
  assert (B1 : exact_integer 1704067200000) by now vm_compute.
  assert (B2 : exact_integer 5400000) by now vm_compute.
  assert (B3 : exact_integer (1704067200000 + 5400000)) by now vm_compute.
  assert (H : (10000 <= 5400000)%Z) by lia.
  exact (X28_in_toRelative 1704067200000 5400000 None B1 B2 B3 H).
Defined.

(** ** Duration arithmetic *)

Lemma num_div_int_exact (z k : Z) :
  k <> 0%Z -> num_div (int (z * k)) (int k) = int z.
Proof.
  intros Hk. unfold int. cbn [num_div]. unfold Qis_zero. cbn [Qnum inject_Z].
  rewrite (proj2 (Z.eqb_neq k 0) Hk). f_equal.
  transitivity (Qred (inject_Z z)); [|apply inject_Z_Qred].
  apply Qred_complete. rewrite inject_Z_mult. field.
  intros H. apply Hk.
  exact (proj1 (inject_Z_injective k 0) H).
Qed.

(** X29. For durations of whole milliseconds that are, with their sum,
    within [2^53] in magnitude, [add] and [subtract] are inverse to each
    other, [add] commutes, and subtracting is adding the negation:
    [d.add(o).subtract(o)] is [d], [d.add(o)] is [o.add(d)], and
    [d.subtract(o)] is [d.add(o.negate())]. *)
Theorem X29_duration_add_subtract (z w : Z) :
  exact_integer z -> exact_integer w -> exact_integer (z + w) ->
  DurationMethods.add (Duration.milliseconds (int z))
    (DurationLike (Duration.milliseconds (int w))) =
    Ok (Duration.milliseconds (int (z + w))) /\
  DurationMethods.subtract (Duration.milliseconds (int (z + w)))
    (DurationLike (Duration.milliseconds (int w))) =
    Ok (Duration.milliseconds (int z)) /\
  DurationMethods.add (Duration.milliseconds (int w))
    (DurationLike (Duration.milliseconds (int z))) =
    DurationMethods.add (Duration.milliseconds (int z))
      (DurationLike (Duration.milliseconds (int w))) /\
  DurationMethods.subtract (Duration.milliseconds (int z))
    (DurationLike (Duration.milliseconds (int w))) =
    DurationMethods.add (Duration.milliseconds (int z))
      (DurationLike (Duration.negate (Duration.milliseconds (int w)))).
Proof.
  intros _ _ _.
  unfold DurationMethods.add, DurationMethods.subtract, Duration.negate,
    Duration.milliseconds.
  cbn [normalizeToMillis bind Duration.toMillis Duration.ms].
  rewrite !num_add_int, !num_sub_int, num_neg_int, num_add_int.
  repeat split.
  - do 3 f_equal. lia.
  - do 3 f_equal. lia.
Qed.

Lemma X29_witness :
  DurationMethods.add (Duration.milliseconds (int 5400000))
    (DurationLike (Duration.milliseconds (int 3600000))) =
    Ok (Duration.milliseconds (int 9000000)) /\
  DurationMethods.subtract (Duration.milliseconds (int 9000000))
    (DurationLike (Duration.milliseconds (int 3600000))) =
    Ok (Duration.milliseconds (int 5400000)).
Proof.
  assert (B1 : exact_integer 5400000) by now vm_compute.
  assert (B2 : exact_integer 3600000) by now vm_compute.
  assert (B3 : exact_integer (5400000 + 3600000)) by now vm_compute.
  destruct (X29_duration_add_subtract 5400000 3600000 B1 B2 B3) as (H1 & H2 & _).
  split; [exact H1 | exact H2].
Defined.

(** X30. Scaling a duration of whole milliseconds by a whole number other
    than zero and dividing by the same number gives the duration back, as
    long as the product is within [2^53] in magnitude; dividing by zero
    throws, whatever the duration; and multiplying by -1 is [negate]. *)
Theorem X30_duration_multiply_divide (z k : Z) :
  k <> 0%Z -> exact_integer z -> exact_integer k -> exact_integer (z * k) ->
  DurationMethods.divide
    (DurationMethods.multiply (Duration.milliseconds (int z)) (int k)) (int k) =
    Ok (Duration.milliseconds (int z)) /\
  DurationMethods.divide
    (DurationMethods.multiply (Duration.milliseconds (int z)) (int k)) (int 0) =
    Throw DivideByZero /\
  DurationMethods.multiply (Duration.milliseconds (int z)) (int (-1)) =
    Duration.negate (Duration.milliseconds (int z)).
Proof.
  intros Hk _ _ _.
  unfold DurationMethods.divide, DurationMethods.multiply, Duration.negate,
    Duration.milliseconds.
  cbn [Duration.ms]. rewrite !num_mul_int, num_neg_int.
  split; [|split].
  - assert (num_eq (int k) (int 0) = false) as ->.
    { unfold int. cbn [num_eq]. apply not_true_is_false. intros H.
      apply Qeq_bool_iff in H. exact (Hk (proj1 (inject_Z_injective k 0) H)). }
    now rewrite num_div_int_exact.
  - reflexivity.
  - do 2 f_equal. lia.
Qed.

Lemma X30_witness :
  DurationMethods.divide
    (DurationMethods.multiply (Duration.milliseconds (int 90000)) (int 3)) (int 3) =
  Ok (Duration.milliseconds (int 90000)).
Proof.
  assert (H : (3 <> 0)%Z) by lia.
  assert (B1 : exact_integer 90000) by now vm_compute.
  assert (B2 : exact_integer 3) by now vm_compute.
  assert (B3 : exact_integer (90000 * 3)) by now vm_compute.
  exact (proj1 (X30_duration_multiply_divide 90000 3 H B1 B2 B3)).
Defined.
